(** * SUB and UPW package adapters of flopy: a shallow embedding

    The development follows [flopy/modflow/mfsub.py] (class [ModflowSub]) and
    [flopy/modflow/mfupw.py] (class [ModflowUpw]).  Text files are strings,
    Python exceptions are an error type, the host model and the package
    object are records threaded through a small state-and-error monad. *)

From Stdlib Require Import Ascii DecimalString DecimalN DecimalZ.
From stdpp Require Import base numbers option list gmap strings.

Open Scope Z_scope.

(** ** Python values and built-ins used by the two modules *)

Module Py.

(** Exceptions the two modules can raise (directly or through a built-in). *)
Inductive exn :=
  | ValueError | IndexError | KeyError | AttributeError | NameError
  | TypeError | OverflowError | ShapeError | CodecError
  | LaywetError   (* Exception('LAYWET should be 0 for UPW') *).

Inductive result (A : Type) :=
  | Ok (a : A)
  | Raise (e : exn).
Arguments Ok {A} a.
Arguments Raise {A} e.

Definition is_ok {A} (r : result A) : bool :=
  match r with Ok _ => true | Raise _ => false end.

Definition nl : string := String (ascii_of_nat 10) EmptyString.

(** Characters on which [str.split()] with no argument splits. *)
Definition is_space (c : ascii) : bool :=
  let n := nat_of_ascii c in
  ((n =? 32) || ((9 <=? n) && (n <=? 13)) || ((28 <=? n) && (n <=? 31)))%nat.

Definition is_empty (s : string) : bool :=
  match s with EmptyString => true | _ => false end.

(** Every character of [s] passes [p]. *)
Fixpoint all_chars (p : ascii -> bool) (s : string) : bool :=
  match s with
  | EmptyString => true
  | String c s' => p c && all_chars p s'
  end.

Definition not_space (c : ascii) : bool := negb (is_space c).
Definition not_newline (c : ascii) : bool := negb (nat_of_ascii c =? 10)%nat.

(** A word: what [str.split()] returns as one item. *)
Definition is_word (s : string) : bool := negb (is_empty s) && all_chars not_space s.

(** [tokens_from w s]: the words of [s], [w] being the word under way. *)
Fixpoint tokens_from (w s : string) : list string :=
  match s with
  | EmptyString => if is_empty w then [] else [w]
  | String c s' =>
      if is_space c
      then (if is_empty w then tokens_from "" s' else w :: tokens_from "" s')
      else tokens_from (w +:+ String c "") s'
  end.

(** [line.strip().split()]: stripping first does not change the words. *)
Definition strip_split (line : string) : list string := tokens_from "" line.

(** [f.readline()] on the unread rest of a text file: the line with its
    newline, and what is left; the empty string at the end of the file. *)
Fixpoint readline (s : string) : string * string :=
  match s with
  | EmptyString => ("", "")
  | String c s' =>
      if (nat_of_ascii c =? 10)%nat then (String c "", s')
      else let (l, r) := readline s' in (String c l, r)
  end.

(** [int(tok)] on a word: an optional sign and decimal digits (ASCII,
    without the underscores that later versions of Python accept). *)
Definition int (tok : string) : result Z :=
  match tok with
  | String "+"%char s' =>
      match NilZero.uint_of_string s' with
      | Some u => Ok (Z.of_N (N.of_uint u))
      | None => Raise ValueError
      end
  | _ =>
      match NilZero.int_of_string tok with
      | Some i => Ok (Z.of_int i)
      | None => Raise ValueError
      end
  end.

(** ['{}'.format(z)] for an integer. *)
Definition str_int (z : Z) : string := NilZero.string_of_int (Z.to_int z).

(** numpy's [np.int] arrays hold 64-bit signed integers. *)
Definition wrap64 (z : Z) : Z := (z + 2 ^ 63) mod 2 ^ 64 - 2 ^ 63.
Definition in_int64 (z : Z) : bool := (- 2 ^ 63 <=? z) && (z <? 2 ^ 63).

(** [t[i]] on a Python list. *)
Definition index {A} (l : list A) (i : nat) : result A :=
  match l !! i with Some a => Ok a | None => Raise IndexError end.

(** *** Floats

    The modules only read floats with [float(tok)] and print them with
    ['{}'.format(x)], without arithmetic.  A finite float is held as the
    decimal it stands for, [(-1)^neg * mant * 10^exp] with [mant] free of
    trailing zeros; the rounding of literals of more than 17 significant
    digits to binary64 is outside this model. *)
Inductive pyfloat :=
  | Fin (neg : bool) (mant : N) (exp : Z)
  | Inf (neg : bool)
  | NaN.

Fixpoint strip_zeros (fuel : nat) (m : N) (e : Z) : N * Z :=
  match fuel with
  | O => (m, e)
  | S k => if (m mod 10 =? 0)%N then strip_zeros k (m / 10)%N (e + 1) else (m, e)
  end.

Definition mk_float (neg : bool) (m : N) (e : Z) : pyfloat :=
  if (m =? 0)%N then Fin neg 0 0
  else let (m', e') := strip_zeros (N.size_nat m) m e in Fin neg m' e'.

Definition is_digit (c : ascii) : bool :=
  let n := nat_of_ascii c in ((48 <=? n) && (n <=? 57))%nat.

(** The characters of a printed integer, and of a printed float. *)
Definition is_int_char (c : ascii) : bool :=
  is_digit c || bool_decide (c = "-"%char).

Definition is_float_char (c : ascii) : bool :=
  is_digit c || bool_decide (c ∈ ["-"; "+"; "."; "e"; "i"; "n"; "f"; "a"]%char).

(** The longest prefix of digits, and the rest. *)
Fixpoint take_digits (s : string) : string * string :=
  match s with
  | EmptyString => ("", "")
  | String c s' =>
      if is_digit c then let (d, r) := take_digits s' in (String c d, r)
      else ("", s)
  end.

Definition digits_N (s : string) : N :=
  match NilZero.uint_of_string s with Some u => N.of_uint u | None => 0%N end.

Definition lower (c : ascii) : ascii :=
  let n := nat_of_ascii c in
  if ((65 <=? n) && (n <=? 90))%nat then ascii_of_nat (n + 32) else c.

Fixpoint lower_str (s : string) : string :=
  match s with
  | EmptyString => ""
  | String c s' => String (lower c) (lower_str s')
  end.

Definition take_sign (s : string) : bool * string :=
  match s with
  | String "-"%char r => (true, r)
  | String "+"%char r => (false, r)
  | _ => (false, s)
  end.

(** [float(tok)] on a word. *)
Definition float (tok : string) : result pyfloat :=
  let (neg, body) := take_sign tok in
  let lb := lower_str body in
  if bool_decide (lb = "inf") || bool_decide (lb = "infinity") then Ok (Inf neg)
  else if bool_decide (lb = "nan") then Ok NaN
  else
    let (ip, r1) := take_digits body in
    let (fp, r2) := match r1 with
                    | String "."%char r => take_digits r
                    | _ => ("", r1)
                    end in
    let m := digits_N (ip +:+ fp) in
    let e := - Z.of_nat (String.length fp) in
    if is_empty (ip +:+ fp) then Raise ValueError
    else match r2 with
         | EmptyString => Ok (mk_float neg m e)
         | String c r3 =>
             if bool_decide (lower c = "e"%char) then
               let (eneg, r4) := take_sign r3 in
               let (ed, r5) := take_digits r4 in
               if is_empty ed || negb (is_empty r5) then Raise ValueError
               else let x := Z.of_N (digits_N ed) in
                    Ok (mk_float neg m (e + (if eneg then - x else x)))
             else Raise ValueError
         end.

Definition str_N (n : N) : string := NilZero.string_of_uint (N.to_uint n).

Fixpoint zeros (n : nat) : string :=
  match n with O => "" | S k => String "0"%char (zeros k) end.

(** ['{}'.format(x)] for a float: the shortest decimal, positional when
    the decimal point falls within [-4 < decpt <= 16], with an exponent of
    at least two digits otherwise. *)
Definition str_float (x : pyfloat) : string :=
  match x with
  | NaN => "nan"
  | Inf neg => if neg then "-inf" else "inf"
  | Fin neg m e =>
      let sign := if neg then "-" else "" in
      if (m =? 0)%N then sign +:+ "0.0"
      else
        let ds := str_N m in
        let n := String.length ds in
        let decpt := Z.of_nat n + e in
        sign +:+
        (if (decpt <=? -4) || (16 <? decpt) then
           let x := Z.abs (decpt - 1) in
           String.substring 0 1 ds
           +:+ (if (n <=? 1)%nat then "" else "." +:+ String.substring 1 (n - 1) ds)
           +:+ "e" +:+ (if decpt - 1 <? 0 then "-" else "+")
           +:+ (if x <? 10 then "0" else "") +:+ str_N (Z.to_N x)
         else if decpt <=? 0 then "0." +:+ zeros (Z.to_nat (- decpt)) +:+ ds
         else if Z.of_nat n <=? decpt
              then ds +:+ zeros (Z.to_nat decpt - n) +:+ ".0"
              else String.substring 0 (Z.to_nat decpt) ds +:+ "."
                   +:+ String.substring (Z.to_nat decpt) (n - Z.to_nat decpt) ds)
  end.

End Py.

Import Py.

(** ** A state-and-error monad

    A Python call either returns or raises; in both cases the objects it
    mutated before keep their new state. *)

Definition M (S A : Type) : Type := S -> result A * S.

Definition ret {S A} (a : A) : M S A := fun s => (Ok a, s).

Definition bind {S A B} (c : M S A) (k : A -> M S B) : M S B :=
  fun s => match c s with
           | (Ok a, s') => k a s'
           | (Raise e, s') => (Raise e, s')
           end.

Definition raise {S A} (e : exn) : M S A := fun s => (Raise e, s).

Definition lift {S A} (r : result A) : M S A := fun s => (r, s).

Definition gets {S A} (f : S -> A) : M S A := fun s => (Ok (f s), s).

Definition modify {S} (f : S -> S) : M S unit := fun s => (Ok tt, f s).

Declare Scope py_scope.
Delimit Scope py_scope with py.
Notation "x <- c ;; k" := (bind c (fun x => k))
  (at level 100, c at next level, right associativity) : py_scope.
Notation "c ;; k" := (bind c (fun _ => k))
  (at level 100, right associativity) : py_scope.
Open Scope py_scope.

(** [for x in l: body x] *)
Fixpoint for_each {S A} (l : list A) (body : A -> M S unit) : M S unit :=
  match l with
  | [] => ret tt
  | x :: l' => body x ;; for_each l' body
  end.

(** A loop that fills a list, one entry per iteration. *)
Fixpoint collect {S A B} (l : list A) (body : A -> M S B) : M S (list B) :=
  match l with
  | [] => ret []
  | x :: l' => b <- body x ;; bs <- collect l' body ;; ret (b :: bs)
  end.

(** A call keeps the part [f] of the state: it is the same afterwards,
    however the call ends. *)
Definition keeps {S X A} (f : S -> X) (c : M S A) : Prop :=
  forall s r s', c s = (r, s') -> f s' = f s.

(** [range(n)] for a Python integer [n]. *)
Definition range (n : Z) : list nat := seq 0 (Z.to_nat n).

(** [int(t[i])] and [float(t[i])] *)
Definition int_at {S} (t : list string) (i : nat) : M S Z :=
  lift (match index t i with Ok w => int w | Raise e => Raise e end).
Definition float_at {S} (t : list string) (i : nat) : M S pyfloat :=
  lift (match index t i with Ok w => float w | Raise e => Raise e end).

(** ** The host model and the collaborators

    [flopy.mbase] and [flopy.utils] are not part of the two modules. The
    host model is a record of what the modules read from it and of the two
    registries they write to; each registered package is listed by name. *)

Record dis_package := { steady : list bool; laycbd : list Z }.

Record host := {
  version : string;
  nrow : nat; ncol : nat; nlay : nat; nper : Z;
  verbose : bool;
  dis : option dis_package;          (* model.get_package('DIS') *)
  packages : list string;            (* add_package *)
  pop_key_list : list Z              (* add_pop_key_list *)
}.

(** Modelled from the spec: [model.add_package] and
    [model.add_pop_key_list] of [flopy.mbase], which are not in the two
    modules.  The host's "external-unit-number registry and package-list"
    take "simple append/lookup registration calls": each call appends its
    argument to the registry. *)
Definition add_package (name : string) : M host unit :=
  modify (fun h => {| version := version h; nrow := nrow h; ncol := ncol h;
                      nlay := nlay h; nper := nper h; verbose := verbose h;
                      dis := dis h; packages := packages h ++ [name];
                      pop_key_list := pop_key_list h |}).

Definition add_pop_key_list (k : Z) : M host unit :=
  modify (fun h => {| version := version h; nrow := nrow h; ncol := ncol h;
                      nlay := nlay h; nper := nper h; verbose := verbose h;
                      dis := dis h; packages := packages h;
                      pop_key_list := pop_key_list h ++ [k] |}).

Inductive dtype := Float32 | Int.

Inductive scalar := SInt (z : Z) | SFloat (x : pyfloat).

(** The array codec of [flopy.utils] and the numeric formats of Python and
    numpy that the modules call, for a type [grid] of two-dimensional
    arrays ([util_2d] objects).  They are parameters of the development:
    the array sub-format is not specified by the two modules.  The codec
    reads the host model and [ext_unit_dict] but registers nothing. *)
Class Externals (grid : Type) := {
  (* util_2d.load(f, model, (nrow, ncol), dtype, name, ext_unit_dict):
     the array and the unread rest of the file *)
  util_2d_load : string -> host -> nat * nat -> dtype -> string ->
                 option (gmap Z string) -> result (grid * string);
  (* util_2d.get_file_entry() *)
  get_file_entry : grid -> string;
  (* a util_2d built from one number *)
  grid_const : nat * nat -> dtype -> scalar -> grid;
  (* util_2d.string of a one-dimensional integer array *)
  u2d_string : list Z -> string;
  (* '{:15.6g}'.format(x) and '{:10.3G}'.format(x) *)
  fmt_15_6g : pyfloat -> string;
  fmt_10_3G : pyfloat -> string;
  (* storing a float in a float32 array, and casting it to np.int *)
  to_float32 : pyfloat -> pyfloat;
  float_to_int : pyfloat -> Z;
  (* mfpar.parameter_fill(model, (nrow, ncol), name, parm_dict, findlayer=k) *)
  parameter_fill : host -> nat * nat -> string -> nat -> result grid
}.

(** What a constructor accepts for an array argument: nothing, one number
    for all entries, or the entries; an entry of a three-dimensional
    argument is itself a grid or one number for the whole layer. *)
Inductive arg1 := A1None | A1Scalar (z : Z) | A1List (l : list Z).
Inductive layer (grid : Type) := LScalar (x : scalar) | LGrid (g : grid).
Arguments LScalar {grid} x.
Arguments LGrid {grid} g.
Inductive arg3 (grid : Type) :=
  | A3None | A3Scalar (x : scalar) | A3List (l : list (layer grid)).
Arguments A3None {grid}.
Arguments A3Scalar {grid} x.
Arguments A3List {grid} l.

(** Modelled from the spec: the constructors [util_2d] (for a vector of
    [n] integers) and [util_3d] (for [n] grids) of [flopy.utils], which are
    not in the two modules.  "Every array-valued field's leading dimension
    equals the scalar count that governs it"; dimensions inconsistent with
    the declared count are a [ShapeError]. *)
Definition util_1d (n : Z) (a : arg1) : result (list Z) :=
  match a with
  | A1None => Raise ShapeError
  | A1Scalar z => Ok (replicate (Z.to_nat n) z)
  | A1List l => if bool_decide (length l = Z.to_nat n) then Ok l else Raise ShapeError
  end.

Definition layer_grid `{Externals grid} (shape : nat * nat) (dt : dtype)
    (v : layer grid) : grid :=
  match v with LScalar x => grid_const shape dt x | LGrid g => g end.

Definition util_3d `{Externals grid} (n : Z) (shape : nat * nat) (dt : dtype)
    (a : arg3 grid) : result (list grid) :=
  match a with
  | A3None => Raise ShapeError
  | A3Scalar x => Ok (replicate (Z.to_nat n) (grid_const shape dt x))
  | A3List l => if bool_decide (length l = Z.to_nat n)
                then Ok (map (layer_grid shape dt) l) else Raise ShapeError
  end.

(** [l[i] = x] on a Python list or a numpy vector. *)
Definition set_item {A} (l : list A) (i : nat) (x : A) : result (list A) :=
  if bool_decide (i < length l)%nat then Ok (<[i := x]> l) else Raise IndexError.

(** [t[0:4] += d] on a numpy integer vector: the slice stops at the end
    of a shorter vector. *)
Definition shift_first4 (d : Z) (t : list Z) : list Z :=
  map (fun v => wrap64 (v + d)) (take 4 t) ++ drop 4 t.

(** What [write_file] hands to [f.write]: literal text, or the file entry
    of the grid held at index [k] of a named field. *)
Inductive chunk (grid : Type) :=
  | Text (s : string)
  | Entry (field : string) (k : nat) (g : grid).
Arguments Text {grid} s.
Arguments Entry {grid} field k g.

Definition is_entry {grid} (c : chunk grid) : bool :=
  match c with Entry _ _ _ => true | Text _ => false end.

Definition is_entry_of {grid} (field : string) (k : nat) (c : chunk grid) : bool :=
  match c with
  | Entry f j _ => bool_decide (f = field) && bool_decide (j = k)
  | Text _ => false
  end.

Definition chunk_text `{Externals grid} (c : chunk grid) : string :=
  match c with Text s => s | Entry _ _ g => get_file_entry g end.

(** The text of the file after the writes. *)
Definition file_text `{Externals grid} (out : list (chunk grid)) : string :=
  foldr (fun c s => chunk_text c +:+ s) "" out.

(** The state of a load: the unread rest of the file, the host model, the
    [ext_unit_dict] argument, and the labels of the arrays asked from the
    array codec so far. *)
Record lstate := {
  rest : string;
  hst : host;
  eud : option (gmap Z string);
  reads : list string
}.

Definition set_rest (r : string) (s : lstate) : lstate :=
  {| rest := r; hst := hst s; eud := eud s; reads := reads s |}.

(** A line that the loaders skip: it starts with [#]. *)
Definition is_comment (line : string) : bool :=
  match line with
  | EmptyString => false
  | String c r => bool_decide (c = "#"%char)
                  && all_chars not_newline r
  end.

Definition f_readline : M lstate string :=
  fun s => let (line, r) := readline (rest s) in
           (Ok line, {| rest := r; hst := hst s; eud := eud s; reads := reads s |}).

(** Running a call on the host model inside a load. *)
Definition on_host {A} (c : M host A) : M lstate A :=
  fun s => let (r, h) := c (hst s) in
           (r, {| rest := rest s; hst := h; eud := eud s; reads := reads s |}).

(** The package list of the host model, in a load state. *)
Definition pkgs (s : lstate) : list string := packages (hst s).

(** [util_2d.load(f, model, (nrow, ncol), dtype, label, ext_unit_dict)] *)
Definition load_array `{Externals grid} (dt : dtype) (label : string) : M lstate grid :=
  fun s =>
    let s1 := {| rest := rest s; hst := hst s; eud := eud s;
                 reads := reads s ++ [label] |} in
    match util_2d_load (rest s) (hst s) (nrow (hst s), ncol (hst s)) dt label (eud s) with
    | Ok (g, r) => (Ok g, {| rest := r; hst := hst s; eud := eud s;
                             reads := reads s ++ [label] |})
    | Raise e => (Raise e, s1)
    end.

(** The loop [while True: line = f.readline(); if line[0] != '#': break]
    that opens both loaders.  Every turn takes one line off the file and the
    loop ends at the latest on the empty line read at the end of the file,
    where [line[0]] raises; [fuel] counts the turns left. *)
Fixpoint header_loop (fuel : nat) : M lstate string :=
  match fuel with
  | O => raise IndexError
  | S k =>
      line <- f_readline ;;
      match line with
      | EmptyString => raise IndexError
      | String c _ => if bool_decide (c = "#"%char) then header_loop k else ret line
      end
  end.

Definition header_line : M lstate string :=
  fun s => header_loop (S (String.length (rest s))) s.

(** Modelled from the spec: [read1d] of [flopy.utils], which is not in the
    two modules.  "Layer/system-index lines: whitespace-separated integers"
    and "one 12-integer line, then N lines of 17 integers": one line gives
    the [n] integers of the vector; a short line or a word that is not a
    64-bit integer is a read failure. *)
Definition read1d (n : nat) : M lstate (list Z) :=
  line <- f_readline ;;
  let t := strip_split line in
  if bool_decide (length t < n)%nat then raise IndexError
  else collect (take n t)
         (fun w => v <- lift (int w) ;;
                   if in_int64 v then ret v else raise OverflowError).

(** ** mfsub.py: the SUB package *)

Module Sub.

(** The material-zone table [dp] as numpy sees it: [np.array] of a flat
    list has one dimension, of a list of rows two. *)
Inductive dp_val := Dp1 (l : list pyfloat) | Dp2 (rows : list (list pyfloat)).

(** An integer array of one or two dimensions ([ids16]). *)
Inductive table := T1 (row : list Z) | T2 (rows : list (list Z)).

Section WithGrid.
Context `{Externals grid}.

(** The attributes of a [ModflowSub] object.  An attribute that holds
    [None], or that [__init__] did not set at all ([com], [dcom], [ids15],
    [ids16]), is [None] here. *)
Record ModflowSub := {
  extension : list string; name : list string;
  unit_number : list Z; extra : list string;
  heading : string;
  isubcb : Z; isuboc : Z; idsave : Z; idrest : Z;
  nndb : Z; ndb : Z; nmz : Z; nn : Z;
  ac1 : pyfloat; ac2 : pyfloat; itmin : Z;
  ln : option (list Z);
  hc : option (list grid); sfe : option (list grid);
  sfv : option (list grid); com : option (list grid);
  ldn : option (list Z);
  rnb : option (list grid); dstart : option (list grid);
  dhc : option (list grid); dcom : option (list grid);
  dz : option (list grid); nz : option (list grid);
  dp : option dp_val;
  ids15 : option (list Z);
  ids16 : option (list (list Z))
}.

(** The arguments of [ModflowSub.__init__]. *)
Record args := {
  a_isubcb : Z; a_isuboc : Z; a_idsave : Z; a_idrest : Z;
  a_nndb : Z; a_ndb : Z; a_nmz : Z; a_nn : Z;
  a_ac1 : pyfloat; a_ac2 : pyfloat; a_itmin : Z;
  a_ln : arg1; a_ldn : arg1; a_rnb : arg3 grid;
  a_hc : arg3 grid; a_sfe : arg3 grid; a_sfv : arg3 grid; a_com : arg3 grid;
  a_dp : option dp_val;
  a_dstart : arg3 grid; a_dhc : arg3 grid; a_dcom : arg3 grid;
  a_dz : arg3 grid; a_nz : arg3 grid;
  a_ids15 : option (list Z); a_ids16 : option table;
  a_extension : string; a_unit_number : Z
}.

(** The defaults of the signature of [__init__]. *)
Definition defaults : args := {|
  a_isubcb := 0; a_isuboc := 0; a_idsave := 0; a_idrest := 0;
  a_nndb := 1; a_ndb := 1; a_nmz := 1; a_nn := 20;
  a_ac1 := Fin false 0 0; a_ac2 := Fin false 2 (-1); a_itmin := 5;
  a_ln := A1Scalar 0; a_ldn := A1Scalar 0;
  a_rnb := A3Scalar (SInt 1);
  a_hc := A3Scalar (SFloat (Fin false 1 5));
  a_sfe := A3Scalar (SFloat (Fin false 1 (-4)));
  a_sfv := A3Scalar (SFloat (Fin false 1 (-3)));
  a_com := A3Scalar (SFloat (Fin false 0 0));
  a_dp := Some (Dp1 [Fin false 1 (-6); Fin false 6 (-6); Fin false 6 (-4)]);
  a_dstart := A3Scalar (SFloat (Fin false 1 0));
  a_dhc := A3Scalar (SFloat (Fin false 1 5));
  a_dcom := A3Scalar (SFloat (Fin false 0 0));
  a_dz := A3Scalar (SFloat (Fin false 1 0));
  a_nz := A3Scalar (SInt 1);
  a_ids15 := None; a_ids16 := None;
  a_extension := "sub"; a_unit_number := 32
|}.

(** [for i in range(1, 12, 2): ids15[i] = 2051] *)
Definition set_units (ids15 : list Z) : result (list Z) :=
  foldl (fun r i => match r with Ok l => set_item l i 2051 | Raise e => Raise e end)
        (Ok ids15) [1; 3; 5; 7; 9; 11]%nat.

(** The no-delay block of [__init__] (lines 227-240). *)
Definition init_nodelay (a : args) (shape : nat * nat) :
    result (option (list Z) * option (list grid) * option (list grid)
            * option (list grid) * option (list grid)) :=
  if 0 <? a_nndb a then
    match util_1d (a_nndb a) (a_ln a) with Raise e => Raise e | Ok ln =>
    match util_3d (a_nndb a) shape Float32 (a_hc a) with Raise e => Raise e | Ok hc =>
    match util_3d (a_nndb a) shape Float32 (a_sfe a) with Raise e => Raise e | Ok sfe =>
    match util_3d (a_nndb a) shape Float32 (a_sfv a) with Raise e => Raise e | Ok sfv =>
    match util_3d (a_nndb a) shape Float32 (a_com a) with Raise e => Raise e | Ok com =>
      Ok (Some ln, Some hc, Some sfe, Some sfv, Some com)
    end end end end end
  else Ok (None, None, None, None, None).

(** The delay block of [__init__] (lines 242-261). *)
Definition init_delay (a : args) (shape : nat * nat) :
    result (option (list Z) * option (list grid) * option (list grid)
            * option (list grid) * option (list grid) * option (list grid)
            * option (list grid)) :=
  if 0 <? a_ndb a then
    match util_1d (a_ndb a) (a_ldn a) with Raise e => Raise e | Ok ldn =>
    match util_3d (a_ndb a) shape Float32 (a_rnb a) with Raise e => Raise e | Ok rnb =>
    match util_3d (a_ndb a) shape Float32 (a_dstart a) with Raise e => Raise e | Ok dstart =>
    match util_3d (a_ndb a) shape Float32 (a_dhc a) with Raise e => Raise e | Ok dhc =>
    match util_3d (a_ndb a) shape Float32 (a_dcom a) with Raise e => Raise e | Ok dcom =>
    match util_3d (a_ndb a) shape Float32 (a_dz a) with Raise e => Raise e | Ok dz =>
    match util_3d (a_ndb a) shape Int (a_nz a) with Raise e => Raise e | Ok nz =>
      Ok (Some ldn, Some rnb, Some dstart, Some dhc, Some dcom, Some dz, Some nz)
    end end end end end end end
  else Ok (None, None, None, None, None, None, None).

(** The output block of [__init__] (lines 268-291): the values of
    [self.isuboc], [self.ids15] and [self.ids16]. *)
Definition init_output (a : args) (nper : Z) :
    result (Z * option (list Z) * option (list (list Z))) :=
  if 0 <? a_isuboc a then
    let ids15 := match a_ids15 a with None => replicate 12 0 | Some l => l end in
    match set_units ids15 with Raise e => Raise e | Ok ids15 =>
      match a_ids16 a with
      | None =>
          (* ids16 = np.ones((1, 17)); ids16[0, 0:4] = 0, nper - 1, 0, 9999 *)
          if in_int64 (nper - 1)
          then Ok (1, Some ids15, Some [[0; nper - 1; 0; 9999] ++ replicate 13 1])
          else Raise OverflowError
      | Some (T2 rows) => Ok (a_isuboc a, Some ids15, Some rows)
      | Some (T1 _) =>
          (* numpy.reshape: the module imports numpy as np only *)
          Raise NameError
      end
    end
  else Ok (a_isuboc a, None, None).

(** [ModflowSub.__init__(model, ...)] *)
Definition init (a : args) : M host ModflowSub :=
  let more := (if 0 <? a_isuboc a then 1 else 0) + (if 0 <? a_idsave a then 1 else 0) in
  let extensions := [a_extension a] ++ (if 0 <? a_isuboc a then ["bud"] else [])
                    ++ (if 0 <? a_idsave a then ["rst"] else []) in
  let names := ["SUB"] ++ replicate (Z.to_nat more) "DATA(BINARY)" in
  let units := [a_unit_number a] ++ (if 0 <? a_isuboc a then [2051] else [])
               ++ (if 0 <? a_idsave a then [2052] else []) in
  let extras := [""] ++ replicate (Z.to_nat more) "REPLACE" in
  h <- gets (fun h => h) ;;
  let shape := (nrow h, ncol h) in
  nodelay <- lift (init_nodelay a shape) ;;
  delay <- lift (init_delay a shape) ;;
  output <- lift (init_output a (nper h)) ;;
  let '(ln, hc, sfe, sfv, com) := nodelay in
  let '(ldn, rnb, dstart, dhc, dcom, dz, nz) := delay in
  let '(isuboc, ids15, ids16) := output in
  let self := {|
    extension := extensions; name := names; unit_number := units; extra := extras;
    heading := "# Subsidence (SUB) package file for " +:+ version h
               +:+ ", generated by Flopy.";
    isubcb := a_isubcb a; isuboc := isuboc; idsave := a_idsave a;
    idrest := a_idrest a; nndb := a_nndb a; ndb := a_ndb a; nmz := a_nmz a;
    nn := a_nn a; ac1 := a_ac1 a; ac2 := a_ac2 a; itmin := a_itmin a;
    ln := ln; hc := hc; sfe := sfe; sfv := sfv; com := com;
    ldn := ldn; rnb := rnb; dstart := dstart; dhc := dhc; dcom := dcom;
    dz := dz; nz := nz;
    dp := a_dp a;
    ids15 := ids15; ids16 := ids16 |} in
  add_package "SUB" ;;
  ret self.

(** *** [write_file] *)

(** The state of a write: what was written to the file so far, and the
    package object, which [write_file] reads and (in dataset 16) updates. *)
Record wstate := { out : list (chunk grid); self : ModflowSub }.

Definition f_write (s : string) : M wstate unit :=
  modify (fun w => {| out := out w ++ [Text s]; self := self w |}).

Definition f_write_entry (field : string) (k : nat) (g : grid) : M wstate unit :=
  modify (fun w => {| out := out w ++ [Entry field k g]; self := self w |}).

Definition set_ids16 (rows : list (list Z)) (m : ModflowSub) : ModflowSub := {|
  extension := extension m; name := name m; unit_number := unit_number m;
  extra := extra m; heading := heading m;
  isubcb := isubcb m; isuboc := isuboc m; idsave := idsave m; idrest := idrest m;
  nndb := nndb m; ndb := ndb m; nmz := nmz m; nn := nn m;
  ac1 := ac1 m; ac2 := ac2 m; itmin := itmin m;
  ln := ln m; hc := hc m; sfe := sfe m; sfv := sfv m; com := com m;
  ldn := ldn m; rnb := rnb m; dstart := dstart m; dhc := dhc m; dcom := dcom m;
  dz := dz m; nz := nz m; dp := dp m; ids15 := ids15 m;
  ids16 := Some rows |}.

(** [o.array], [o[k]] and the like on an attribute that may hold [None]
    or be missing: [e] is what Python raises then. *)
Definition attr {A} (e : exn) (o : option A) : result A :=
  match o with Some a => Ok a | None => Raise e end.

(** [self.field[k]] for a [util_3d] attribute. *)
Definition grid_at (e : exn) (o : option (list grid)) (k : nat) : result grid :=
  match o with Some l => index l k | None => Raise e end.

(** [self.dp[k, 0], self.dp[k, 1], self.dp[k, 2]] *)
Definition dp_row (d : option dp_val) (k : nat) : result (pyfloat * pyfloat * pyfloat) :=
  match d with
  | None => Raise TypeError
  | Some (Dp1 _) => Raise IndexError
  | Some (Dp2 rows) =>
      match index rows k with
      | Raise e => Raise e
      | Ok r => match r !! 0%nat, r !! 1%nat, r !! 2%nat with
                | Some x, Some y, Some z => Ok (x, y, z)
                | _, _, _ => Raise IndexError
                end
      end
  end.

(** Dataset 1 (lines 310-314): two writes, the second starting where the
    first ends.  [dataset1_head] is
    ['{} {} {} {} {} {}'.format(isubcb, isuboc, nndb, ndb, nmz, nn)] and
    [dataset1_tail] is
    ['{} {} {} {} {}\n'.format(ac1, ac2, itmin, idsave, idrest)]. *)
Definition dataset1_head (m : ModflowSub) : string :=
  str_int (isubcb m) +:+ " " +:+ str_int (isuboc m) +:+ " "
  +:+ str_int (nndb m) +:+ " " +:+ str_int (ndb m) +:+ " "
  +:+ str_int (nmz m) +:+ " " +:+ str_int (nn m).

Definition dataset1_tail (m : ModflowSub) : string :=
  str_float (ac1 m) +:+ " " +:+ str_float (ac2 m) +:+ " "
  +:+ str_int (itmin m) +:+ " " +:+ str_int (idsave m) +:+ " "
  +:+ str_int (idrest m) +:+ nl.

Definition write_dataset1 (m : ModflowSub) : M wstate unit :=
  f_write (dataset1_head m) ;; f_write (dataset1_tail m).

(** Datasets 2 and 3 (lines 315-322): [t = self.ln.array], every entry
    plus one, then a newline. *)
Definition write_layers (a : option (list Z)) : M wstate unit :=
  t <- lift (attr AttributeError a) ;;
  for_each t (fun tt => f_write (str_int (wrap64 (tt + 1)) +:+ " ")) ;;
  f_write nl.

Definition write_grid (e : exn) (field : string) (o : option (list grid)) (k : nat)
    : M wstate unit :=
  g <- lift (grid_at e o k) ;; f_write_entry field k g.

(** Dataset 16 (lines 359-364), row [k]: [t] is a view of the row, so
    [t[0:4] += 1] updates [self.ids16]. *)
Definition write_dataset16_row (k : nat) : M wstate unit :=
  o <- gets (fun w => ids16 (self w)) ;;
  rows <- lift (attr AttributeError o) ;;
  t <- lift (index rows k) ;;
  let t' := shift_first4 1 t in
  modify (fun w => {| out := out w; self := set_ids16 (<[k := t']> rows) (self w) |}) ;;
  for_each t' (fun i => f_write (str_int i +:+ " ")) ;;
  f_write ("  #dataset 16 isuboc " +:+ str_int (Z.of_nat k + 1) +:+ nl).

Definition write_file : M wstate unit :=
  m <- gets self ;;
  f_write (heading m +:+ nl) ;;
  write_dataset1 m ;;
  write_layers (ln m) ;;
  write_layers (ldn m) ;;
  (* dataset 4 *)
  (if 0 <? ndb m
   then for_each (range (ndb m)) (fun k => write_grid TypeError "rnb" (rnb m) k)
   else ret tt) ;;
  (* datasets 5 to 8 *)
  (if 0 <? nndb m
   then for_each (range (nndb m))
          (fun k => write_grid TypeError "hc" (hc m) k ;;
                    write_grid TypeError "sfe" (sfe m) k ;;
                    write_grid TypeError "sfv" (sfv m) k ;;
                    write_grid AttributeError "com" (com m) k)
   else ret tt) ;;
  (* dataset 9 *)
  (if 0 <? ndb m
   then for_each (range (nmz m))
          (fun k => r <- lift (dp_row (dp m) k) ;;
                    let '(x, y, z) := r in
                    f_write (fmt_15_6g x +:+ " " +:+ fmt_15_6g y +:+ " " +:+ fmt_15_6g z
                             +:+ "    #material zone " +:+ str_int (Z.of_nat k + 1)
                             +:+ " data" +:+ nl))
   else ret tt) ;;
  (* datasets 10 to 14 *)
  (if 0 <? ndb m
   then for_each (range (ndb m))
          (fun k => write_grid TypeError "dstart" (dstart m) k ;;
                    write_grid TypeError "dhc" (dhc m) k ;;
                    write_grid AttributeError "dcom" (dcom m) k ;;
                    write_grid TypeError "dz" (dz m) k ;;
                    write_grid TypeError "nz" (nz m) k)
   else ret tt) ;;
  (* datasets 15 and 16 *)
  (if 0 <? isuboc m
   then ids <- lift (attr AttributeError (ids15 m)) ;;
        for_each ids (fun i => f_write (str_int i +:+ " ")) ;;
        f_write ("  #dataset 15" +:+ nl) ;;
        for_each (range (isuboc m)) write_dataset16_row
   else ret tt).

(** Running [write_file] on a package object: how the call ends, what is
    in the file, and the object afterwards. *)
Definition run_write (m : ModflowSub) : result unit * wstate :=
  write_file {| out := []; self := m |}.

(** *** [load] *)

(** [ext_unit_dict[2053] = ext_unit_dict.pop(idrest)] *)
Definition move_unit (idrest : Z) : M lstate unit :=
  fun s =>
    match eud s with
    | None => (Raise AttributeError, s)
    | Some d =>
        match d !! idrest with
        | None => (Raise KeyError, s)
        | Some v => (Ok tt, {| rest := rest s; hst := hst s;
                               eud := Some (<[2053 := v]> (delete idrest d));
                               reads := reads s |})
        end
    end.

(** The eleven values of dataset 1. *)
Record dataset1 := {
  d_isubcb : Z; d_isuboc : Z; d_nndb : Z; d_ndb : Z; d_nmz : Z; d_nn : Z;
  d_ac1 : pyfloat; d_ac2 : pyfloat; d_itmin : Z; d_idsave : Z; d_idrest : Z
}.

(** Dataset 1 (lines 418-429). *)
Definition load_dataset1 (line : string) : M lstate dataset1 :=
  let t := strip_split line in
  isubcb <- int_at t 0 ;; isuboc <- int_at t 1 ;; nndb <- int_at t 2 ;;
  ndb <- int_at t 3 ;; nmz <- int_at t 4 ;; nn <- int_at t 5 ;;
  ac1 <- float_at t 6 ;; ac2 <- float_at t 7 ;;
  itmin <- int_at t 8 ;; idsave <- int_at t 9 ;; idrest <- int_at t 10 ;;
  let isubcb := if 0 <? isubcb then 53 else isubcb in
  let idsave := if 0 <? idsave then 2052 else idsave in
  idrest <- (if 0 <? idrest then move_unit idrest ;; ret 2053 else ret idrest) ;;
  ret {| d_isubcb := isubcb; d_isuboc := isuboc; d_nndb := nndb; d_ndb := ndb;
         d_nmz := nmz; d_nn := nn; d_ac1 := ac1; d_ac2 := ac2;
         d_itmin := itmin; d_idsave := idsave; d_idrest := idrest |}.

(** Datasets 2 and 3 (lines 431-442): [read1d(f, ln) - 1]. *)
Definition load_layers (n : Z) : M lstate (option (list Z)) :=
  if 0 <? n
  then l <- read1d (Z.to_nat n) ;; ret (Some (map (fun v => wrap64 (v - 1)) l))
  else ret None.

(** The label [what + ' layer {}'.format(a[k] + 1)] of an array. *)
Definition layer_label (what : string) (a : option (list Z)) (k : nat) : result string :=
  match attr TypeError a with
  | Raise e => Raise e
  | Ok l => match index l k with
            | Raise e => Raise e
            | Ok v => Ok (what +:+ " layer " +:+ str_int (wrap64 (v + 1)))
            end
  end.

Definition load_layer_array (dt : dtype) (what : string) (a : option (list Z)) (k : nat)
    : M lstate grid :=
  lbl <- lift (layer_label what a k) ;; load_array dt lbl.

(** Dataset 9 (lines 489-497). *)
Definition load_dp (ndb nmz : Z) : M lstate (option dp_val) :=
  if 0 <? ndb then
    if nmz <? 0 then raise ValueError      (* np.zeros((nmz, 3)) *)
    else
      rows <- collect (range nmz)
                (fun _ => line <- f_readline ;;
                          let t := strip_split line in
                          x <- float_at t 0 ;; y <- float_at t 1 ;; z <- float_at t 2 ;;
                          ret [to_float32 x; to_float32 y; to_float32 z]) ;;
      ret (Some (Dp2 rows))
  else ret None.

(** Datasets 15 and 16 (lines 543-562). *)
Definition load_ids15 : M lstate (list Z) :=
  ids15 <- read1d 12 ;;
  for_each [1; 3; 5; 7; 9; 11]%nat
    (fun k => v <- lift (index ids15 k) ;; on_host (add_pop_key_list v)) ;;
  lift (set_units ids15).

Definition load_ids16_row : M lstate (list Z) :=
  t <- read1d 17 ;; ret (shift_first4 (-1) t).

Definition unzip4 {A B C D} (l : list (A * B * C * D)) : list A * list B * list C * list D :=
  (map (fun q => q.1.1.1) l, map (fun q => q.1.1.2) l, map (fun q => q.1.2) l,
   map (fun q => q.2) l).

Definition unzip5 {A B C D E} (l : list (A * B * C * D * E))
    : list A * list B * list C * list D * list E :=
  (map (fun q => q.1.1.1.1) l, map (fun q => q.1.1.1.2) l, map (fun q => q.1.1.2) l,
   map (fun q => q.1.2) l, map (fun q => q.2) l).

Definition as_arg3 (o : option (list grid)) : arg3 grid :=
  match o with Some l => A3List (map LGrid l) | None => A3None end.
Definition as_arg1 (o : option (list Z)) : arg1 :=
  match o with Some l => A1List l | None => A1None end.

(** [ModflowSub.load(f, model, ext_unit_dict)], [f] an open file. *)
Definition load : M lstate ModflowSub :=
  line <- header_line ;;
  d1 <- load_dataset1 line ;;
  let nndb := d_nndb d1 in
  let ndb := d_ndb d1 in
  let nmz := d_nmz d1 in
  let isuboc := d_isuboc d1 in
  ln <- load_layers nndb ;;
  ldn <- load_layers ndb ;;
  (* dataset 4 *)
  rnb <- (if 0 <? ndb
          then l <- collect (range ndb)
                      (fun k => load_array Float32
                                  ("rnb delay bed " +:+ str_int (Z.of_nat k + 1))) ;;
               ret (Some l)
          else ret None) ;;
  (* datasets 5 to 8 *)
  nodelay <- (if 0 <? nndb
              then l <- collect (range nndb)
                          (fun k => a <- load_layer_array Float32 "hc" ln k ;;
                                    b <- load_layer_array Float32 "sfe" ln k ;;
                                    c <- load_layer_array Float32 "sfv" ln k ;;
                                    d <- load_layer_array Float32 "com" ln k ;;
                                    ret (a, b, c, d)) ;;
                   let '(hc, sfe, sfv, com) := unzip4 l in
                   ret (Some hc, Some sfe, Some sfv, Some com)
              else ret (None, None, None, None)) ;;
  let '(hc, sfe, sfv, com) := nodelay in
  dp <- load_dp ndb nmz ;;
  (* datasets 10 to 14 *)
  delay <- (if 0 <? ndb
            then l <- collect (range ndb)
                        (fun k => a <- load_layer_array Float32 "dstart" ldn k ;;
                                  b <- load_layer_array Float32 "dhc" ldn k ;;
                                  c <- load_layer_array Float32 "dcom" ldn k ;;
                                  d <- load_layer_array Float32 "dz" ldn k ;;
                                  e <- load_layer_array Int "nz" ldn k ;;
                                  ret (a, b, c, d, e)) ;;
                 let '(dstart, dhc, dcom, dz, nz) := unzip5 l in
                 ret (Some dstart, Some dhc, Some dcom, Some dz, Some nz)
            else ret (None, None, None, None, None)) ;;
  let '(dstart, dhc, dcom, dz, nz) := delay in
  (* datasets 15 and 16 *)
  output <- (if 0 <? isuboc
             then v <- gets (fun s => verbose (hst s)) ;;
                  (* the message of dataset 15 formats [kk], which only the
                     loops over the interbed systems bind *)
                  (if v && negb (0 <? nndb) && negb (0 <? ndb)
                   then raise NameError else ret tt) ;;
                  ids15 <- load_ids15 ;;
                  ids16 <- collect (range isuboc) (fun _ => load_ids16_row) ;;
                  ret (Some ids15, Some (T2 ids16))
             else ret (None, None)) ;;
  let '(ids15, ids16) := output in
  on_host (init {|
    a_isubcb := d_isubcb d1; a_isuboc := isuboc; a_idsave := d_idsave d1;
    a_idrest := d_idrest d1;
    a_nndb := nndb; a_ndb := ndb; a_nmz := nmz; a_nn := d_nn d1;
    a_ac1 := d_ac1 d1; a_ac2 := d_ac2 d1; a_itmin := d_itmin d1;
    a_ln := as_arg1 ln; a_ldn := as_arg1 ldn; a_rnb := as_arg3 rnb;
    a_hc := as_arg3 hc; a_sfe := as_arg3 sfe; a_sfv := as_arg3 sfv;
    a_com := as_arg3 com; a_dp := dp;
    a_dstart := as_arg3 dstart; a_dhc := as_arg3 dhc; a_dcom := as_arg3 dcom;
    a_dz := as_arg3 dz; a_nz := as_arg3 nz;
    a_ids15 := ids15; a_ids16 := ids16;
    a_extension := "sub"; a_unit_number := 32 |}).

(** Running [load] on the text of a file. *)
Definition run_load (text : string) (h : host) (d : option (gmap Z string))
    : result ModflowSub * lstate :=
  load {| rest := text; hst := h; eud := d; reads := [] |}.

(** *** Notions used to state the properties *)

(** The object holds the values of dataset 1. *)
Definition header_is (d : dataset1) (m : ModflowSub) : Prop :=
  isubcb m = d_isubcb d /\ isuboc m = d_isuboc d /\ nndb m = d_nndb d
  /\ ndb m = d_ndb d /\ nmz m = d_nmz d /\ nn m = d_nn d
  /\ ac1 m = d_ac1 d /\ ac2 m = d_ac2 d /\ itmin m = d_itmin d
  /\ idsave m = d_idsave d /\ idrest m = d_idrest d.

(** The values of the header line ["0 0 1 1 1 20 0.0 0.2 5 0 0"]. *)
Definition scenario_header : dataset1 := {|
  d_isubcb := 0; d_isuboc := 0; d_nndb := 1; d_ndb := 1; d_nmz := 1;
  d_nn := 20; d_ac1 := Fin false 0 0; d_ac2 := Fin false 2 (-1);
  d_itmin := 5; d_idsave := 0; d_idrest := 0 |}.

(** The first row of [self.ids16]. *)
Definition row0 (w : wstate) : option (list Z) :=
  match ids16 (self w) with Some rows => rows !! 0%nat | None => None end.

(** What [write_file] wrote stays in the file. *)
Definition grows {A} (c : M wstate A) : Prop :=
  forall s r s', c s = (r, s') -> exists l, out s' = out s ++ l.

(** A call that registers the package if it returns and registers
    nothing if it raises. *)
Definition registers {A} (c : M lstate A) : Prop :=
  forall s r s', c s = (r, s') ->
    match r with
    | Ok _ => pkgs s' = pkgs s ++ ["SUB"]
    | Raise _ => pkgs s' = pkgs s
    end.

End WithGrid.

Arguments ModflowSub grid : clear implicits.
Arguments args grid : clear implicits.
Arguments wstate grid : clear implicits.

End Sub.

(** ** mfupw.py: the UPW package *)

Module Upw.

Definition upper (c : ascii) : ascii :=
  let n := nat_of_ascii c in
  if ((97 <=? n) && (n <=? 122))%nat then ascii_of_nat (n - 32) else c.

Fixpoint upper_str (s : string) : string :=
  match s with
  | EmptyString => ""
  | String c s' => String (upper c) (upper_str s')
  end.

(** [sub in s] for two strings. *)
Fixpoint contains (sub s : string) : bool :=
  String.prefix sub s
  || match s with EmptyString => false | String _ s' => contains sub s' end.

Fixpoint spaces (n : nat) : string :=
  match n with O => "" | S k => String " "%char (spaces k) end.

(** ['{:10d}'.format(z)] *)
Definition fmt_10d (z : Z) : string :=
  let s := str_int z in spaces (10 - String.length s) +:+ s.

(** [x < 1] for a float. *)
Definition lt_one (x : pyfloat) : bool :=
  match x with
  | NaN => false
  | Inf neg => neg
  | Fin neg m e =>
      if (m =? 0)%N then true
      else if neg then true
      else if 0 <=? e then false
      else Z.of_N m <? 10 ^ (- e)
  end.

(** [a.sum()] on a numpy integer vector. *)
Definition np_sum (a : list Z) : Z := foldl (fun s v => wrap64 (s + v)) 0 a.

(** A float argument of the constructor that becomes a vector of [np.int]. *)
Inductive argf := AFScalar (x : pyfloat) | AFList (l : list pyfloat).

Section WithGrid.
Context `{Externals grid}.

(** The attributes of a [ModflowUpw] object. *)
Record ModflowUpw := {
  heading : string;
  iupwcb : Z; hdry : pyfloat; npupw : Z; iphdry : Z;
  laytyp : list Z; layavg : list Z; chani : list Z;
  layvka : list Z; laywet : list Z;
  options : string;
  hk : list grid; hani : list grid; vka : list grid;
  ss : list grid; sy : list grid; vkcb : list grid
}.

(** The arguments of [ModflowUpw.__init__]. *)
Record args := {
  a_laytyp : arg1; a_layavg : arg1; a_chani : argf; a_layvka : arg1;
  a_laywet : arg1; a_iupwcb : Z; a_hdry : pyfloat; a_iphdry : Z;
  a_hk : arg3 grid; a_hani : arg3 grid; a_vka : arg3 grid;
  a_ss : arg3 grid; a_sy : arg3 grid; a_vkcb : arg3 grid;
  a_noparcheck : bool
}.

Definition defaults : args := {|
  a_laytyp := A1Scalar 0; a_layavg := A1Scalar 0;
  a_chani := AFScalar (Fin false 1 0); a_layvka := A1Scalar 0;
  a_laywet := A1Scalar 0; a_iupwcb := 53; a_hdry := Fin true 1 30;
  a_iphdry := 0;
  a_hk := A3Scalar (SFloat (Fin false 1 0));
  a_hani := A3Scalar (SFloat (Fin false 1 0));
  a_vka := A3Scalar (SFloat (Fin false 1 0));
  a_ss := A3Scalar (SFloat (Fin false 1 (-5)));
  a_sy := A3Scalar (SFloat (Fin false 15 (-2)));
  a_vkcb := A3Scalar (SFloat (Fin false 0 0));
  a_noparcheck := false
|}.

(** [util_2d(model, (nlay,), np.int, chani)]: the floats cast to [np.int]. *)
Definition chani_arg (a : argf) : arg1 :=
  match a with
  | AFScalar x => A1Scalar (float_to_int x)
  | AFList l => A1List (map float_to_int l)
  end.

(** [ModflowUpw.__init__(model, ...)] *)
Definition init (a : args) : M host ModflowUpw :=
  h <- gets (fun h => h) ;;
  let n := Z.of_nat (nlay h) in
  let shape := (nrow h, ncol h) in
  laytyp <- lift (util_1d n (a_laytyp a)) ;;
  layavg <- lift (util_1d n (a_layavg a)) ;;
  chani <- lift (util_1d n (chani_arg (a_chani a))) ;;
  layvka <- lift (util_1d n (a_layvka a)) ;;
  laywet <- lift (util_1d n (a_laywet a)) ;;
  hk <- lift (util_3d n shape Float32 (a_hk a)) ;;
  hani <- lift (util_3d n shape Float32 (a_hani a)) ;;
  vka <- lift (util_3d n shape Float32 (a_vka a)) ;;
  ss <- lift (util_3d n shape Float32 (a_ss a)) ;;
  sy <- lift (util_3d n shape Float32 (a_sy a)) ;;
  vkcb <- lift (util_3d n shape Float32 (a_vkcb a)) ;;
  add_package "UPW" ;;
  ret {| heading := "# UPW for MODFLOW-NWT, generated by Flopy.";
         iupwcb := a_iupwcb a; hdry := a_hdry a; npupw := 0;
         iphdry := a_iphdry a;
         laytyp := laytyp; layavg := layavg; chani := chani;
         layvka := layvka; laywet := laywet;
         options := " " +:+ (if a_noparcheck a then "NOPARCHECK  " else "");
         hk := hk; hani := hani; vka := vka; ss := ss; sy := sy; vkcb := vkcb |}.

(** *** [write_file]

    The object is only read; the state of a write is what was written. *)
Definition f_write (s : string) : M (list (chunk grid)) unit :=
  modify (fun o => o ++ [Text s]).

(** [f_upw.write(self.field[k].get_file_entry())] *)
Definition write_grid (field : string) (a : list grid) (k : nat)
    : M (list (chunk grid)) unit :=
  g <- lift (index a k) ;; modify (fun o => o ++ [Entry field k g]).

(** [not self.parent.get_package('DIS').steady.all()] *)
Definition transient_of (h : host) : result bool :=
  match dis h with
  | None => Raise AttributeError
  | Some d => Ok (negb (forallb (fun b => b) (steady d)))
  end.

(** [self.parent.get_package('DIS').laycbd[k]] *)
Definition laycbd_at (h : host) (k : nat) : result Z :=
  match dis h with
  | None => Raise AttributeError
  | Some d => index (laycbd d) k
  end.

(** The body of the loop over the layers (lines 63-74). *)
Definition write_layer (h : host) (m : ModflowUpw) (transient : bool) (k : nat)
    : M (list (chunk grid)) unit :=
  write_grid "hk" (hk m) k ;;
  c <- lift (index (chani m) k) ;;
  (if c <? 1 then write_grid "hani" (hani m) k else ret tt) ;;
  write_grid "vka" (vka m) k ;;
  (if transient
   then write_grid "ss" (ss m) k ;;
        lt <- lift (index (laytyp m) k) ;;
        if negb (lt =? 0) then write_grid "sy" (sy m) k else ret tt
   else ret tt) ;;
  cb <- lift (laycbd_at h k) ;;
  (if 0 <? cb then write_grid "vkcb" (vkcb m) k else ret tt) ;;
  lw <- lift (index (laywet m) k) ;;
  if negb (lw =? 0)
  then lt <- lift (index (laytyp m) k) ;;
       (* self.laywet[k] is an integer: it has no get_file_entry *)
       if negb (lt =? 0) then raise AttributeError else ret tt
  else ret tt.

Definition write_file (h : host) (m : ModflowUpw) : M (list (chunk grid)) unit :=
  f_write (heading m +:+ nl) ;;
  f_write (fmt_10d (iupwcb m) +:+ fmt_10_3G (hdry m) +:+ fmt_10d (npupw m)
           +:+ fmt_10d (iphdry m) +:+ options m +:+ nl) ;;
  f_write (u2d_string (laytyp m)) ;;
  f_write (u2d_string (layavg m)) ;;
  f_write (u2d_string (chani m)) ;;
  f_write (u2d_string (layvka m)) ;;
  f_write (u2d_string (laywet m)) ;;
  let iwetdry := np_sum (laywet m) in
  (if 0 <? iwetdry then raise LaywetError else ret tt) ;;
  transient <- lift (transient_of h) ;;
  for_each (seq 0 (nlay h)) (write_layer h m transient).

Definition run_write (h : host) (m : ModflowUpw) : result unit * list (chunk grid) :=
  write_file h m [].

(** The file holds the array [field] of layer [k]. *)
Definition has (field : string) (k : nat) (o : list (chunk grid)) : bool :=
  existsb (is_entry_of field k) o.

(** What [write_file] needs of the object and of the host model to write
    the whole file: no wetting ([laywet] sums to at most zero and no
    convertible layer has a wetting flag), a DIS package, and an entry for
    every layer in each per-layer attribute. *)
Definition layer_ok (d : dis_package) (m : ModflowUpw) (k : nat) : Prop :=
  is_Some (hk m !! k) /\ is_Some (hani m !! k) /\ is_Some (vka m !! k)
  /\ is_Some (ss m !! k) /\ is_Some (sy m !! k) /\ is_Some (vkcb m !! k)
  /\ is_Some (chani m !! k) /\ is_Some (laycbd d !! k)
  /\ exists lt lw, laytyp m !! k = Some lt /\ laywet m !! k = Some lw
                   /\ (lw = 0 \/ lt = 0).

Definition writable (h : host) (m : ModflowUpw) : Prop :=
  np_sum (laywet m) <= 0
  /\ exists d, dis h = Some d /\ forall k, (k < nlay h)%nat -> layer_ok d m k.

(** [self.laytyp[k] != 0], false beyond the last layer. *)
Definition convertible (m : ModflowUpw) (k : nat) : bool :=
  match laytyp m !! k with Some lt => negb (lt =? 0) | None => false end.

(** *** [load] *)

(** A line of per-layer flags: [np.array(t[0:nlay], dtype=np.int)]. *)
Definition int_line (n : nat) : M lstate (list Z) :=
  line <- f_readline ;;
  collect (take n (strip_split line))
    (fun w => v <- lift (int w) ;;
              if in_int64 v then ret v else raise OverflowError).

(** [np.array(t[0:nlay], dtype=np.float32)] *)
Definition float_line (n : nat) : M lstate (list pyfloat) :=
  line <- f_readline ;;
  collect (take n (strip_split line))
    (fun w => x <- lift (float w) ;; ret (to_float32 x)).

(** One array of the loop over the layers: read by the array codec unless
    its name is among the parameter types. *)
Definition load_one (par_types : list string) (names : list string) (what : string)
    (k : nat) : M lstate grid :=
  if forallb (fun nm => negb (bool_decide (nm ∈ par_types))) names
  then load_array Float32 what
  else f_readline ;;
       s <- gets (fun s => s) ;;
       lift (parameter_fill (hst s) (nrow (hst s), ncol (hst s)) what k).

Definition host_transient : M lstate bool :=
  s <- gets (fun s => s) ;; lift (transient_of (hst s)).

Definition host_laycbd (k : nat) : M lstate Z :=
  s <- gets (fun s => s) ;; lift (laycbd_at (hst s) k).

(** The body of the loop over the layers (lines 186-244): the entries of
    [hk], [hani], [vka], [ss], [sy] and [vkcb] for layer [k], an entry that
    is not read keeping the [0] the list was made of. *)
Definition load_layer (par_types : list string) (transient : bool)
    (chani : list pyfloat) (laytyp : list Z) (k : nat)
    : M lstate (layer grid * layer grid * layer grid * layer grid
                * layer grid * layer grid) :=
  let zero := LScalar (SInt 0) in
  hk <- load_one par_types ["hk"] "hk" k ;;
  c <- lift (index chani k) ;;
  hani <- (if lt_one c
           then g <- load_one par_types ["hani"] "hani" k ;; ret (LGrid g)
           else ret zero) ;;
  vka <- load_one par_types ["vka"; "vani"] "vka" k ;;
  storage <- (if transient
              then ss <- load_one par_types ["ss"] "ss" k ;;
                   lt <- lift (index laytyp k) ;;
                   (if negb (lt =? 0)
                    then sy <- load_one par_types ["sy"] "sy" k ;;
                         ret (LGrid ss, LGrid sy)
                    else ret (LGrid ss, zero))
              else ret (zero, zero)) ;;
  cb <- host_laycbd k ;;
  vkcb <- (if 0 <? cb
           then g <- load_one par_types ["vkcb"] "vkcb" k ;; ret (LGrid g)
           else ret zero) ;;
  ret (LGrid hk, hani, LGrid vka, storage.1, storage.2, vkcb).

(** Item 1 of the file, as [load] holds it. *)
Record item1 := {
  i_iupwcb : Z; i_hdry : pyfloat; i_npupw : Z; i_iphdry : Z; i_noparcheck : bool
}.

(** The five vectors of per-layer flags. *)
Record flags := {
  f_laytyp : list Z; f_layavg : list Z; f_chani : list pyfloat;
  f_layvka : list Z; f_laywet : list Z
}.

(** Item 1 (lines 117-136): [iupwcb], [hdry], [npupw], [iphdry] and the
    NOPARCHECK option. *)
Definition load_item1 : M lstate item1 :=
  line <- header_line ;;
  let t := strip_split line in
  iupwcb <- int_at t 0 ;; hdry <- float_at t 1 ;;
  npupw <- int_at t 2 ;; iphdry <- int_at t 3 ;;
  iupwcb <- (if negb (iupwcb =? 0)
             then on_host (add_pop_key_list iupwcb) ;; ret 53
             else ret iupwcb) ;;
  let noparcheck :=
    existsb (fun w => contains "NOPARCHECK" (upper_str w)) (drop 3 t) in
  ret {| i_iupwcb := iupwcb; i_hdry := hdry; i_npupw := npupw;
         i_iphdry := iphdry; i_noparcheck := noparcheck |}.

(** The five lines of per-layer flags (lines 137-166): [laytyp],
    [layavg], [chani], [layvka], [laywet]. *)
Definition load_flags (n : nat) : M lstate flags :=
  laytyp <- int_line n ;;
  layavg <- int_line n ;;
  chani <- float_line n ;;
  layvka <- int_line n ;;
  laywet <- int_line n ;;
  ret {| f_laytyp := laytyp; f_layavg := layavg; f_chani := chani;
         f_layvka := layvka; f_laywet := laywet |}.

(** The rest of [load], from the check of [laywet] on (lines 167-254). *)
Definition load_arrays (n : nat) (i : item1) (fl : flags) : M lstate ModflowUpw :=
  let iwetdry := np_sum (f_laywet fl) in
  (if 0 <? iwetdry then raise LaywetError else ret tt) ;;
  (* get parameters: the call names [nplpf], which nothing binds *)
  par_types <- (if 0 <? i_npupw i then raise NameError else ret []) ;;
  (* get arrays *)
  transient <- host_transient ;;
  l <- collect (seq 0 n)
         (load_layer par_types transient (f_chani fl) (f_laytyp fl)) ;;
  on_host (init {|
    a_laytyp := A1List (f_laytyp fl); a_layavg := A1List (f_layavg fl);
    a_chani := AFList (f_chani fl); a_layvka := A1List (f_layvka fl);
    a_laywet := A1List (f_laywet fl); a_iupwcb := i_iupwcb i;
    a_hdry := i_hdry i; a_iphdry := i_iphdry i;
    a_hk := A3List (map (fun q => q.1.1.1.1.1) l);
    a_hani := A3List (map (fun q => q.1.1.1.1.2) l);
    a_vka := A3List (map (fun q => q.1.1.1.2) l);
    a_ss := A3List (map (fun q => q.1.1.2) l);
    a_sy := A3List (map (fun q => q.1.2) l);
    a_vkcb := A3List (map (fun q => q.2) l);
    a_noparcheck := i_noparcheck i |}).

(** [ModflowUpw.load(f, model, ext_unit_dict)], [f] an open file. *)
Definition load : M lstate ModflowUpw :=
  i <- load_item1 ;;
  n <- gets (fun s => nlay (hst s)) ;;
  fl <- load_flags n ;;
  load_arrays n i fl.

Definition run_load (text : string) (h : host) (d : option (gmap Z string))
    : result ModflowUpw * lstate :=
  load {| rest := text; hst := h; eud := d; reads := [] |}.

End WithGrid.

Arguments ModflowUpw grid : clear implicits.
Arguments args grid : clear implicits.

End Upw.

(** ** An instance of the collaborators

    For running the definitions on concrete files: every grid holds one
    value for all its cells and is written as a CONSTANT control record. *)

Module ConstCodec.

Definition grid : Type := pyfloat.

Definition load (rest : string) (h : host) (shape : nat * nat) (dt : dtype)
    (label : string) (d : option (gmap Z string)) : result (grid * string) :=
  let (line, r) := readline rest in
  match strip_split line with
  | w :: v :: _ =>
      if bool_decide (lower_str w = "constant")
      then match float v with Ok x => Ok (x, r) | Raise e => Raise e end
      else Raise CodecError
  | _ => Raise CodecError
  end.

Definition entry (g : grid) : string := "CONSTANT " +:+ str_float g +:+ nl.

Definition const (shape : nat * nat) (dt : dtype) (x : scalar) : grid :=
  match x with
  | SInt z => mk_float (z <? 0) (Z.abs_N z) 0
  | SFloat x => x
  end.

Definition vector_string (l : list Z) : string :=
  foldr (fun z s => " " +:+ str_int z +:+ s) nl l.

Definition right (w : nat) (s : string) : string :=
  Upw.spaces (w - String.length s) +:+ s.

Definition trunc (x : pyfloat) : Z :=
  match x with
  | Fin neg m e =>
      let a := if 0 <=? e then Z.of_N m * 10 ^ e else Z.of_N m / 10 ^ (- e) in
      if neg then - a else a
  | _ => - 2 ^ 63
  end.

#[export] Instance externals : Externals grid := {|
  util_2d_load := load;
  get_file_entry := entry;
  grid_const := const;
  u2d_string := vector_string;
  fmt_15_6g := fun x => right 15 (str_float x);
  fmt_10_3G := fun x => right 10 (str_float x);
  to_float32 := fun x => x;
  float_to_int := trunc;
  parameter_fill := fun _ _ _ _ => Raise CodecError
|}.

(** A host model of one layer, one row, one column and [np] stress
    periods; [st] says whether all of them are steady. *)
Definition host1 (np : Z) (st : bool) : host := {|
  version := "mf2005"; nrow := 1; ncol := 1; nlay := 1; nper := np;
  verbose := false;
  dis := Some {| steady := [st]; laycbd := [0] |};
  packages := ["DIS"]; pop_key_list := []
|}.

(** *** Sample inputs *)

(** [ModflowSub(model, isuboc=io, nndb=n, ndb=n, dp=[[1e-6, 6e-6, 6e-4]])],
    the other arguments at their defaults. *)
Definition sub_args (io n : Z) : Sub.args grid :=
  let d := Sub.defaults in {|
  Sub.a_isubcb := 0; Sub.a_isuboc := io; Sub.a_idsave := 0; Sub.a_idrest := 0;
  Sub.a_nndb := n; Sub.a_ndb := n; Sub.a_nmz := 1; Sub.a_nn := 20;
  Sub.a_ac1 := Sub.a_ac1 d; Sub.a_ac2 := Sub.a_ac2 d; Sub.a_itmin := 5;
  Sub.a_ln := Sub.a_ln d; Sub.a_ldn := Sub.a_ldn d; Sub.a_rnb := Sub.a_rnb d;
  Sub.a_hc := Sub.a_hc d; Sub.a_sfe := Sub.a_sfe d; Sub.a_sfv := Sub.a_sfv d;
  Sub.a_com := Sub.a_com d;
  Sub.a_dp := Some (Sub.Dp2 [[Fin false 1 (-6); Fin false 6 (-6); Fin false 6 (-4)]]);
  Sub.a_dstart := Sub.a_dstart d; Sub.a_dhc := Sub.a_dhc d;
  Sub.a_dcom := Sub.a_dcom d; Sub.a_dz := Sub.a_dz d; Sub.a_nz := Sub.a_nz d;
  Sub.a_ids15 := None; Sub.a_ids16 := None;
  Sub.a_extension := "sub"; Sub.a_unit_number := 32 |}.

(** The object that [sub_args io 1] builds on [host1 3 true]. *)
Definition sub_object (io : Z) : Sub.ModflowSub grid := {|
  Sub.extension := ["sub"] ++ (if 0 <? io then ["bud"] else []);
  Sub.name := ["SUB"] ++ (if 0 <? io then ["DATA(BINARY)"] else []);
  Sub.unit_number := [32] ++ (if 0 <? io then [2051] else []);
  Sub.extra := [""] ++ (if 0 <? io then ["REPLACE"] else []);
  Sub.heading := "# Subsidence (SUB) package file for mf2005, generated by Flopy.";
  Sub.isubcb := 0; Sub.isuboc := (if 0 <? io then 1 else io);
  Sub.idsave := 0; Sub.idrest := 0;
  Sub.nndb := 1; Sub.ndb := 1; Sub.nmz := 1; Sub.nn := 20;
  Sub.ac1 := Fin false 0 0; Sub.ac2 := Fin false 2 (-1); Sub.itmin := 5;
  Sub.ln := Some [0];
  Sub.hc := Some [Fin false 1 5]; Sub.sfe := Some [Fin false 1 (-4)];
  Sub.sfv := Some [Fin false 1 (-3)]; Sub.com := Some [Fin false 0 0];
  Sub.ldn := Some [0];
  Sub.rnb := Some [Fin false 1 0]; Sub.dstart := Some [Fin false 1 0];
  Sub.dhc := Some [Fin false 1 5]; Sub.dcom := Some [Fin false 0 0];
  Sub.dz := Some [Fin false 1 0]; Sub.nz := Some [Fin false 1 0];
  Sub.dp := Some (Sub.Dp2 [[Fin false 1 (-6); Fin false 6 (-6); Fin false 6 (-4)]]);
  Sub.ids15 := if 0 <? io
               then Some [0; 2051; 0; 2051; 0; 2051; 0; 2051; 0; 2051; 0; 2051]
               else None;
  Sub.ids16 := if 0 <? io
               then Some [[0; 2; 0; 9999; 1; 1; 1; 1; 1; 1; 1; 1; 1; 1; 1; 1; 1]]
               else None
|}.

(** The state in which [write_file] leaves the file and the object. *)
Definition sub_written (io : Z) : Sub.wstate grid := (Sub.run_write (sub_object io)).2.

Definition lines (l : list string) : string := foldr (fun x s => x +:+ nl +:+ s) "" l.

Definition load_state (text : string) (h : host) : lstate :=
  {| rest := text; hst := h; eud := None; reads := [] |}.

(** A SUB file of one no-delay and one delay system with one output row. *)
Definition sub_file : string := lines [
  "# SUB"; "0 1 1 1 1 20 0.0 0.2 5 0 0"; "1"; "1";
  "CONSTANT 1.0"; "CONSTANT 100000.0"; "CONSTANT 0.0001"; "CONSTANT 0.001";
  "CONSTANT 0.0"; "1e-06 6e-06 0.0006  #material zone 1 data";
  "CONSTANT 1.0"; "CONSTANT 100000.0"; "CONSTANT 0.0"; "CONSTANT 1.0";
  "CONSTANT 1.0"; "0 7 0 8 0 9 0 10 0 11 0 12";
  "1 3 1 10000 1 1 1 1 1 1 1 1 1 1 1 1 1" ].

(** The file of the scenario: the same, with [isuboc = 0] and no output
    block. *)
Definition sub_scenario_file : string := lines [
  "# SUB"; "0 0 1 1 1 20 0.0 0.2 5 0 0"; "1"; "1";
  "CONSTANT 1.0"; "CONSTANT 100000.0"; "CONSTANT 0.0001"; "CONSTANT 0.001";
  "CONSTANT 0.0"; "1e-06 6e-06 0.0006  #material zone 1 data";
  "CONSTANT 1.0"; "CONSTANT 100000.0"; "CONSTANT 0.0"; "CONSTANT 1.0";
  "CONSTANT 1.0" ].

(** The same file cut after the first array. *)
Definition sub_file_cut : string := lines [
  "# SUB"; "0 1 1 1 1 20 0.0 0.2 5 0 0"; "1"; "1"; "CONSTANT 1.0" ].

(** A SUB file without interbed systems. *)
Definition sub_file_none : string := lines [ "# SUB"; "0 0 0 0 1 20 0.0 0.2 5 0 0" ].

(** UPW files of one layer: [np] is [npupw], [lw] is [laywet]. *)
Definition upw_file (np lw : string) : string := lines [
  "# UPW"; "  0  -1E+30  " +:+ np +:+ "  0"; " 1"; " 0"; " 1.0"; " 0"; " " +:+ lw;
  "CONSTANT 1.0"; "CONSTANT 2.0"; "CONSTANT 3.0"; "CONSTANT 4.0" ].

(** The object [ModflowUpw(model, laytyp=[1], laywet=[lw], hk=1., vka=2.,
    ss=3., sy=4.)] of one layer. *)
Definition upw_object (lw : Z) : Upw.ModflowUpw grid := {|
  Upw.heading := "# UPW for MODFLOW-NWT, generated by Flopy.";
  Upw.iupwcb := 0; Upw.hdry := Fin true 1 30; Upw.npupw := 0; Upw.iphdry := 0;
  Upw.laytyp := [1]; Upw.layavg := [0]; Upw.chani := [1];
  Upw.layvka := [0]; Upw.laywet := [lw];
  Upw.options := " ";
  Upw.hk := [Fin false 1 0]; Upw.hani := [Fin false 1 0];
  Upw.vka := [Fin false 2 0]; Upw.ss := [Fin false 3 0];
  Upw.sy := [Fin false 4 0]; Upw.vkcb := [Fin false 0 0]
|}.

End ConstCodec.

(** ** Notions for further properties *)

(** The text of a file made of the lines [l], each ended by a newline. *)
Fixpoint join_lines (l : list string) : string :=
  match l with
  | [] => ""
  | x :: l' => x +:+ nl +:+ join_lines l'
  end.

(** The text of the integers [vs], each followed by a space, as the loops
    [for i in t: f.write('{} '.format(i))] leave it in the file. *)
Definition numbers_text `{Externals grid} (vs : list Z) : string :=
  file_text (map (fun v => Text (grid:=grid) (str_int v +:+ " ")) vs).

(** The line of datasets 2 and 3 as [write_file] writes it for the
    one-based indices [vs]: each followed by a space, then a newline. *)
Definition layer_line `{Externals grid} (vs : list Z) : list (chunk grid) :=
  map (fun v => Text (grid:=grid) (str_int v +:+ " ")) vs ++ [Text nl].

(** The vector that [load] holds for a line of one-based indices [vs]:
    [read1d(f, ln) - 1], in 64-bit arithmetic. *)
Definition zero_based (vs : list Z) : list Z := map (fun v => wrap64 (v - 1)) vs.

(** The next line of the file starts with the [n] 64-bit integers [vs]. *)
Definition next_ints (n : Z) (s : lstate) (vs : list Z) : Prop :=
  map int (take (Z.to_nat n) (strip_split (readline (rest s)).1)) = map Ok vs
  /\ length vs = Z.to_nat n
  /\ Forall (fun v => in_int64 v = true) vs.

(** What [write_file] writes before the layer indices: the heading and the
    two writes of dataset 1. *)
Definition sub_file_start `{Externals grid} (m : Sub.ModflowSub grid)
    : list (chunk grid) :=
  [Text (Sub.heading m +:+ nl); Text (Sub.dataset1_head m);
   Text (Sub.dataset1_tail m)].

(** The arrays among what was written, each by its field and its index. *)
Definition entry_key {grid} (c : chunk grid) : option (string * nat) :=
  match c with Entry f k _ => Some (f, k) | Text _ => None end.

Definition entry_keys {grid} (o : list (chunk grid)) : list (string * nat) :=
  omap entry_key o.

(** The first word of a label handed to the array codec: the name of the
    array. *)
Definition first_word (label : string) : string :=
  match strip_split label with w :: _ => w | [] => "" end.

(** A call that returns has appended [l] to the part [f] of the state. *)
Definition appends {S X A} (f : S -> list X) (c : M S A) (l : list X) : Prop :=
  forall s a s', c s = (Ok a, s') -> f s' = f s ++ l.

(** The arrays of a SUB file in their order: [rnb] for every delay system,
    then the four arrays of every no-delay system, then the five arrays of
    every delay system. *)
Definition sub_arrays (nndb ndb : Z) : list (string * nat) :=
  flat_map (fun k => [("rnb", k)]) (range ndb)
  ++ flat_map (fun k => [("hc", k); ("sfe", k); ("sfv", k); ("com", k)]) (range nndb)
  ++ flat_map (fun k => [("dstart", k); ("dhc", k); ("dcom", k); ("dz", k); ("nz", k)])
       (range ndb).

(** A per-layer condition on a vector of flags, false beyond its end. *)
Definition flag {A} (p : A -> bool) (l : list A) (k : nat) : bool :=
  match l !! k with Some a => p a | None => false end.

(** The arrays of one layer of a UPW file, in their order: [hani] for a
    layer with horizontal anisotropy, [ss] in a transient simulation and
    with it [sy] for a convertible layer, [vkcb] above a confining bed. *)
Definition upw_layer_arrays (anis transient conv cbd : bool) : list string :=
  ["hk"] ++ (if anis then ["hani"] else []) ++ ["vka"]
  ++ (if transient then ["ss"] ++ (if conv then ["sy"] else []) else [])
  ++ (if cbd then ["vkcb"] else []).

(** ** More sample inputs *)

Module Samples.
Import ConstCodec.

(** A host model without a DIS package, and a verbose one. *)
Definition host_no_dis : host := {|
  version := "mf2005"; nrow := 1; ncol := 1; nlay := 1; nper := 3;
  verbose := false; dis := None; packages := []; pop_key_list := []
|}.

Definition host_verbose : host := {|
  version := "mf2005"; nrow := 1; ncol := 1; nlay := 1; nper := 3;
  verbose := true;
  dis := Some {| steady := [true]; laycbd := [0] |};
  packages := ["DIS"]; pop_key_list := []
|}.

(** [ModflowSub(model)], every argument at its default, where the
    constructor returns. *)
Definition sub_default_object : Sub.ModflowSub grid :=
  match (Sub.init Sub.defaults (host1 3 true)).1 with
  | Ok m => m
  | Raise _ => sub_object 0
  end.

(** [ModflowSub(model, isuboc=1, ids16=[0, 2, 0, 9999, 1, ..., 1])]: the
    row of dataset 16 given as a flat list. *)
Definition sub_args_flat_ids16 : Sub.args grid :=
  let d := Sub.defaults in {|
  Sub.a_isubcb := 0; Sub.a_isuboc := 1; Sub.a_idsave := 0; Sub.a_idrest := 0;
  Sub.a_nndb := 1; Sub.a_ndb := 1; Sub.a_nmz := 1; Sub.a_nn := 20;
  Sub.a_ac1 := Sub.a_ac1 d; Sub.a_ac2 := Sub.a_ac2 d; Sub.a_itmin := 5;
  Sub.a_ln := Sub.a_ln d; Sub.a_ldn := Sub.a_ldn d; Sub.a_rnb := Sub.a_rnb d;
  Sub.a_hc := Sub.a_hc d; Sub.a_sfe := Sub.a_sfe d; Sub.a_sfv := Sub.a_sfv d;
  Sub.a_com := Sub.a_com d; Sub.a_dp := Sub.a_dp d;
  Sub.a_dstart := Sub.a_dstart d; Sub.a_dhc := Sub.a_dhc d;
  Sub.a_dcom := Sub.a_dcom d; Sub.a_dz := Sub.a_dz d; Sub.a_nz := Sub.a_nz d;
  Sub.a_ids15 := None;
  Sub.a_ids16 := Some (Sub.T1 [0; 2; 0; 9999; 1; 1; 1; 1; 1; 1; 1; 1; 1; 1; 1; 1; 1]);
  Sub.a_extension := "sub"; Sub.a_unit_number := 32 |}.

(** A load state whose [ext_unit_dict] knows the unit 7 of a restart
    file. *)
Definition restart_state (text : string) : lstate :=
  {| rest := text; hst := host1 3 true;
     eud := Some {[ 7 := "restart.rst" ]}; reads := [] |}.

(** The header line of a SUB file with the three units set. *)
Definition sub_header_units : string := "3 0 1 1 1 20 0.0 0.2 5 4 7" +:+ nl.

(** A SUB file with output control and no interbed system. *)
Definition sub_file_output_only : string := join_lines [
  "# SUB"; "0 1 0 0 1 20 0.0 0.2 5 0 0";
  "0 7 0 8 0 9 0 10 0 11 0 12";
  "1 3 1 10000 1 1 1 1 1 1 1 1 1 1 1 1 1" ].

(** A SUB file with one delay system and no no-delay system. *)
Definition sub_file_delay_only : string := join_lines [
  "# SUB"; "0 0 0 1 1 20 0.0 0.2 5 0 0"; "3";
  "CONSTANT 1.0"; "1e-06 6e-06 0.0006  #material zone 1 data";
  "CONSTANT 1.0"; "CONSTANT 100000.0"; "CONSTANT 0.0"; "CONSTANT 1.0";
  "CONSTANT 1.0" ].

End Samples.

(** * Properties *)

(** ** The monad *)

Section MonadFacts.
Context {S : Type}.

Lemma bind_ok {A B} (c : M S A) (k : A -> M S B) s a s' :
  c s = (Ok a, s') -> bind c k s = k a s'.
Proof. intros E. unfold bind. now rewrite E. Qed.

Lemma bind_raise {A B} (c : M S A) (k : A -> M S B) s e s' :
  c s = (Raise e, s') -> bind c k s = (Raise e, s').
Proof. intros E. unfold bind. now rewrite E. Qed.

(** How a bind can end: its first part raised, or it returned and the
    second part ended that way. *)
Lemma bind_inv {A B} (c : M S A) (k : A -> M S B) s r s' :
  bind c k s = (r, s') ->
  (exists e, c s = (Raise e, s') /\ r = Raise e)
  \/ (exists a s1, c s = (Ok a, s1) /\ k a s1 = (r, s')).
Proof.
  unfold bind. destruct (c s) as [[a|e] s1] eqn:E; intros E'.
  - right. eauto.
  - left. inversion E'; subst. eauto.
Qed.

Lemma lift_inv {A} (x : result A) (s : S) r s' :
  lift x s = (r, s') -> r = x /\ s' = s.
Proof. unfold lift. intros E. now inversion E. Qed.

(** A step that only computes a value or raises. *)
Lemma bind_lift {A B} (x : result A) (k : A -> M S B) s :
  bind (lift x) k s = match x with Ok a => k a s | Raise e => (Raise e, s) end.
Proof. unfold bind, lift. now destruct x. Qed.

End MonadFacts.

(** ** Strings: words, lines and printed numbers *)

Section StringFacts.

Lemma sapp_cons c s t : String c s +:+ t = String c (s +:+ t).
Proof. reflexivity. Qed.

Lemma sapp_nil_l t : "" +:+ t = t.
Proof. reflexivity. Qed.

Lemma sapp_nil_r s : s +:+ "" = s.
Proof. induction s as [| c s IH]; [reflexivity |]. now rewrite sapp_cons, IH. Qed.

Lemma sapp_assoc a b c : (a +:+ b) +:+ c = a +:+ (b +:+ c).
Proof. induction a as [| x a IH]; [reflexivity |]. now rewrite !sapp_cons, IH. Qed.

Lemma sapp_length a b : String.length (a +:+ b) = (String.length a + String.length b)%nat.
Proof. induction a as [| x a IH]; [reflexivity |]. rewrite sapp_cons. cbn. now rewrite IH. Qed.

Lemma all_chars_app p a b : all_chars p (a +:+ b) = all_chars p a && all_chars p b.
Proof.
  induction a as [| x a IH]; [reflexivity |].
  rewrite sapp_cons. cbn [all_chars]. rewrite IH. now rewrite andb_assoc.
Qed.

Lemma all_chars_impl (p q : ascii -> bool) s :
  (forall c, p c = true -> q c = true) ->
  all_chars p s = true -> all_chars q s = true.
Proof.
  intros Hpq. induction s as [| c s IH]; [reflexivity |]. cbn [all_chars].
  intros [Hc Hs]%andb_true_iff. rewrite (Hpq _ Hc). cbn. auto.
Qed.

Lemma all_chars_substring p s : forall n m,
  all_chars p s = true -> all_chars p (String.substring n m s) = true.
Proof.
  induction s as [| c s IH]; intros n m Hs.
  - destruct n, m; reflexivity.
  - cbn [all_chars] in Hs. apply andb_true_iff in Hs as [Hc Hs].
    destruct n as [| n]; [destruct m as [| m] |]; cbn [String.substring].
    + reflexivity.
    + cbn [all_chars]. rewrite Hc. cbn. auto.
    + auto.
Qed.

Lemma all_chars_zeros p n : p "0"%char = true -> all_chars p (zeros n) = true.
Proof. intros Hp. induction n as [| n IH]; [reflexivity |]. cbn. now rewrite Hp, IH. Qed.

(** *** Words *)

Lemma tokens_word w : forall acc s,
  all_chars not_space w = true ->
  tokens_from acc (w +:+ s) = tokens_from (acc +:+ w) s.
Proof.
  induction w as [| c w IH]; intros acc s Hw.
  - now rewrite sapp_nil_l, sapp_nil_r.
  - cbn [all_chars] in Hw. apply andb_true_iff in Hw as [Hc Hw].
    rewrite sapp_cons. cbn [tokens_from].
    unfold not_space in Hc. apply negb_true_iff in Hc. rewrite Hc.
    rewrite IH by assumption. rewrite sapp_assoc. reflexivity.
Qed.

Lemma tokens_word_sep w c s :
  is_word w = true -> is_space c = true ->
  tokens_from "" (w +:+ String c s) = w :: tokens_from "" s.
Proof.
  intros [Hne Hw]%andb_true_iff Hc.
  rewrite tokens_word by assumption. rewrite sapp_nil_l. cbn [tokens_from].
  rewrite Hc. destruct w; [discriminate | reflexivity].
Qed.

Lemma is_word_app_l a b :
  is_word a = true -> all_chars not_space b = true -> is_word (a +:+ b) = true.
Proof.
  intros [Hne Ha]%andb_true_iff Hb. unfold is_word.
  rewrite all_chars_app, Ha, Hb. destruct a; [discriminate | reflexivity].
Qed.

(** *** Lines *)


Lemma readline_line h r :
  all_chars not_newline h = true ->
  readline (h +:+ nl +:+ r) = (h +:+ nl, r).
Proof.
  induction h as [| c h IH]; intros Hh.
  - reflexivity.
  - cbn [all_chars] in Hh. apply andb_true_iff in Hh as [Hc Hh].
    rewrite !sapp_cons. cbn [readline].
    unfold not_newline in Hc. apply negb_true_iff in Hc. rewrite Hc.
    now rewrite IH.
Qed.

(** *** Printed numbers *)

Lemma uint_chars d : all_chars is_digit (NilEmpty.string_of_uint d) = true.
Proof. induction d; cbn; auto. Qed.

Lemma uint_nonempty d : d <> Decimal.Nil -> NilEmpty.string_of_uint d <> "".
Proof. destruct d; cbn; congruence. Qed.

Lemma str_N_chars n : all_chars is_digit (str_N n) = true.
Proof.
  unfold str_N, NilZero.string_of_uint.
  destruct (N.to_uint n); try apply uint_chars. reflexivity.
Qed.

Lemma str_N_nonempty n : str_N n <> "".
Proof.
  unfold str_N, NilZero.string_of_uint.
  destruct (N.to_uint n); cbn; congruence.
Qed.

Lemma digit_is_int_char c : is_digit c = true -> is_int_char c = true.
Proof. unfold is_int_char. now intros ->. Qed.

Lemma digit_is_float_char c : is_digit c = true -> is_float_char c = true.
Proof. unfold is_float_char. now intros ->. Qed.

Lemma str_int_chars z : all_chars is_int_char (str_int z) = true.
Proof.
  unfold str_int, NilZero.string_of_int.
  destruct (Z.to_int z) as [d | d].
  - apply (all_chars_impl is_digit); [apply digit_is_int_char |].
    unfold NilZero.string_of_uint. destruct d; try apply uint_chars. reflexivity.
  - cbn [all_chars]. apply andb_true_iff. split; [reflexivity |].
    apply (all_chars_impl is_digit); [apply digit_is_int_char |].
    unfold NilZero.string_of_uint. destruct d; try apply uint_chars. reflexivity.
Qed.

Lemma str_int_nonempty z : str_int z <> "".
Proof.
  unfold str_int, NilZero.string_of_int. destruct (Z.to_int z) as [d | d].
  - unfold NilZero.string_of_uint. destruct d; cbn; congruence.
  - congruence.
Qed.

Ltac chars_step :=
  first
    [ rewrite all_chars_app
    | apply andb_true_iff; split
    | reflexivity
    | apply all_chars_substring
    | apply all_chars_zeros; reflexivity
    | apply (all_chars_impl is_digit); [apply digit_is_float_char | apply str_N_chars]
    | match goal with |- context [if ?b then _ else _] => destruct b end ].

Lemma str_float_chars x : all_chars is_float_char (str_float x) = true.
Proof.
  destruct x as [neg m e | neg |]; [| destruct neg; reflexivity | reflexivity].
  unfold str_float. repeat chars_step.
Qed.

Lemma str_float_nonempty x : str_float x <> "".
Proof.
  intros E. apply (f_equal String.length) in E. revert E.
  destruct x as [neg m e | neg |]; [| destruct neg; discriminate | discriminate].
  unfold str_float.
  repeat match goal with |- context [if ?b then _ else _] => destruct b end;
    rewrite ?sapp_length; cbn [String.length]; lia.
Qed.

Lemma int_char_not_space c : is_int_char c = true -> not_space c = true.
Proof. destruct c as [[] [] [] [] [] [] [] []]; vm_compute; congruence. Qed.

Lemma float_char_not_space c : is_float_char c = true -> not_space c = true.
Proof. destruct c as [[] [] [] [] [] [] [] []]; vm_compute; congruence. Qed.

Lemma not_space_not_newline c : not_space c = true -> not_newline c = true.
Proof. destruct c as [[] [] [] [] [] [] [] []]; vm_compute; congruence. Qed.

Lemma int_char_not_hash c : is_int_char c = true -> c <> "#"%char.
Proof. intros Hc ->. discriminate Hc. Qed.

Lemma str_int_word z : is_word (str_int z) = true.
Proof.
  unfold is_word. apply andb_true_iff. split.
  - pose proof (str_int_nonempty z). now destruct (str_int z).
  - apply (all_chars_impl is_int_char); [apply int_char_not_space | apply str_int_chars].
Qed.

Lemma str_float_word x : is_word (str_float x) = true.
Proof.
  unfold is_word. apply andb_true_iff. split.
  - pose proof (str_float_nonempty x). now destruct (str_float x).
  - apply (all_chars_impl is_float_char);
      [apply float_char_not_space | apply str_float_chars].
Qed.

Lemma is_word_no_space w : is_word w = true -> all_chars not_space w = true.
Proof. now intros [_ Hw]%andb_true_iff. Qed.

End StringFacts.

(** *** Frames: the part of the state a call leaves as it was *)


Section Frames.
Context {S X : Type} (f : S -> X).

Lemma keeps_ret {A} (a : A) : keeps f (ret a).
Proof. intros s r s' E. now inversion E. Qed.

Lemma keeps_raise {A} e : keeps f (@raise S A e).
Proof. intros s r s' E. now inversion E. Qed.

Lemma keeps_lift {A} (x : result A) : keeps f (lift x).
Proof. intros s r s' E. now inversion E. Qed.

Lemma keeps_gets {A} (g : S -> A) : keeps f (gets g).
Proof. intros s r s' E. now inversion E. Qed.

Lemma keeps_bind {A B} (c : M S A) (k : A -> M S B) :
  keeps f c -> (forall a, keeps f (k a)) -> keeps f (bind c k).
Proof.
  intros Hc Hk s r s' E. apply bind_inv in E as [(e & E & _) | (a & s1 & E1 & E2)].
  - eauto.
  - rewrite (Hk _ _ _ _ E2). eauto.
Qed.

Lemma keeps_for_each {A} (l : list A) (body : A -> M S unit) :
  (forall x, keeps f (body x)) -> keeps f (for_each l body).
Proof.
  intros Hb. induction l as [| x l IH]; cbn [for_each].
  - apply keeps_ret.
  - apply keeps_bind; auto.
Qed.

Lemma keeps_collect {A B} (l : list A) (body : A -> M S B) :
  (forall x, keeps f (body x)) -> keeps f (collect l body).
Proof.
  intros Hb. induction l as [| x l IH]; cbn [collect].
  - apply keeps_ret.
  - apply keeps_bind; [auto |]. intros b.
    apply keeps_bind; [auto |]. intros bs. apply keeps_ret.
Qed.

Lemma keeps_for_each_in {A} (l : list A) (body : A -> M S unit) :
  (forall x, In x l -> keeps f (body x)) -> keeps f (for_each l body).
Proof.
  induction l as [| x l IH]; cbn [for_each]; intros Hb.
  - apply keeps_ret.
  - apply keeps_bind; [apply Hb; now left |]. intros _. apply IH.
    intros y Hy. apply Hb. now right.
Qed.

Lemma keeps_modify (g : S -> S) : (forall s, f (g s) = f s) -> keeps f (modify g).
Proof. intros Hg s r s' E. inversion E. apply Hg. Qed.

(** A bind that returned: its first part returned, and left [f] alone if
    it keeps it. *)
Lemma bind_ok_keeps {A B} (c : M S A) (k : A -> M S B) s b s' :
  keeps f c -> bind c k s = (Ok b, s') ->
  exists a s1, f s1 = f s /\ c s = (Ok a, s1) /\ k a s1 = (Ok b, s').
Proof.
  intros Hc E. apply bind_inv in E as [(e & _ & Hx) | (a & s1 & E1 & E2)].
  - discriminate.
  - exists a, s1. split; [exact (Hc _ _ _ E1) | auto].
Qed.

Lemma keeps_int_at t i : keeps f (int_at t i).
Proof. apply keeps_lift. Qed.

Lemma keeps_float_at t i : keeps f (float_at t i).
Proof. apply keeps_lift. Qed.

End Frames.

Create HintDb keeps.

(** One step of a frame proof: through the monad's operations and the
    branches of the code, ending at a call whose frame is in the
    database. *)
Ltac keeps_step :=
  first
    [ apply keeps_ret | apply keeps_raise | apply keeps_lift | apply keeps_gets
    | apply keeps_int_at | apply keeps_float_at
    | solve [auto with keeps]
    | apply keeps_bind; [| intros ?]
    | apply keeps_for_each; intros ?
    | apply keeps_collect; intros ?
    | match goal with
      | |- keeps _ (if ?b then _ else _) => destruct b
      | |- keeps _ (match ?x with _ => _ end) => destruct x
      end ].

Ltac keeps_auto := repeat keeps_step.


Lemma f_readline_keeps_pkgs : keeps pkgs f_readline.
Proof.
  intros s r s' E. unfold f_readline in E.
  destruct (readline (rest s)). now inversion E.
Qed.

Lemma f_readline_keeps_reads : keeps reads f_readline.
Proof.
  intros s r s' E. unfold f_readline in E.
  destruct (readline (rest s)). now inversion E.
Qed.

Lemma load_array_keeps_pkgs `{Externals grid} dt label :
  keeps pkgs (load_array dt label).
Proof.
  intros s r s' E. unfold load_array in E.
  destruct (util_2d_load _ _ _ _ _ _) as [[g r']|]; now inversion E.
Qed.

Lemma add_pop_key_keeps_pkgs k : keeps pkgs (on_host (add_pop_key_list k)).
Proof. intros s r s' E. now inversion E. Qed.

Lemma add_pop_key_keeps_reads k : keeps reads (on_host (add_pop_key_list k)).
Proof. intros s r s' E. now inversion E. Qed.

#[export] Hint Resolve f_readline_keeps_pkgs f_readline_keeps_reads
  load_array_keeps_pkgs add_pop_key_keeps_pkgs add_pop_key_keeps_reads : keeps.

Lemma header_loop_keeps_pkgs n : keeps pkgs (header_loop n).
Proof. induction n; cbn [header_loop]; keeps_auto. Qed.

Lemma header_loop_keeps_reads n : keeps reads (header_loop n).
Proof. induction n; cbn [header_loop]; keeps_auto. Qed.

Lemma header_line_keeps_pkgs : keeps pkgs header_line.
Proof. intros s r s' E. exact (header_loop_keeps_pkgs _ _ _ _ E). Qed.

Lemma header_line_keeps_reads : keeps reads header_line.
Proof. intros s r s' E. exact (header_loop_keeps_reads _ _ _ _ E). Qed.

Lemma read1d_keeps_pkgs n : keeps pkgs (read1d n).
Proof. unfold read1d. keeps_auto. Qed.

Lemma read1d_keeps_reads n : keeps reads (read1d n).
Proof. unfold read1d. keeps_auto. Qed.

#[export] Hint Resolve header_line_keeps_pkgs header_line_keeps_reads
  read1d_keeps_pkgs read1d_keeps_reads : keeps.

Lemma on_host_keeps_reads {A} (c : M host A) : keeps reads (on_host c).
Proof.
  intros s r s' E. unfold on_host in E. destruct (c (hst s)). now inversion E.
Qed.

#[export] Hint Resolve on_host_keeps_reads : keeps.

(** *** The loop over the comment lines *)

Lemma f_readline_line h r (s : lstate) :
  all_chars not_newline h = true -> rest s = h +:+ nl +:+ r ->
  f_readline s = (Ok (h +:+ nl), set_rest r s).
Proof.
  intros Hh Hr. unfold f_readline. rewrite Hr, readline_line by assumption.
  reflexivity.
Qed.

Lemma readline_length s :
  String.length s
  = (String.length (readline s).1 + String.length (readline s).2)%nat.
Proof.
  induction s as [| c s IH]; [reflexivity |]. cbn [readline].
  destruct (nat_of_ascii c =? 10)%nat; [reflexivity |].
  destruct (readline s) as [l r]. cbn in *. lia.
Qed.

(** The loop never runs out of turns: with more than one turn per
    character of the file, one turn more changes nothing, so the
    [IndexError] of the loop is the one of [line[0]] at the end of the
    file. *)
Lemma header_loop_enough fuel : forall s : lstate,
  (String.length (rest s) < fuel)%nat ->
  header_loop (S fuel) s = header_loop fuel s.
Proof.
  induction fuel as [| fuel IH]; intros s Hl; [lia |].
  change (header_loop (S (S fuel)) s)
    with (bind f_readline (fun line =>
            match line with
            | EmptyString => raise IndexError
            | String c _ =>
                if bool_decide (c = "#"%char) then header_loop (S fuel) else ret line
            end) s).
  cbn [header_loop]. unfold bind, f_readline.
  pose proof (readline_length (rest s)) as Hr.
  destruct (readline (rest s)) as [l r]. cbn [fst snd] in Hr.
  destruct l as [| c l]; [reflexivity |].
  case_bool_decide; [| reflexivity].
  apply IH. cbn [rest]. cbn [String.length] in Hr. lia.
Qed.

Lemma header_line_any_fuel (s : lstate) k :
  header_loop (S (String.length (rest s)) + k) s = header_line s.
Proof.
  induction k as [| k IH]; [now rewrite Nat.add_0_r |].
  rewrite Nat.add_succ_r, header_loop_enough; [exact IH | lia].
Qed.

(** A comment line is skipped. *)
Lemma header_loop_comment k h r (s : lstate) :
  is_comment h = true -> rest s = h +:+ nl +:+ r ->
  header_loop (S k) s = header_loop k (set_rest r s).
Proof.
  intros Hc Hr. cbn [header_loop].
  destruct h as [| c h]; [discriminate |]. cbn [is_comment] in Hc.
  apply andb_true_iff in Hc as [Hc Hh]. apply bool_decide_eq_true in Hc. subst c.
  erewrite bind_ok; [| apply f_readline_line; [| eassumption]].
  - rewrite sapp_cons. now rewrite bool_decide_eq_true_2.
  - cbn [all_chars]. apply andb_true_iff. split; [reflexivity | exact Hh].
Qed.

(** The first line that is not a comment is the header line. *)
Lemma header_loop_data k c h r (s : lstate) :
  c <> "#"%char -> all_chars not_newline (String c h) = true ->
  rest s = String c h +:+ nl +:+ r ->
  header_loop (S k) s = (Ok (String c h +:+ nl), set_rest r s).
Proof.
  intros Hc Hh Hr. cbn [header_loop].
  erewrite bind_ok; [| apply f_readline_line; eassumption].
  rewrite sapp_cons. now rewrite bool_decide_eq_false_2.
Qed.

(** ** mfsub.py *)

Module SubFacts.
Import Sub.

Section WithGrid.
Context `{Externals grid}.

(** *** The constructor's default for the output table *)

Lemma set_units_length l l' : set_units l = Ok l' -> length l' = length l.
Proof.
  unfold set_units, set_item. cbn [foldl].
  repeat (case_bool_decide; [| intros; discriminate]).
  intros E. inversion E. now rewrite !length_insert.
Qed.

Lemma set_units_ok l : (12 <= length l)%nat -> exists l', set_units l = Ok l'.
Proof.
  intros Hl. unfold set_units, set_item. cbn [foldl].
  repeat (case_bool_decide; [| rewrite ?length_insert in *; lia]).
  eauto.
Qed.

Lemma init_output_default (a : args grid) np i o15 o16 :
  a_isuboc a = 1 -> a_ids16 a = None ->
  init_output a np = Ok (i, o15, o16) ->
  i = 1 /\ o16 = Some [[0; np - 1; 0; 9999; 1; 1; 1; 1; 1; 1; 1; 1; 1; 1; 1; 1; 1]].
Proof.
  intros Hi H16. unfold init_output. rewrite Hi, H16. cbn [Z.ltb Z.compare].
  destruct (set_units _); [| discriminate].
  destruct (in_int64 (np - 1)); [| discriminate].
  intros E. inversion E. split; reflexivity.
Qed.

(** [init] returns exactly when its three blocks do, and then registers
    the package and stores what the blocks computed. *)
Lemma init_inv (a : args grid) h r h' :
  init a h = (r, h') ->
  match r with
  | Raise _ => h' = h
  | Ok m =>
      exists nd dl i o15 o16,
        init_nodelay a (nrow h, ncol h) = Ok nd
        /\ init_delay a (nrow h, ncol h) = Ok dl
        /\ init_output a (nper h) = Ok (i, o15, o16)
        /\ isuboc m = i /\ ids15 m = o15 /\ ids16 m = o16
        /\ ln m = nd.1.1.1.1 /\ ldn m = dl.1.1.1.1.1.1
        /\ packages h' = packages h ++ ["SUB"]
  end.
Proof.
  unfold init, bind, gets, lift, add_package, modify, ret.
  destruct (init_nodelay a _) as [[[[[? ?] ?] ?] ?]|]; [| intros E; now inversion E].
  destruct (init_delay a _) as [[[[[[[? ?] ?] ?] ?] ?] ?]|]; [| intros E; now inversion E].
  destruct (init_output a _) as [[[? ?] ?]|]; [| intros E; now inversion E].
  intros E. inversion E; subst. cbn. eauto 15.
Qed.

Lemma init_total (a : args grid) h :
  is_ok (init_nodelay a (nrow h, ncol h)) = true ->
  is_ok (init_delay a (nrow h, ncol h)) = true ->
  is_ok (init_output a (nper h)) = true ->
  exists m h', init a h = (Ok m, h').
Proof.
  unfold init, bind, gets, lift, add_package, modify, ret.
  destruct (init_nodelay a _) as [[[[[? ?] ?] ?] ?]|]; [| discriminate].
  destruct (init_delay a _) as [[[[[[[? ?] ?] ?] ?] ?] ?]|]; [| discriminate].
  destruct (init_output a _) as [[[? ?] ?]|]; [| discriminate].
  eauto.
Qed.

(** C5: constructing a SUB package with [isuboc = 1] and no [ids16]
    gives one output-control row of 17 entries, [0, nper - 1, 0, 9999]
    followed by thirteen flags all equal to 1, and [isuboc] stays 1; the
    construction succeeds whenever the array arguments have the declared
    shapes, [ids15] (if given) has its 12 entries and [nper - 1] is a
    64-bit integer. *)
Theorem C5_default_output_row (a : args grid) (h : host) :
  a_isuboc a = 1 -> a_ids16 a = None ->
  (forall m h', init a h = (Ok m, h') ->
     isuboc m = 1
     /\ ids16 m = Some [[0; nper h - 1; 0; 9999; 1; 1; 1; 1; 1; 1; 1; 1; 1; 1; 1; 1; 1]])
  /\ (is_ok (init_nodelay a (nrow h, ncol h)) = true ->
      is_ok (init_delay a (nrow h, ncol h)) = true ->
      match a_ids15 a with Some l => (12 <= length l)%nat | None => True end ->
      in_int64 (nper h - 1) = true ->
      exists m h', init a h = (Ok m, h')).
Proof.
  intros Hi H16. split.
  - intros m h' E. apply init_inv in E.
    destruct E as (nd & dl & i & o15 & o16 & _ & _ & Eo & <- & _ & <- & _).
    eapply init_output_default; eauto.
  - intros Hn Hd H15 Hp. apply init_total; trivial.
    unfold init_output. rewrite Hi, H16, Hp. cbn [Z.ltb Z.compare].
    destruct (set_units_ok (match a_ids15 a with Some l => l | None => replicate 12 0 end))
      as [l' ->]; [| reflexivity].
    destruct (a_ids15 a); [exact H15 | cbn; lia].
Qed.

(** *** Registration with the host model *)

Lemma move_unit_keeps_pkgs i : keeps pkgs (move_unit i).
Proof.
  intros s r s' E. unfold move_unit in E.
  destruct (eud s) as [d|]; [destruct (d !! i) |]; now inversion E.
Qed.

Lemma move_unit_keeps_reads i : keeps reads (move_unit i).
Proof.
  intros s r s' E. unfold move_unit in E.
  destruct (eud s) as [d|]; [destruct (d !! i) |]; now inversion E.
Qed.

#[local] Hint Resolve move_unit_keeps_pkgs move_unit_keeps_reads : keeps.

Lemma load_dataset1_keeps_pkgs line : keeps pkgs (load_dataset1 line).
Proof. unfold load_dataset1. keeps_auto. Qed.

Lemma load_dataset1_keeps_reads line : keeps reads (load_dataset1 line).
Proof. unfold load_dataset1. keeps_auto. Qed.

Lemma load_layers_keeps_pkgs n : keeps pkgs (load_layers n).
Proof. unfold load_layers. keeps_auto. Qed.

Lemma load_layers_keeps_reads n : keeps reads (load_layers n).
Proof. unfold load_layers. keeps_auto. Qed.

Lemma load_layer_array_keeps_pkgs dt what a k :
  keeps pkgs (load_layer_array dt what a k).
Proof. unfold load_layer_array. keeps_auto. Qed.

Lemma load_dp_keeps_pkgs ndb nmz : keeps pkgs (load_dp ndb nmz).
Proof. unfold load_dp. keeps_auto. Qed.

Lemma load_dp_keeps_reads ndb nmz : keeps reads (load_dp ndb nmz).
Proof. unfold load_dp. keeps_auto. Qed.

Lemma load_ids15_keeps_pkgs : keeps pkgs load_ids15.
Proof. unfold load_ids15. keeps_auto. Qed.

Lemma load_ids15_keeps_reads : keeps reads load_ids15.
Proof. unfold load_ids15. keeps_auto. Qed.

Lemma load_ids16_row_keeps_pkgs : keeps pkgs load_ids16_row.
Proof. unfold load_ids16_row. keeps_auto. Qed.

Lemma load_ids16_row_keeps_reads : keeps reads load_ids16_row.
Proof. unfold load_ids16_row. keeps_auto. Qed.

#[local] Hint Resolve load_dataset1_keeps_pkgs load_dataset1_keeps_reads
  load_layers_keeps_pkgs load_layers_keeps_reads load_layer_array_keeps_pkgs
  load_dp_keeps_pkgs load_dp_keeps_reads load_ids15_keeps_pkgs
  load_ids15_keeps_reads load_ids16_row_keeps_pkgs load_ids16_row_keeps_reads
  : keeps.

Lemma registers_bind {A B} (c : M lstate A) (k : A -> M lstate B) :
  keeps pkgs c -> (forall a, registers (k a)) -> registers (bind c k).
Proof.
  intros Hc Hk s r s' E. apply bind_inv in E as [(e & E & ->) | (a & s1 & E1 & E2)].
  - exact (Hc _ _ _ E).
  - pose proof (Hk a s1 r s' E2) as Hr. now rewrite (Hc _ _ _ E1) in Hr.
Qed.

Lemma registers_init (a : args grid) : registers (on_host (init a)).
Proof.
  intros s r s' E. unfold on_host in E.
  destruct (init a (hst s)) as [r0 h'] eqn:Ei. inversion E; subst.
  apply init_inv in Ei. unfold pkgs. cbn [hst].
  destruct r as [m|e]; [| now rewrite Ei].
  destruct Ei as (? & ? & ? & ? & ? & ? & ? & ? & ? & ? & ? & ? & ? & Hp). exact Hp.
Qed.

Lemma load_registers : registers load.
Proof.
  unfold load.
  repeat (apply registers_bind; [solve [keeps_auto] | intros ?];
          repeat match goal with x : (_ * _)%type |- _ => destruct x end).
  apply registers_init.
Qed.

(** C8: a load that fails, at whatever point, leaves the package list
    of the host model as it was; the package is registered exactly when
    [load] returns, by the constructor it calls last. *)
Theorem C8_failed_load_registers_nothing (s : lstate) r s' :
  load s = (r, s') ->
  match r with
  | Raise _ => packages (hst s') = packages (hst s)
  | Ok _ => packages (hst s') = packages (hst s) ++ ["SUB"]
  end.
Proof.
  intros E. pose proof (load_registers _ _ _ E) as Hr.
  destruct r; exact Hr.
Qed.

(** *** No interbed systems: [nndb = 0] and [ndb = 0] *)

(** What [write_file] does on an object whose [ln] is [None]: the heading
    and the two writes of dataset 1, then [self.ln.array] raises. *)
Lemma write_without_ln (m : ModflowSub grid) :
  ln m = None ->
  run_write m =
    (Raise AttributeError,
     {| out := [Text (heading m +:+ nl); Text (dataset1_head m);
                Text (dataset1_tail m)];
        self := m |}).
Proof.
  intros Hln. unfold run_write, write_file, write_dataset1, write_layers.
  unfold bind at 1. cbn [gets self].
  unfold bind at 1. cbn [f_write modify out self].
  unfold bind at 1. unfold bind at 1. cbn [f_write modify out self].
  unfold bind at 1. unfold bind at 1. rewrite Hln. reflexivity.
Qed.

(** The constructor leaves every array of the two interbed sections
    absent when both counts are zero. *)
Lemma init_no_interbeds (a : args grid) h m h' :
  a_nndb a <= 0 -> a_ndb a <= 0 -> init a h = (Ok m, h') ->
  nndb m = a_nndb a /\ ndb m = a_ndb a /\ dp m = a_dp a
  /\ ln m = None /\ hc m = None /\ sfe m = None /\ sfv m = None /\ com m = None
  /\ ldn m = None /\ rnb m = None /\ dstart m = None /\ dhc m = None
  /\ dcom m = None /\ dz m = None /\ nz m = None.
Proof.
  intros Hn Hd. unfold init, init_nodelay, init_delay, bind, gets, lift,
    add_package, modify, ret.
  assert (Hn' : (0 <? a_nndb a) = false) by (apply Z.ltb_ge; lia).
  assert (Hd' : (0 <? a_ndb a) = false) by (apply Z.ltb_ge; lia).
  rewrite Hn', Hd'.
  destruct (init_output a _) as [[[? ?] ?]|]; [| discriminate].
  intros E. inversion E; subst. cbn. repeat split; reflexivity.
Qed.

(** C3, as far as the code goes: a SUB package constructed with
    [nndb = 0] and [ndb = 0] holds no array of the two interbed sections,
    and [write_file] on it does not write the file: it raises
    [AttributeError] at [self.ln.array], having written the heading and
    dataset 1 and no grid array. *)
Theorem C3_write_raises_without_interbeds (a : args grid) h m h' :
  a_nndb a = 0 -> a_ndb a = 0 -> init a h = (Ok m, h') ->
  ln m = None /\ ldn m = None
  /\ exists w, run_write m = (Raise AttributeError, w)
               /\ length (out w) = 3%nat
               /\ forallb (fun c => negb (is_entry c)) (out w) = true.
Proof.
  intros Hn Hd E.
  destruct (init_no_interbeds a h m h') as (_ & _ & _ & Hln & _ & _ & _ & _ & Hldn & _);
    [lia | lia | assumption |].
  split; [assumption |]. split; [assumption |].
  eexists. split; [apply write_without_ln; assumption |].
  split; reflexivity.
Qed.

(** The loader, for its part, asks no array from the array codec when the
    header gives no interbed system. *)
Lemma load_no_interbeds_reads_nothing (s : lstate) line s1 d s2 r s' :
  header_line s = (Ok line, s1) ->
  load_dataset1 line s1 = (Ok d, s2) ->
  d_nndb d <= 0 -> d_ndb d <= 0 ->
  load s = (r, s') ->
  reads s' = reads s
  /\ forall m, r = Ok m ->
       ln m = None /\ ldn m = None /\ rnb m = None /\ hc m = None
       /\ dstart m = None /\ dp m = None.
Proof.
  intros Eh Ed Hn Hd E. unfold load in E.
  rewrite (bind_ok _ _ _ _ _ Eh), (bind_ok _ _ _ _ _ Ed) in E.
  assert (Hn' : (0 <? d_nndb d) = false) by (apply Z.ltb_ge; lia).
  assert (Hd' : (0 <? d_ndb d) = false) by (apply Z.ltb_ge; lia).
  unfold load_layers, load_dp in E. cbv zeta in E. rewrite Hn', Hd' in E.
  cbv beta iota in E.
  rewrite <- (header_line_keeps_reads _ _ _ Eh), <- (load_dataset1_keeps_reads _ _ _ _ Ed).
  split.
  - revert E. generalize s2 r s'.
    match goal with
    | |- forall s0 r0 s0', ?c s0 = (r0, s0') -> _ => change (keeps reads c)
    end.
    repeat (keeps_step; repeat match goal with x : (_ * _)%type |- _ => destruct x end).
  - intros m ->.
    unfold bind at 1 2 3 4 5 6 in E. cbn [ret] in E.
    apply bind_inv in E as [(e & _ & Hx) | (o & s3 & _ & E)]; [discriminate |].
    destruct o as [o15 o16]. unfold on_host in E.
    destruct (init _ (hst s3)) as [r0 h0] eqn:Ei. inversion E; subst r0.
    apply init_no_interbeds in Ei; [| cbn; lia ..].
    cbn in Ei. tauto.
Qed.

(** *** Dataset 1, read and written back *)

Lemma load_scenario_header (s : lstate) :
  load_dataset1 ("0 0 1 1 1 20 0.0 0.2 5 0 0" +:+ nl) s = (Ok scenario_header, s).
Proof. reflexivity. Qed.

(** The constructor stores the scalars it is given; [isuboc] only
    changes (to 1) when a positive [isuboc] comes without [ids16]. *)
Lemma init_scalars (a : args grid) h m h' :
  init a h = (Ok m, h') ->
  isubcb m = a_isubcb a /\ nndb m = a_nndb a /\ ndb m = a_ndb a
  /\ nmz m = a_nmz a /\ nn m = a_nn a /\ ac1 m = a_ac1 a /\ ac2 m = a_ac2 a
  /\ itmin m = a_itmin a /\ idsave m = a_idsave a /\ idrest m = a_idrest a
  /\ (((0 <? a_isuboc a) = true -> a_ids16 a <> None) -> isuboc m = a_isuboc a).
Proof.
  unfold init, bind, gets, lift, add_package, modify, ret.
  destruct (init_nodelay a _) as [[[[[? ?] ?] ?] ?]|]; [| discriminate].
  destruct (init_delay a _) as [[[[[[[? ?] ?] ?] ?] ?] ?]|]; [| discriminate].
  destruct (init_output a _) as [[[i o15] o16]|] eqn:Eo; [| discriminate].
  intros E. inversion E; subst. cbn. repeat split.
  revert Eo. unfold init_output.
  destruct (0 <? a_isuboc a); [| intros Eo _; now inversion Eo].
  destruct (set_units _); [| discriminate].
  destruct (a_ids16 a) as [[row | rows] |].
  - intros Eo. discriminate Eo.
  - intros Eo _. now inversion Eo.
  - intros _ Hx. now destruct (Hx eq_refl).
Qed.

(** The object that [load] returns holds the values of dataset 1. *)
Lemma load_stores_dataset1 (s : lstate) m s' :
  load s = (Ok m, s') ->
  exists line s1 d s2,
    header_line s = (Ok line, s1)
    /\ load_dataset1 line s1 = (Ok d, s2)
    /\ header_is d m.
Proof.
  intros E. unfold load in E.
  apply bind_inv in E as [(e & _ & Hx) | (line & s1 & E1 & E)]; [discriminate |].
  apply bind_inv in E as [(e & _ & Hx) | (d & s2 & E2 & E)]; [discriminate |].
  cbv zeta in E.
  do 6 (apply bind_inv in E as [(e & _ & Hx) | (? & ? & _ & E)]; [discriminate |];
        repeat match goal with x : (_ * _)%type |- _ => destruct x end).
  apply bind_inv in E as [(e & _ & Hx) | ([o15 o16] & s3 & Eo & E)]; [discriminate |].
  unfold on_host in E. destruct (init _ _) as [r0 h0] eqn:Ei.
  inversion E; subst r0. clear E.
  apply init_scalars in Ei. cbn [a_isubcb a_nndb a_ndb a_nmz a_nn a_ac1 a_ac2 a_itmin
    a_idsave a_idrest a_ids16 a_isuboc] in Ei.
  destruct Ei as (? & ? & ? & ? & ? & ? & ? & ? & ? & ? & Hio).
  exists line, s1, d, s2. split; [assumption |]. split; [assumption |].
  unfold header_is. repeat split; try assumption.
  apply Hio. intros Hb. rewrite Hb in Eo.
  do 4 (apply bind_inv in Eo as [(e & _ & Hx) | (? & ? & _ & Eo)]; [discriminate |]).
  inversion Eo; subst. discriminate.
Qed.

(** C2, as far as the code goes: the header line
    ["0 0 1 1 1 20 0.0 0.2 5 0 0"] is read as the eleven values in their
    order, but writing dataset 1 from that state gives the line
    ["0 0 1 1 1 200.0 0.2 5 0 0"]: the second write starts right after
    [nn], so [nn] and [ac1] make one word and the line has ten words, not
    the eleven that were read. *)
Theorem C2_rewritten_header_merges_nn_and_ac1 (m : ModflowSub grid) (w : wstate grid) :
  header_is scenario_header m ->
  (forall s, load_dataset1 ("0 0 1 1 1 20 0.0 0.2 5 0 0" +:+ nl) s
             = (Ok scenario_header, s))
  /\ write_dataset1 m w
     = (Ok tt, {| out := (out w ++ [Text "0 0 1 1 1 20"])
                         ++ [Text ("0.0 0.2 5 0 0" +:+ nl)];
                  self := self w |})
  /\ strip_split ("0 0 1 1 1 20" +:+ "0.0 0.2 5 0 0" +:+ nl)
     = ["0"; "0"; "1"; "1"; "1"; "200.0"; "0.2"; "5"; "0"; "0"]
  /\ strip_split ("0 0 1 1 1 20" +:+ "0.0 0.2 5 0 0" +:+ nl)
     <> strip_split ("0 0 1 1 1 20 0.0 0.2 5 0 0" +:+ nl).
Proof.
  intros (E1 & E2 & E3 & E4 & E5 & E6 & E7 & E8 & E9 & E10 & E11).
  split; [intros s; reflexivity |]. split.
  - unfold write_dataset1, dataset1_head, dataset1_tail.
    rewrite E1, E2, E3, E4, E5, E6, E7, E8, E9, E10, E11. reflexivity.
  - split; [reflexivity | discriminate].
Qed.

(** *** [write_file] and the object it writes *)

Lemma f_write_keeps_self t : keeps self (f_write (grid:=grid) t).
Proof. intros s r s' E. now inversion E. Qed.

Lemma f_write_entry_keeps_self fld k (g : grid) : keeps self (f_write_entry fld k g).
Proof. intros s r s' E. now inversion E. Qed.

#[local] Hint Resolve f_write_keeps_self f_write_entry_keeps_self : keeps.

Lemma write_grid_keeps_self e fld (o : option (list grid)) k :
  keeps self (write_grid e fld o k).
Proof. unfold write_grid. keeps_auto. Qed.

Lemma write_layers_keeps_self a : keeps self (write_layers (grid:=grid) a).
Proof. unfold write_layers. keeps_auto. Qed.

Lemma write_dataset1_keeps_self (m : ModflowSub grid) : keeps self (write_dataset1 m).
Proof. unfold write_dataset1. keeps_auto. Qed.

#[local] Hint Resolve write_grid_keeps_self write_layers_keeps_self
  write_dataset1_keeps_self : keeps.

Lemma f_write_keeps_row0 t : keeps (row0 (grid:=grid)) (f_write (grid:=grid) t).
Proof. intros s r s' E. now inversion E. Qed.

#[local] Hint Resolve f_write_keeps_row0 : keeps.

(** What row [k] of dataset 16 does to the state when it returns. *)
Lemma write_dataset16_row_inv k (s : wstate grid) r s' :
  write_dataset16_row k s = (r, s') ->
  match ids16 (self s) with
  | None => r = Raise AttributeError /\ s' = s
  | Some rows =>
      match rows !! k with
      | None => r = Raise IndexError /\ s' = s
      | Some t =>
          r = Ok tt
          /\ self s' = set_ids16 (<[k := shift_first4 1 t]> rows) (self s)
      end
  end.
Proof.
  unfold write_dataset16_row. unfold bind at 1. cbn [gets].
  unfold bind at 1. destruct (ids16 (self s)) as [rows|]; cbn [lift attr];
    [| intros E; now inversion E].
  unfold bind at 1. unfold index.
  destruct (rows !! k) as [t|]; cbn [lift]; [| intros E; now inversion E].
  unfold bind at 1. cbn [modify].
  set (s1 := {| out := out s; self := set_ids16 (<[k:=shift_first4 1 t]> rows) (self s) |}).
  intros E.
  assert (Hk : keeps self
            (for_each (shift_first4 1 t) (fun i => f_write (grid:=grid) (str_int i +:+ " ")) ;;
             f_write ("  #dataset 16 isuboc " +:+ str_int (Z.of_nat k + 1) +:+ nl)))
    by keeps_auto.
  rewrite (Hk _ _ _ E). split; [| reflexivity].
  apply bind_inv in E as [(e & E & _) | ([] & s2 & _ & E)].
  - exfalso. revert E. generalize s1 s'. clear.
    induction (shift_first4 1 t) as [| x l IH]; cbn [for_each]; intros s1 s' E.
    + discriminate.
    + apply bind_inv in E as [(e' & E & _) | (a & s2 & _ & E)]; [discriminate | eauto].
  - now inversion E.
Qed.

Lemma write_dataset16_row_keeps_row0 k :
  k <> 0%nat -> keeps (row0 (grid:=grid)) (write_dataset16_row k).
Proof.
  intros Hk s r s' E. apply write_dataset16_row_inv in E. unfold row0.
  destruct (ids16 (self s)) as [rows|] eqn:E0;
    [| destruct E as [_ ->]; now rewrite E0].
  destruct (rows !! k) as [t|]; [| destruct E as [_ ->]; now rewrite E0].
  destruct E as [_ ->]. cbn [ids16 set_ids16].
  now apply list_lookup_insert_ne.
Qed.

Lemma wrap64_succ_neq v : wrap64 (v + 1) <> v.
Proof.
  unfold wrap64. intros E.
  assert (Hnz : 2 ^ 64 <> 0) by (intros Hx; discriminate Hx).
  pose proof (Z.div_mod (v + 1 + 2 ^ 63) (2 ^ 64) Hnz) as D.
  set (q := (v + 1 + 2 ^ 63) / 2 ^ 64) in *.
  set (r := (v + 1 + 2 ^ 63) mod 2 ^ 64) in *.
  change (2 ^ 64) with 18446744073709551616 in *.
  change (2 ^ 63) with 9223372036854775808 in *.
  lia.
Qed.

Lemma shift_first4_changes t : t <> [] -> shift_first4 1 t <> t.
Proof.
  destruct t as [| v t]; [congruence |]. intros _. unfold shift_first4.
  cbn [take map app]. intros E. inversion E as [[E1 E2]].
  now apply wrap64_succ_neq in E1.
Qed.

(** C9, as far as the code goes: [write_file] does not leave the object
    as it was.  When it returns on an object with [isuboc > 0], the first
    row of [ids16] holds its first four entries plus one each, so the
    object differs from the one [write_file] was called on. *)
Theorem C9_write_file_shifts_ids16 (m : ModflowSub grid) (w : wstate grid) rows row :
  run_write m = (Ok tt, w) -> 0 < isuboc m ->
  ids16 m = Some rows -> rows !! 0%nat = Some row -> row <> [] ->
  exists rows', ids16 (self w) = Some rows'
    /\ rows' !! 0%nat = Some (shift_first4 1 row)
    /\ shift_first4 1 row <> row
    /\ self w <> m.
Proof.
  intros E Hi Hrows Hrow Hne. unfold run_write, write_file in E.
  eapply (bind_ok_keeps self) in E; [| solve [keeps_auto]].
  destruct E as (m0 & s0 & _ & E0 & E). inversion E0; subst m0 s0; clear E0.
  assert (Hb : (0 <? isuboc m) = true) by (apply Z.ltb_lt; assumption).
  rewrite Hb in E.
  repeat (eapply (bind_ok_keeps self) in E; [| solve [keeps_auto]];
          destruct E as (? & ? & ? & _ & E)).
  match type of E with _ ?s1 = _ =>
    assert (Hs : self s1 = m) by (cbn [self] in *; congruence); revert E;
    generalize dependent s1
  end.
  intros s1 _ Hs E.
  unfold range in E.
  destruct (Z.to_nat (isuboc m)) as [| n] eqn:En; [lia |].
  cbn [seq for_each] in E.
  apply bind_inv in E as [(e & _ & Hx) | ([] & s2 & E1 & E2)]; [discriminate |].
  apply write_dataset16_row_inv in E1. rewrite Hs, Hrows, Hrow in E1.
  destruct E1 as [_ E1].
  assert (Hk : keeps (row0 (grid:=grid)) (for_each (seq 1 n) write_dataset16_row)).
  { apply keeps_for_each_in. intros k Hk%in_seq.
    apply write_dataset16_row_keeps_row0. lia. }
  apply Hk in E2. unfold row0 in E2. rewrite E1 in E2. cbn [ids16 set_ids16] in E2.
  rewrite list_lookup_insert_eq in E2 by (eapply lookup_lt_Some; eassumption).
  destruct (ids16 (self w)) as [rows'|] eqn:Ew; [| discriminate].
  exists rows'. split; [reflexivity |]. split; [assumption |].
  split; [now apply shift_first4_changes |].
  intros Hm. rewrite Hm, Hrows in Ew. inversion Ew; subst rows'.
  rewrite Hrow in E2. inversion E2 as [E3]. symmetry in E3.
  now apply shift_first4_changes in E3.
Qed.

(** *** The written file, read back *)

Lemma space_app x : " " +:+ x = String " "%char x.
Proof. reflexivity. Qed.

(** The line of dataset 1 as [write_file] leaves it in the file has ten
    words: [nn] and [ac1] are one word. *)
Lemma dataset1_words (m : ModflowSub grid) :
  strip_split (dataset1_head m +:+ dataset1_tail m)
  = [str_int (isubcb m); str_int (isuboc m); str_int (nndb m); str_int (ndb m);
     str_int (nmz m); str_int (nn m) +:+ str_float (ac1 m); str_float (ac2 m);
     str_int (itmin m); str_int (idsave m); str_int (idrest m)].
Proof.
  unfold strip_split, dataset1_head, dataset1_tail, nl.
  rewrite !sapp_assoc, !space_app.
  do 5 (rewrite tokens_word_sep; [| apply str_int_word | reflexivity]).
  rewrite <- sapp_assoc.
  rewrite tokens_word_sep;
    [| apply is_word_app_l; [apply str_int_word | apply is_word_no_space, str_float_word]
     | reflexivity].
  rewrite tokens_word_sep; [| apply str_float_word | reflexivity].
  do 3 (rewrite tokens_word_sep; [| apply str_int_word | reflexivity]).
  reflexivity.
Qed.

(** It is one line, and not a comment. *)
Lemma dataset1_one_line (m : ModflowSub grid) :
  exists c body, dataset1_head m +:+ dataset1_tail m = String c body +:+ nl
    /\ c <> "#"%char /\ all_chars not_newline (String c body) = true.
Proof.
  pose proof (str_int_chars (isubcb m)) as Hc.
  pose proof (str_int_nonempty (isubcb m)) as Hn.
  assert (Hi : forall z, all_chars not_newline (str_int z) = true).
  { intros z. apply (all_chars_impl is_int_char); [| apply str_int_chars].
    intros c Hx. apply not_space_not_newline, int_char_not_space, Hx. }
  assert (Hf : forall x, all_chars not_newline (str_float x) = true).
  { intros x. apply (all_chars_impl is_float_char); [| apply str_float_chars].
    intros c Hx. apply not_space_not_newline, float_char_not_space, Hx. }
  assert (Hb : all_chars not_newline
                 (str_int (isubcb m) +:+ " " +:+ str_int (isuboc m) +:+ " "
                  +:+ str_int (nndb m) +:+ " " +:+ str_int (ndb m) +:+ " "
                  +:+ str_int (nmz m) +:+ " " +:+ str_int (nn m)
                  +:+ str_float (ac1 m) +:+ " " +:+ str_float (ac2 m) +:+ " "
                  +:+ str_int (itmin m) +:+ " " +:+ str_int (idsave m) +:+ " "
                  +:+ str_int (idrest m)) = true).
  { rewrite !all_chars_app, !Hi, !Hf. reflexivity. }
  assert (He : dataset1_head m +:+ dataset1_tail m
               = (str_int (isubcb m) +:+ " " +:+ str_int (isuboc m) +:+ " "
                  +:+ str_int (nndb m) +:+ " " +:+ str_int (ndb m) +:+ " "
                  +:+ str_int (nmz m) +:+ " " +:+ str_int (nn m)
                  +:+ str_float (ac1 m) +:+ " " +:+ str_float (ac2 m) +:+ " "
                  +:+ str_int (itmin m) +:+ " " +:+ str_int (idsave m) +:+ " "
                  +:+ str_int (idrest m)) +:+ nl).
  { unfold dataset1_head, dataset1_tail. now rewrite !sapp_assoc. }
  rewrite He. revert Hb.
  destruct (str_int (isubcb m)) as [| c t]; [congruence |].
  rewrite sapp_cons. intros Hb. exists c. eexists. split; [reflexivity |].
  split; [| exact Hb].
  cbn [all_chars] in Hc. apply andb_true_iff in Hc as [Hc _].
  now apply int_char_not_hash.
Qed.

(** Dataset 1 cannot be read from a line of ten words. *)
Lemma load_dataset1_ten_words line s :
  length (strip_split line) = 10%nat ->
  exists e, load_dataset1 line s = (Raise e, s).
Proof.
  intros Hl. unfold load_dataset1, int_at, float_at.
  repeat (rewrite bind_lift;
          match goal with
          | |- context [match ?x with Ok _ => _ | Raise _ => _ end] =>
              destruct x eqn:?; [| eauto]
          end).
  unfold index in *. rewrite lookup_ge_None_2 in * by lia. discriminate.
Qed.

Lemma grows_ret {A} (a : A) : grows (grid:=grid) (ret a).
Proof. intros s r s' E. inversion E. exists []. now rewrite app_nil_r. Qed.

Lemma grows_lift {A} (x : result A) : grows (grid:=grid) (lift x).
Proof. intros s r s' E. inversion E. exists []. now rewrite app_nil_r. Qed.

Lemma grows_gets {A} (g : wstate grid -> A) : grows (grid:=grid) (gets g).
Proof. intros s r s' E. inversion E. exists []. now rewrite app_nil_r. Qed.

Lemma grows_bind {A B} (c : M (wstate grid) A) (k : A -> M (wstate grid) B) :
  grows c -> (forall a, grows (k a)) -> grows (bind c k).
Proof.
  intros Hc Hk s r s' E. apply bind_inv in E as [(e & E & _) | (a & s1 & E1 & E2)].
  - eauto.
  - destruct (Hc _ _ _ E1) as [l1 H1]. destruct (Hk _ _ _ _ E2) as [l2 H2].
    exists (l1 ++ l2). rewrite H2, H1. now rewrite <- List.app_assoc.
Qed.

Lemma grows_for_each {A} (l : list A) (body : A -> M (wstate grid) unit) :
  (forall x, grows (body x)) -> grows (for_each l body).
Proof.
  intros Hb. induction l as [| x l IH]; cbn [for_each].
  - apply grows_ret.
  - apply grows_bind; auto.
Qed.

Lemma grows_f_write t : grows (grid:=grid) (f_write t).
Proof. intros s r s' E. inversion E. cbn. eauto. Qed.

Lemma grows_f_write_entry fld k (g : grid) : grows (grid:=grid) (f_write_entry fld k g).
Proof. intros s r s' E. inversion E. cbn. eauto. Qed.

Lemma grows_set_ids16 (g : wstate grid -> ModflowSub grid) :
  grows (modify (fun w => {| out := out w; self := g w |})).
Proof. intros s r s' E. inversion E. cbn. exists []. now rewrite app_nil_r. Qed.

Ltac grows_step :=
  first
    [ apply grows_ret | apply grows_lift | apply grows_gets
    | apply grows_f_write | apply grows_f_write_entry | apply grows_set_ids16
    | apply grows_bind; [| intros ?]
    | apply grows_for_each; intros ?
    | match goal with
      | |- grows (if ?b then _ else _) => destruct b
      | |- grows (match ?x with _ => _ end) => destruct x
      end ].

(** The file starts with the heading and the two writes of dataset 1. *)
Lemma write_file_starts (m : ModflowSub grid) r w :
  run_write m = (r, w) ->
  exists l, out w = [Text (heading m +:+ nl); Text (dataset1_head m);
                     Text (dataset1_tail m)] ++ l.
Proof.
  unfold run_write, write_file, write_dataset1.
  unfold bind at 1. cbn [gets self].
  unfold bind at 1. cbn [f_write modify out self].
  unfold bind at 1. unfold bind at 1. cbn [f_write modify out self].
  revert r w.
  match goal with
  | |- forall r w, ?c ?s = (r, w) -> _ =>
      assert (Hg : grows (grid:=grid) c); [| intros r w E; exact (Hg _ _ _ E)]
  end.
  unfold write_layers, write_grid, write_dataset16_row.
  repeat grows_step.
Qed.

(** C1, as far as the code goes: no file that [write_file] wrote can be
    loaded again, so there is no second write to compare with the first.
    Whatever the object, the line of dataset 1 in the file has ten words
    where [load] reads eleven, and [load] raises on it, before any array is
    read and without registering a package. *)
Theorem C1_written_file_does_not_load (m : ModflowSub grid) (w : wstate grid) h d :
  is_comment (heading m) = true ->
  run_write m = (Ok tt, w) ->
  exists e s', run_load (file_text (out w)) h d = (Raise e, s')
    /\ reads s' = [] /\ hst s' = h.
Proof.
  intros Hh E. destruct (write_file_starts _ _ _ E) as [l Hout].
  destruct (dataset1_one_line m) as (c & body & He & Hc & Hb).
  assert (Ht : file_text (out w)
               = heading m +:+ nl +:+ String c body +:+ nl +:+ file_text l).
  { rewrite Hout. cbn [app file_text foldr chunk_text].
    rewrite (sapp_assoc (heading m)). f_equal. f_equal.
    rewrite <- (sapp_assoc (dataset1_head m)), He. now rewrite sapp_assoc. }
  unfold run_load.
  set (s0 := {| rest := file_text (out w); hst := h; eud := d; reads := [] |}).
  set (s2 := set_rest (file_text l) (set_rest (String c body +:+ nl +:+ file_text l) s0)).
  assert (Hl : header_line s0 = (Ok (String c body +:+ nl), s2)).
  { unfold header_line.
    rewrite (header_loop_comment _ (heading m) (String c body +:+ nl +:+ file_text l) s0 Hh Ht).
    assert (Hn : exists n, String.length (rest s0) = S n).
    { cbn [rest s0]. rewrite Ht. destruct (heading m); [discriminate |].
      rewrite sapp_cons. cbn. eauto. }
    destruct Hn as [n ->].
    apply header_loop_data; [exact Hc | exact Hb | reflexivity]. }
  destruct (load_dataset1_ten_words (String c body +:+ nl) s2) as [e Hd].
  { rewrite <- He, dataset1_words. reflexivity. }
  exists e, s2. split; [| split; reflexivity].
  unfold load. rewrite (bind_ok _ _ _ _ _ Hl). now rewrite (bind_raise _ _ _ _ _ Hd).
Qed.

(** *** Layer indices: minus one on load, plus one on write *)

Lemma wrap64_id v : in_int64 v = true -> wrap64 v = v.
Proof.
  unfold in_int64, wrap64. intros [H1 H2]%andb_true_iff.
  apply Z.leb_le in H1. apply Z.ltb_lt in H2.
  change (2 ^ 64) with 18446744073709551616 in *.
  change (2 ^ 63) with 9223372036854775808 in *.
  rewrite Z.mod_small; lia.
Qed.

Lemma wrap64_plus a b : wrap64 (wrap64 a + b) = wrap64 (a + b).
Proof.
  unfold wrap64. f_equal.
  replace ((a + 2 ^ 63) mod 2 ^ 64 - 2 ^ 63 + b + 2 ^ 63)
    with ((a + 2 ^ 63) mod 2 ^ 64 + b) by lia.
  rewrite Zplus_mod_idemp_l. f_equal. lia.
Qed.

Lemma wrap64_pred_succ v : in_int64 v = true -> wrap64 (wrap64 (v - 1) + 1) = v.
Proof.
  intros Hv. rewrite wrap64_plus. replace (v - 1 + 1) with v by lia.
  now apply wrap64_id.
Qed.

Lemma wrap64_pred v : in_int64 v = true -> - 2 ^ 63 < v -> wrap64 (v - 1) = v - 1.
Proof.
  intros Hv Hm. apply wrap64_id. unfold in_int64 in *.
  apply andb_true_iff in Hv as [H1 H2]. apply Z.leb_le in H1. apply Z.ltb_lt in H2.
  apply andb_true_iff. split; [apply Z.leb_le | apply Z.ltb_lt]; lia.
Qed.

(** The integers [read1d] returns are the first [n] words of the line,
    each a 64-bit integer. *)
Lemma read_words_inv (ws : list string) : forall (s : lstate) vs s',
  collect ws (fun w => v <- lift (int w) ;;
                       if in_int64 v then ret v else raise OverflowError) s
  = (Ok vs, s') ->
  s' = s /\ map int ws = map Ok vs /\ Forall (fun v => in_int64 v = true) vs.
Proof.
  induction ws as [| w ws IH]; intros s vs s' E; cbn [collect] in E.
  - inversion E. auto.
  - apply bind_inv in E as [(e & _ & Hx) | (v & s1 & E1 & E2)]; [discriminate |].
    rewrite bind_lift in E1. destruct (int w) as [v0|] eqn:Ew; [| discriminate].
    destruct (in_int64 v0) eqn:Hv; [| discriminate]. inversion E1; subst v0 s1.
    apply bind_inv in E2 as [(e & _ & Hx) | (vs0 & s1 & E3 & E4)]; [discriminate |].
    apply IH in E3 as (-> & Hm & Hf). inversion E4; subst.
    cbn [map]. rewrite Hm, Ew.
    split; [reflexivity |]. split; [reflexivity | now constructor].
Qed.

Lemma read1d_inv n (s : lstate) vs s' :
  read1d n s = (Ok vs, s') ->
  s' = set_rest (readline (rest s)).2 s
  /\ map int (take n (strip_split (readline (rest s)).1)) = map Ok vs
  /\ length vs = n
  /\ Forall (fun v => in_int64 v = true) vs.
Proof.
  unfold read1d, bind at 1, f_readline.
  destruct (readline (rest s)) as [line r]. cbn [fst snd]. fold (set_rest r s).
  case_bool_decide as Hl; [discriminate |].
  intros E. apply read_words_inv in E as (-> & Hm & Hf).
  repeat split; try assumption.
  apply (f_equal length) in Hm. rewrite !length_map, length_take in Hm. lia.
Qed.

(** A loop of writes appends their texts. *)
Lemma for_each_f_write {A} (g : A -> string) (l : list A) : forall w : wstate grid,
  for_each l (fun x => f_write (g x)) w
  = (Ok tt, {| out := out w ++ map (fun x => Text (g x)) l; self := self w |}).
Proof.
  induction l as [| x l IH]; intros w; cbn [for_each map].
  - rewrite app_nil_r. now destruct w.
  - unfold bind, f_write at 1, modify. rewrite IH. cbn [out self].
    now rewrite <- List.app_assoc.
Qed.

(** The words of a line of integers, each followed by a space. *)
Lemma index_line_words (vs : list Z) :
  strip_split (file_text (map (fun v => Text (str_int v +:+ " ")) vs ++ [Text nl]))
  = map str_int vs.
Proof.
  unfold strip_split. induction vs as [| v vs IH]; [reflexivity |].
  cbn [map app].
  change (file_text (?c :: ?l)) with (chunk_text c +:+ file_text l).
  cbn [chunk_text]. rewrite sapp_assoc, space_app.
  rewrite tokens_word_sep; [| apply str_int_word | reflexivity].
  now rewrite IH.
Qed.

(** The object that [load] returns holds, as [ln] and [ldn], what
    datasets 2 and 3 were read to. *)
Lemma init_stores_layers (a : args grid) h m h' (l0 l1 : option (list Z)) :
  init a h = (Ok m, h') ->
  a_ln a = as_arg1 l0 -> a_ldn a = as_arg1 l1 ->
  ((0 <? a_nndb a) = false -> l0 = None) ->
  ((0 <? a_ndb a) = false -> l1 = None) ->
  ln m = l0 /\ ldn m = l1.
Proof.
  intros E Hl0 Hl1 H0 H1. apply init_inv in E.
  destruct E as (nd & dl & i & o15 & o16 & En & Ed & _ & _ & _ & _ & -> & -> & _).
  unfold init_nodelay in En. unfold init_delay in Ed. rewrite Hl0 in En. rewrite Hl1 in Ed.
  split.
  - destruct (0 <? a_nndb a); [| injection En as <-; cbn; symmetry; auto].
    destruct l0 as [l|]; [| discriminate]. cbn [as_arg1 util_1d] in En.
    case_bool_decide; [| discriminate].
    repeat match type of En with
           | context [match ?x with Ok _ => _ | Raise _ => _ end] =>
               destruct x; [| discriminate]
           end.
    injection En as <-. reflexivity.
  - destruct (0 <? a_ndb a); [| injection Ed as <-; cbn; symmetry; auto].
    destruct l1 as [l|]; [| discriminate]. cbn [as_arg1 util_1d] in Ed.
    case_bool_decide; [| discriminate].
    repeat match type of Ed with
           | context [match ?x with Ok _ => _ | Raise _ => _ end] =>
               destruct x; [| discriminate]
           end.
    injection Ed as <-. reflexivity.
Qed.

Lemma load_layers_none n (s : lstate) o s' :
  load_layers n s = (Ok o, s') -> (0 <? n) = false -> o = None.
Proof. unfold load_layers. intros E Hn. rewrite Hn in E. now inversion E. Qed.

Lemma load_stores_layers (s : lstate) m s' :
  load s = (Ok m, s') ->
  exists line s1 d s2 s3 s4,
    header_line s = (Ok line, s1)
    /\ load_dataset1 line s1 = (Ok d, s2)
    /\ load_layers (d_nndb d) s2 = (Ok (ln m), s3)
    /\ load_layers (d_ndb d) s3 = (Ok (ldn m), s4).
Proof.
  intros E. unfold load in E.
  apply bind_inv in E as [(e & _ & Hx) | (line & s1 & E1 & E)]; [discriminate |].
  apply bind_inv in E as [(e & _ & Hx) | (d & s2 & E2 & E)]; [discriminate |].
  cbv zeta in E.
  apply bind_inv in E as [(e & _ & Hx) | (l0 & s3 & E3 & E)]; [discriminate |].
  apply bind_inv in E as [(e & _ & Hx) | (l1 & s4 & E4 & E)]; [discriminate |].
  repeat (apply bind_inv in E as [(e & _ & Hx) | (? & ? & _ & E)]; [discriminate |];
          repeat match goal with x : (_ * _)%type |- _ => destruct x end).
  unfold on_host in E. destruct (init _ _) as [r0 h0] eqn:Ei.
  inversion E; subst r0. clear E.
  eapply (init_stores_layers _ _ _ _ l0 l1) in Ei;
    [| reflexivity | reflexivity
     | cbn; intros Hn; eapply load_layers_none; eassumption
     | cbn; intros Hn; eapply load_layers_none; eassumption].
  destruct Ei as [<- <-]. eauto 10.
Qed.

(** What datasets 2 and 3 are read to when the count is positive. *)
Lemma load_layers_some n (s : lstate) o s' :
  load_layers n s = (Ok o, s') -> 0 < n ->
  exists vs, next_ints n s vs /\ o = Some (zero_based vs).
Proof.
  unfold load_layers. intros E Hn. apply Z.ltb_lt in Hn. rewrite Hn in E.
  apply bind_inv in E as [(e & _ & Hx) | (vs & s1 & E1 & E2)]; [discriminate |].
  inversion E2; subst. clear E2.
  apply read1d_inv in E1 as (_ & Hm & Hl & Hf).
  exists vs. split; [| reflexivity]. repeat split; assumption.
Qed.

(** Writing the vector held for the indices [vs] gives [vs] back. *)
Lemma write_layers_zero_based (vs : list Z) (w : wstate grid) :
  Forall (fun v => in_int64 v = true) vs ->
  write_layers (Some (zero_based vs)) w
  = (Ok tt, {| out := out w ++ layer_line vs; self := self w |}).
Proof.
  intros Hf. unfold write_layers, zero_based, layer_line. cbn [attr]. rewrite bind_lift.
  unfold bind. rewrite for_each_f_write. unfold f_write, modify. cbn [out self].
  rewrite map_map, <- List.app_assoc. do 4 f_equal.
  apply map_ext_in. intros v Hv. rewrite wrap64_pred_succ; [reflexivity |].
  rewrite Forall_forall in Hf. apply Hf. now apply list_elem_of_In.
Qed.

Lemma zero_based_exact (vs : list Z) i v :
  Forall (fun v => in_int64 v = true) vs ->
  vs !! i = Some v -> - 2 ^ 63 < v -> zero_based vs !! i = Some (v - 1).
Proof.
  intros Hf Hi Hv. unfold zero_based. rewrite list_lookup_fmap, Hi. cbn. f_equal.
  apply wrap64_pred; [| assumption].
  rewrite Forall_forall in Hf. apply Hf. eapply list_elem_of_lookup_2; eassumption.
Qed.

(** [write_file] up to the layer indices. *)
Lemma run_write_layers (m : ModflowSub grid) r w :
  run_write m = (r, w) ->
  exists c : M (wstate grid) unit,
    grows c
    /\ (write_layers (ln m) ;; write_layers (ldn m) ;; c)
         {| out := sub_file_start m; self := m |} = (r, w).
Proof.
  unfold run_write, write_file, write_dataset1, sub_file_start.
  unfold bind at 1. cbn [gets self].
  unfold bind at 1. cbn [f_write modify out self].
  unfold bind at 1. unfold bind at 1. cbn [f_write modify out self].
  intros E. eexists. split; [| exact E].
  unfold write_grid, write_dataset16_row. repeat grows_step.
Qed.

(** C6, as far as the code goes: [load] holds every layer index read
    from the file minus one (exactly so for every index above the least
    64-bit integer), and when the file has both no-delay and delay systems
    [write_file] on the loaded object writes, after the heading and dataset
    1, the two lines of indices with each held value plus one: their words
    are the integers that were read.  But [write_file] takes
    [self.ln.array] and [self.ldn.array] whatever the counts are: for a file
    with delay systems only it raises [AttributeError] before the line of
    [ldn], so the indices that were read are never written, and for a file
    with no-delay systems only it raises right after the line of [ln]. *)
Theorem C6_loaded_layer_indices_written_back (s : lstate) m s' r (w : wstate grid) :
  load s = (Ok m, s') -> run_write m = (r, w) ->
  exists line s1 d s2 s3 s4,
    header_line s = (Ok line, s1)
    /\ load_dataset1 line s1 = (Ok d, s2)
    /\ load_layers (d_nndb d) s2 = (Ok (ln m), s3)
    /\ load_layers (d_ndb d) s3 = (Ok (ldn m), s4)
    /\ (0 < d_nndb d -> 0 < d_ndb d ->
        exists vs vs' tail,
          next_ints (d_nndb d) s2 vs /\ next_ints (d_ndb d) s3 vs'
          /\ ln m = Some (zero_based vs) /\ ldn m = Some (zero_based vs')
          /\ (forall i v, vs !! i = Some v -> - 2 ^ 63 < v ->
                          zero_based vs !! i = Some (v - 1))
          /\ (forall i v, vs' !! i = Some v -> - 2 ^ 63 < v ->
                          zero_based vs' !! i = Some (v - 1))
          /\ out w = sub_file_start m ++ layer_line vs ++ layer_line vs' ++ tail
          /\ strip_split (file_text (layer_line vs)) = map str_int vs
          /\ strip_split (file_text (layer_line vs')) = map str_int vs')
    /\ (d_nndb d <= 0 -> 0 < d_ndb d ->
        exists vs',
          next_ints (d_ndb d) s3 vs' /\ vs' <> []
          /\ ldn m = Some (zero_based vs')
          /\ r = Raise AttributeError /\ out w = sub_file_start m)
    /\ (0 < d_nndb d -> d_ndb d <= 0 ->
        exists vs,
          next_ints (d_nndb d) s2 vs
          /\ ln m = Some (zero_based vs)
          /\ r = Raise AttributeError
          /\ out w = sub_file_start m ++ layer_line vs).
Proof.
  intros E Ew.
  destruct (load_stores_layers _ _ _ E) as (line & s1 & d & s2 & s3 & s4 & E1 & E2 & E3 & E4).
  exists line, s1, d, s2, s3, s4. do 4 (split; [assumption |]).
  split; [| split].
  - intros Hn Hd.
    destruct (load_layers_some _ _ _ _ E3 Hn) as (vs & Hvs & Hln).
    destruct (load_layers_some _ _ _ _ E4 Hd) as (vs' & Hvs' & Hldn).
    pose proof Hvs as (_ & _ & Hf). pose proof Hvs' as (_ & _ & Hf').
    destruct (run_write_layers _ _ _ Ew) as (c & Hc & Ec).
    rewrite Hln, Hldn in Ec.
    rewrite (bind_ok _ _ _ _ _ (write_layers_zero_based vs _ Hf)) in Ec.
    rewrite (bind_ok _ _ _ _ _ (write_layers_zero_based vs' _ Hf')) in Ec.
    destruct (Hc _ _ _ Ec) as [tail Ht]. cbn [out] in Ht.
    exists vs, vs', tail. do 4 (split; [assumption |]).
    split; [intros i v; now apply zero_based_exact |].
    split; [intros i v; now apply zero_based_exact |].
    split; [now rewrite Ht, <- !List.app_assoc |].
    split; apply index_line_words.
  - intros Hn Hd.
    destruct (load_layers_some _ _ _ _ E4 Hd) as (vs' & Hvs' & Hldn).
    assert (Hln : ln m = None)
      by (eapply load_layers_none; [exact E3 | apply Z.ltb_ge; lia]).
    exists vs'. split; [assumption |]. split.
    { destruct Hvs' as (_ & Hl & _). intros ->. cbn in Hl. lia. }
    split; [assumption |].
    rewrite (write_without_ln m Hln) in Ew. inversion Ew. split; reflexivity.
  - intros Hn Hd.
    destruct (load_layers_some _ _ _ _ E3 Hn) as (vs & Hvs & Hln).
    pose proof Hvs as (_ & _ & Hf).
    assert (Hldn : ldn m = None)
      by (eapply load_layers_none; [exact E4 | apply Z.ltb_ge; lia]).
    destruct (run_write_layers _ _ _ Ew) as (c & _ & Ec).
    rewrite Hln, Hldn in Ec.
    rewrite (bind_ok _ _ _ _ _ (write_layers_zero_based vs _ Hf)) in Ec.
    unfold write_layers at 1 in Ec. cbn [attr] in Ec.
    unfold bind at 1 in Ec. rewrite bind_lift in Ec. inversion Ec; subst.
    exists vs. split; [assumption |]. split; [assumption |]. split; reflexivity.
Qed.

End WithGrid.
End SubFacts.

(** ** mfupw.py *)

Module UpwFacts.
Import Upw.

Section WithGrid.
Context `{Externals grid}.

(** *** [write_file]: which arrays are in the file *)

Lemma has_app fld j (o1 o2 : list (chunk grid)) :
  has fld j (o1 ++ o2) = has fld j o1 || has fld j o2.
Proof. apply existsb_app. Qed.

Lemma has_entry fld j f k (g : grid) :
  has fld j [Entry f k g] = bool_decide (f = fld) && bool_decide (k = j).
Proof. unfold has. cbn. now rewrite orb_false_r. Qed.

Lemma write_grid_ok fld (a : list grid) k g o :
  a !! k = Some g -> write_grid fld a k o = (Ok tt, o ++ [Entry fld k g]).
Proof. intros Ha. unfold write_grid, index. rewrite Ha. reflexivity. Qed.

Lemma write_layer_ok h d (m : ModflowUpw grid) tr k o :
  dis h = Some d -> layer_ok d m k ->
  exists o', write_layer h m tr k o = (Ok tt, o')
    /\ (forall j, has "ss" j o' = has "ss" j o || (bool_decide (k = j) && tr))
    /\ (forall j, has "sy" j o'
                  = has "sy" j o || (bool_decide (k = j) && tr && convertible m k)).
Proof.
  intros Hd (Hhk & Hhani & Hvka & Hss & Hsy & Hvkcb & Hchani & Hcbd & Hw).
  destruct Hhk as [g1 Hhk], Hhani as [g2 Hhani], Hvka as [g3 Hvka],
    Hss as [g4 Hss], Hsy as [g5 Hsy], Hvkcb as [g6 Hvkcb],
    Hchani as [c Hchani], Hcbd as [cb Hcbd], Hw as (lt & lw & Hlt & Hlw & Hz).
  unfold write_layer, convertible. rewrite Hlt.
  unfold bind, write_grid, lift, laycbd_at, index, modify, ret, raise.
  rewrite Hhk, Hchani, Hhani, Hvka, Hss, Hsy, Hvkcb, Hlt, Hlw, Hd.
  cbv beta iota. rewrite Hcbd.
  assert (Hz' : (lw =? 0) = true \/ (lt =? 0) = true)
    by (destruct Hz; [left | right]; now apply Z.eqb_eq).
  destruct (c <? 1), tr, (lt =? 0), (0 <? cb), (lw =? 0);
    try (destruct Hz'; discriminate);
    cbn [negb]; (eexists; split; [reflexivity |]);
    split; intros j; rewrite ?has_app, ?has_entry;
    destruct (has _ j o), (bool_decide (k = j)); reflexivity.
Qed.

Lemma write_layers_ok h d (m : ModflowUpw grid) tr : dis h = Some d ->
  forall n a o,
    (forall k, (a <= k < a + n)%nat -> layer_ok d m k) ->
    exists o', for_each (seq a n) (write_layer h m tr) o = (Ok tt, o')
      /\ (forall j, has "ss" j o'
                    = has "ss" j o || (bool_decide (a <= j < a + n)%nat && tr))
      /\ (forall j, has "sy" j o'
                    = has "sy" j o
                      || (bool_decide (a <= j < a + n)%nat && tr && convertible m j)).
Proof.
  intros Hd. induction n as [| n IH]; intros a o Hok; cbn [seq for_each].
  - exists o. split; [reflexivity |].
    split; intros j; rewrite bool_decide_eq_false_2 by lia; cbn;
      now rewrite orb_false_r.
  - destruct (write_layer_ok h d m tr a o Hd) as (o1 & E1 & Hss1 & Hsy1);
      [apply Hok; lia |].
    destruct (IH (S a) o1) as (o' & E2 & Hss2 & Hsy2);
      [intros k Hk; apply Hok; lia |].
    exists o'. split; [now rewrite (bind_ok _ _ _ _ _ E1) |].
    split; intros j.
    + rewrite Hss2, Hss1. destruct (has "ss" j o), tr;
        repeat case_bool_decide; try reflexivity; lia.
    + rewrite Hsy2, Hsy1. destruct (has "sy" j o), tr;
        repeat case_bool_decide; subst; cbn;
        try reflexivity; try lia; destruct (convertible m j); reflexivity.
Qed.

(** C4: on an object that [write_file] can write (no wetting, a DIS
    package, an entry per layer in every per-layer attribute), the file
    holds the [ss] array of layer [k] exactly when the simulation is
    transient (the steady flags of DIS are not all set), and the [sy] array
    of layer [k] exactly when it is transient and [laytyp[k] != 0]; in a
    steady-state simulation neither is written, though the object holds
    both for every layer. *)
Theorem C4_storage_arrays_iff_transient (h : host) (m : ModflowUpw grid) :
  writable h m ->
  exists d out,
    dis h = Some d
    /\ run_write h m = (Ok tt, out)
    /\ forall k,
         has "ss" k out
         = bool_decide (k < nlay h)%nat && negb (forallb (fun b => b) (steady d))
         /\ has "sy" k out
            = bool_decide (k < nlay h)%nat && negb (forallb (fun b => b) (steady d))
              && convertible m k.
Proof.
  intros (Hw & d & Hd & Hok).
  destruct (write_layers_ok h d m (negb (forallb (fun b => b) (steady d))) Hd
              (nlay h) 0%nat
              ([Text (heading m +:+ nl);
                Text (fmt_10d (iupwcb m) +:+ fmt_10_3G (hdry m) +:+ fmt_10d (npupw m)
                      +:+ fmt_10d (iphdry m) +:+ options m +:+ nl);
                Text (u2d_string (laytyp m)); Text (u2d_string (layavg m));
                Text (u2d_string (chani m)); Text (u2d_string (layvka m));
                Text (u2d_string (laywet m))]))
    as (out & E & Hss & Hsy); [intros k Hk; apply Hok; lia |].
  exists d, out. split; [exact Hd |]. split.
  - unfold run_write, write_file, transient_of.
    assert (Hb : (0 <? np_sum (laywet m)) = false) by (apply Z.ltb_ge; exact Hw).
    rewrite Hb, Hd. exact E.
  - intros k. rewrite Hss, Hsy. cbn [has existsb is_entry_of orb].
    split; f_equal; f_equal; apply bool_decide_ext; lia.
Qed.

(** *** [load]: the checks made before the arrays *)

Lemma int_line_keeps_reads n : keeps reads (int_line n).
Proof. unfold int_line. keeps_auto. Qed.

Lemma float_line_keeps_reads n : keeps reads (float_line n).
Proof. unfold float_line. keeps_auto. Qed.

#[local] Hint Resolve int_line_keeps_reads float_line_keeps_reads : keeps.

Lemma load_item1_keeps_reads : keeps reads load_item1.
Proof. unfold load_item1. keeps_auto. Qed.

Lemma load_flags_keeps_reads n : keeps reads (load_flags n).
Proof. unfold load_flags. keeps_auto. Qed.

(** [load] is item 1, the five flag lines, and the rest. *)
Lemma load_after_flags (s : lstate) i s1 fl s2 :
  load_item1 s = (Ok i, s1) ->
  load_flags (nlay (hst s1)) s1 = (Ok fl, s2) ->
  load s = load_arrays (nlay (hst s1)) i fl s2.
Proof.
  intros E1 E2. unfold load. rewrite (bind_ok _ _ _ _ _ E1).
  unfold bind at 1. cbn [gets]. now rewrite (bind_ok _ _ _ _ _ E2).
Qed.

(** C7: the error for a wetting configuration ([laywet] summing to a
    positive value) comes before any grid array.  [write_file] raises it
    having written only text (the heading, item 1 and the five flag
    vectors) and no array; [load] raises it right after the five lines of
    per-layer flags, with the rest of the file unread and no array asked
    from the array codec. *)
Theorem C7_laywet_error_before_arrays :
  (forall (h : host) (m : ModflowUpw grid),
     0 < np_sum (laywet m) ->
     exists out, run_write h m = (Raise LaywetError, out)
       /\ length out = 7%nat
       /\ forallb (fun c => negb (is_entry c)) out = true)
  /\ (forall (s : lstate) i s1 fl s2,
        load_item1 s = (Ok i, s1) ->
        load_flags (nlay (hst s1)) s1 = (Ok fl, s2) ->
        0 < np_sum (f_laywet fl) ->
        load s = (Raise LaywetError, s2) /\ reads s2 = reads s).
Proof.
  split.
  - intros h m Hw. apply Z.ltb_lt in Hw.
    unfold run_write, write_file. rewrite Hw.
    eexists. split; [reflexivity |]. split; reflexivity.
  - intros s i s1 fl s2 E1 E2 Hw. apply Z.ltb_lt in Hw. split.
    + rewrite (load_after_flags _ _ _ _ _ E1 E2).
      unfold load_arrays. now rewrite Hw.
    + rewrite (load_flags_keeps_reads _ _ _ _ E2).
      exact (load_item1_keeps_reads _ _ _ E1).
Qed.

(** C10: a file whose item 1 gives [npupw > 0] never loads.  If the flag
    lines are read and pass the wetting check, [load] reaches the call
    that loads the parameters and raises [NameError] there, whatever
    follows in the file; otherwise it has raised before.  So a load that
    returns has read [npupw <= 0]. *)
Theorem C10_positive_npupw_never_loads (s : lstate) :
  (forall i s1,
     load_item1 s = (Ok i, s1) -> 0 < i_npupw i ->
     (exists e s', load s = (Raise e, s'))
     /\ (forall fl s2,
           load_flags (nlay (hst s1)) s1 = (Ok fl, s2) ->
           np_sum (f_laywet fl) <= 0 ->
           load s = (Raise NameError, s2)))
  /\ (forall m s',
        load s = (Ok m, s') ->
        exists i s1, load_item1 s = (Ok i, s1) /\ i_npupw i <= 0).
Proof.
  assert (Hfail : forall i s1 fl s2,
            load_item1 s = (Ok i, s1) -> 0 < i_npupw i ->
            load_flags (nlay (hst s1)) s1 = (Ok fl, s2) ->
            load s = (Raise (if 0 <? np_sum (f_laywet fl)
                             then LaywetError else NameError), s2)).
  { intros i s1 fl s2 E1 Hn E2. apply Z.ltb_lt in Hn.
    rewrite (load_after_flags _ _ _ _ _ E1 E2). unfold load_arrays.
    destruct (0 <? np_sum (f_laywet fl)); [reflexivity |].
    unfold bind at 1. cbn [ret]. now rewrite Hn. }
  assert (Hraise : forall i s1,
            load_item1 s = (Ok i, s1) -> 0 < i_npupw i ->
            exists e s', load s = (Raise e, s')).
  { intros i s1 E1 Hn.
    destruct (load_flags (nlay (hst s1)) s1) as [[fl | e] s2] eqn:E2.
    - rewrite (Hfail _ _ _ _ E1 Hn E2). eauto.
    - exists e, s2. unfold load. rewrite (bind_ok _ _ _ _ _ E1).
      unfold bind at 1. cbn [gets]. now rewrite (bind_raise _ _ _ _ _ E2). }
  split.
  - intros i s1 E1 Hn. split; [eauto |].
    intros fl s2 E2 Hw. rewrite (Hfail _ _ _ _ E1 Hn E2).
    assert (Hb : (0 <? np_sum (f_laywet fl)) = false) by (apply Z.ltb_ge; exact Hw).
    now rewrite Hb.
  - intros m s' E.
    destruct (load_item1 s) as [[i | e] s1] eqn:E1.
    + exists i, s1. split; [reflexivity |].
      destruct (Z_lt_le_dec 0 (i_npupw i)) as [Hn | Hn]; [| exact Hn].
      destruct (Hraise i s1 eq_refl Hn) as (e & s2 & E'). congruence.
    + unfold load in E. rewrite (bind_raise _ _ _ _ _ E1) in E. discriminate.
Qed.

End WithGrid.
End UpwFacts.

(** ** The definitions at work on concrete inputs *)

Module Runs.
Import ConstCodec.

Example strip_split_ex :
  strip_split ("  12 -3" +:+ String (ascii_of_nat 9) "x  " +:+ nl) = ["12"; "-3"; "x"].
Proof. reflexivity. Qed.

Example int_ex :
  int "-12" = Ok (-12) /\ int "+7" = Ok 7 /\ int "007" = Ok 7
  /\ int "200.0" = Raise ValueError /\ int "" = Raise ValueError
  /\ int "-" = Raise ValueError.
Proof. repeat split; reflexivity. Qed.

Example str_int_ex :
  str_int (-120) = "-120" /\ str_int 0 = "0" /\ str_int 2051 = "2051".
Proof. repeat split; reflexivity. Qed.

Example readline_ex : readline ("ab" +:+ nl +:+ "cd") = ("ab" +:+ nl, "cd").
Proof. reflexivity. Qed.

Example float_ex :
  float "0.0" = Ok (Fin false 0 0) /\ float "0.2" = Ok (Fin false 2 (-1))
  /\ float "1.e-6" = Ok (Fin false 1 (-6)) /\ float "-12.50E+3" = Ok (Fin true 125 2)
  /\ float ".5" = Ok (Fin false 5 (-1)) /\ float "." = Raise ValueError
  /\ float "1e" = Raise ValueError /\ float "200.0" = Ok (Fin false 2 2)
  /\ float "INF" = Ok (Inf false) /\ float "5" = Ok (Fin false 5 0).
Proof. repeat split; reflexivity. Qed.

Example str_float_ex :
  str_float (Fin false 0 0) = "0.0" /\ str_float (Fin false 2 (-1)) = "0.2"
  /\ str_float (Fin false 1 (-5)) = "1e-05" /\ str_float (Fin false 1 (-4)) = "0.0001"
  /\ str_float (Fin false 1 5) = "100000.0" /\ str_float (Fin true 125 2) = "-12500.0"
  /\ str_float (Fin false 1 16) = "1e+16" /\ str_float (Fin false 15 15) = "1.5e+16"
  /\ str_float (Fin false 1 15) = "1000000000000000.0"
  /\ str_float (Fin false 12345 (-2)) = "123.45" /\ str_float (Fin false 6 (-6)) = "6e-06".
Proof. repeat split; reflexivity. Qed.

(** The constructor builds the sample objects. *)
Example sub_object_built :
  Sub.init (sub_args 0 1) (host1 3 true) = (Ok (sub_object 0), (Sub.init (sub_args 0 1) (host1 3 true)).2)
  /\ Sub.init (sub_args 1 1) (host1 3 true) = (Ok (sub_object 1), (Sub.init (sub_args 1 1) (host1 3 true)).2).
Proof. split; vm_compute; reflexivity. Qed.

(** With the defaults of the signature, [dp] is a flat list of three
    numbers, and [write_file] raises at [self.dp[k, 0]]. *)
Example default_object_is_not_written :
  exists m h', Sub.init Sub.defaults (host1 3 true) = (Ok m, h')
    /\ (Sub.run_write m).1 = Raise IndexError.
Proof.
  eexists. eexists. split; [vm_compute; reflexivity |]. vm_compute. reflexivity.
Qed.

(** The sample SUB file loads, and what [write_file] makes of the loaded
    object does not. *)
Example sub_file_loads :
  exists m s', Sub.load (load_state sub_file (host1 3 true)) = (Ok m, s')
    /\ m = sub_object 1 /\ rest s' = ""
    /\ packages (hst s') = ["DIS"; "SUB"]
    /\ pop_key_list (hst s') = [7; 8; 9; 10; 11; 12].
Proof. eexists. eexists. split; [vm_compute; reflexivity |]. repeat split. Qed.

(** The file of the scenario loads to the object with the eleven values,
    and [write_file] on that object writes ten words for them. *)
Example scenario_file_loads :
  exists s', Sub.load (load_state sub_scenario_file (host1 3 true))
             = (Ok (sub_object 0), s')
    /\ rest s' = ""
    /\ strip_split (readline (readline (file_text (Sub.out (sub_written 0)))).2).1
       = ["0"; "0"; "1"; "1"; "1"; "200.0"; "0.2"; "5"; "0"; "0"].
Proof. eexists. split; [vm_compute; reflexivity |]. split; vm_compute; reflexivity. Qed.

Example sub_file_written_text :
  file_text (Sub.out (sub_written 1)) = lines [
    "# Subsidence (SUB) package file for mf2005, generated by Flopy.";
    "0 1 1 1 1 200.0 0.2 5 0 0"; "1 "; "1 ";
    "CONSTANT 1.0"; "CONSTANT 100000.0"; "CONSTANT 0.0001"; "CONSTANT 0.001";
    "CONSTANT 0.0";
    "          1e-06           6e-06          0.0006    #material zone 1 data";
    "CONSTANT 1.0"; "CONSTANT 100000.0"; "CONSTANT 0.0"; "CONSTANT 1.0";
    "CONSTANT 1.0";
    "0 2051 0 2051 0 2051 0 2051 0 2051 0 2051   #dataset 15";
    "1 3 1 10000 1 1 1 1 1 1 1 1 1 1 1 1 1   #dataset 16 isuboc 1" ].
Proof. vm_compute. reflexivity. Qed.

(** Writing the same object twice gives two different files. *)
Example sub_second_write_differs :
  file_text (Sub.out (Sub.run_write (Sub.self (sub_written 1))).2)
  <> file_text (Sub.out (sub_written 1)).
Proof. vm_compute. discriminate. Qed.

End Runs.

(** ** The theorems at work on the sample inputs *)

Module Witnesses.
Import ConstCodec.

Lemma C1_witness :
  exists e s',
    Sub.run_load (file_text (Sub.out (sub_written 1))) (host1 3 true) None = (Raise e, s')
    /\ reads s' = [] /\ hst s' = host1 3 true.
Proof.
  apply (SubFacts.C1_written_file_does_not_load (sub_object 1) (sub_written 1)).
  - reflexivity.
  - vm_compute. reflexivity.
Defined.

Lemma C2_witness :
  strip_split ("0 0 1 1 1 20" +:+ "0.0 0.2 5 0 0" +:+ nl)
  <> strip_split ("0 0 1 1 1 20 0.0 0.2 5 0 0" +:+ nl).
Proof.
  apply (SubFacts.C2_rewritten_header_merges_nn_and_ac1 (sub_object 0)
           {| Sub.out := []; Sub.self := sub_object 0 |}).
  repeat split.
Defined.

Lemma C3_witness :
  exists m h',
    Sub.init (sub_args 0 0) (host1 3 true) = (Ok m, h')
    /\ Sub.ln m = None /\ Sub.ldn m = None
    /\ exists w, Sub.run_write m = (Raise AttributeError, w)
                 /\ length (Sub.out w) = 3%nat
                 /\ forallb (fun c => negb (is_entry c)) (Sub.out w) = true.
Proof.
  eexists. eexists. split; [vm_compute; reflexivity |].
  eapply (SubFacts.C3_write_raises_without_interbeds (sub_args 0 0) (host1 3 true)).
  - reflexivity.
  - reflexivity.
  - vm_compute. reflexivity.
Defined.

Lemma C4_witness :
  exists d out,
    dis (host1 3 false) = Some d
    /\ Upw.run_write (host1 3 false) (upw_object 0) = (Ok tt, out)
    /\ forall k,
         Upw.has "ss" k out
         = bool_decide (k < nlay (host1 3 false))%nat
           && negb (forallb (fun b => b) (steady d))
         /\ Upw.has "sy" k out
            = bool_decide (k < nlay (host1 3 false))%nat
              && negb (forallb (fun b => b) (steady d))
              && Upw.convertible (upw_object 0) k.
Proof.
  apply (UpwFacts.C4_storage_arrays_iff_transient (host1 3 false) (upw_object 0)).
  split; [vm_compute; discriminate |].
  exists {| steady := [false]; laycbd := [0] |}. split; [reflexivity |].
  intros k Hk. destruct k as [| k]; [| cbn in Hk; lia].
  unfold Upw.layer_ok. cbn. repeat split; eauto.
  exists 1, 0. repeat split. now left.
Defined.

(** C4 as it is stated, for every model, fails: the object with
    [laytyp = [1]] and [laywet = [1]] is in a transient simulation and has
    one layer, and [write_file] refuses it before the arrays, so the file
    holds no [ss] array (and no [sy] array) of that layer. *)
Lemma C4_counterexample :
  exists d out,
    dis (host1 3 false) = Some d
    /\ Upw.run_write (host1 3 false) (upw_object 1) = (Raise LaywetError, out)
    /\ (0 < nlay (host1 3 false))%nat
    /\ negb (forallb (fun b => b) (steady d)) = true
    /\ Upw.convertible (upw_object 1) 0 = true
    /\ Upw.has "ss" 0 out = false
    /\ Upw.has "sy" 0 out = false.
Proof.
  eexists. eexists. split; [reflexivity |].
  split; [vm_compute; reflexivity |].
  split; [vm_compute; lia |]. repeat split.
Qed.

Lemma C5_witness :
  exists m h',
    Sub.init (sub_args 1 1) (host1 3 true) = (Ok m, h')
    /\ Sub.isuboc m = 1
    /\ Sub.ids16 m = Some [[0; 2; 0; 9999; 1; 1; 1; 1; 1; 1; 1; 1; 1; 1; 1; 1; 1]].
Proof.
  destruct (SubFacts.C5_default_output_row (sub_args 1 1) (host1 3 true) eq_refl eq_refl)
    as [Hrow Hok].
  destruct Hok as (m & h' & E); [reflexivity | reflexivity | exact I | reflexivity |].
  exists m, h'. split; [exact E |]. exact (Hrow m h' E).
Defined.

Lemma C6_witness :
  exists m s' w,
    Sub.load (load_state Samples.sub_file_delay_only (host1 3 true)) = (Ok m, s')
    /\ Sub.run_write m = (Raise AttributeError, w)
    /\ Sub.ldn m = Some [2]
    /\ length (Sub.out w) = 3%nat
    /\ exists line s1 d s2 s3 s4,
         header_line (load_state Samples.sub_file_delay_only (host1 3 true))
         = (Ok line, s1)
         /\ Sub.load_dataset1 line s1 = (Ok d, s2)
         /\ Sub.load_layers (Sub.d_nndb d) s2 = (Ok (Sub.ln m), s3)
         /\ Sub.load_layers (Sub.d_ndb d) s3 = (Ok (Sub.ldn m), s4)
         /\ (0 < Sub.d_nndb d -> 0 < Sub.d_ndb d ->
             exists vs vs' tail,
               next_ints (Sub.d_nndb d) s2 vs /\ next_ints (Sub.d_ndb d) s3 vs'
               /\ Sub.ln m = Some (zero_based vs) /\ Sub.ldn m = Some (zero_based vs')
               /\ (forall i v, vs !! i = Some v -> - 2 ^ 63 < v ->
                               zero_based vs !! i = Some (v - 1))
               /\ (forall i v, vs' !! i = Some v -> - 2 ^ 63 < v ->
                               zero_based vs' !! i = Some (v - 1))
               /\ Sub.out w
                  = sub_file_start m ++ layer_line vs ++ layer_line vs' ++ tail
               /\ strip_split (file_text (layer_line vs)) = map str_int vs
               /\ strip_split (file_text (layer_line vs')) = map str_int vs')
         /\ (Sub.d_nndb d <= 0 -> 0 < Sub.d_ndb d ->
             exists vs',
               next_ints (Sub.d_ndb d) s3 vs' /\ vs' <> []
               /\ Sub.ldn m = Some (zero_based vs')
               /\ @Raise unit AttributeError = Raise AttributeError
               /\ Sub.out w = sub_file_start m)
         /\ (0 < Sub.d_nndb d -> Sub.d_ndb d <= 0 ->
             exists vs,
               next_ints (Sub.d_nndb d) s2 vs
               /\ Sub.ln m = Some (zero_based vs)
               /\ @Raise unit AttributeError = Raise AttributeError
               /\ Sub.out w = sub_file_start m ++ layer_line vs).
Proof.
  eexists. eexists. eexists. split; [vm_compute; reflexivity |].
  split; [vm_compute; reflexivity |].
  split; [reflexivity |]. split; [reflexivity |].
  eapply (SubFacts.C6_loaded_layer_indices_written_back
            (load_state Samples.sub_file_delay_only (host1 3 true))).
  - vm_compute. reflexivity.
  - vm_compute. reflexivity.
Defined.

Lemma C7_witness :
  (exists out, Upw.run_write (host1 3 false) (upw_object 1) = (Raise LaywetError, out)
     /\ length out = 7%nat
     /\ forallb (fun c => negb (is_entry c)) out = true)
  /\ exists s2, Upw.load (load_state (upw_file "0" "1") (host1 3 false))
                = (Raise LaywetError, s2)
                /\ reads s2 = [].
Proof.
  destruct (UpwFacts.C7_laywet_error_before_arrays (grid:=grid)) as [Hw Hl]. split.
  - apply Hw. vm_compute. reflexivity.
  - eexists. eapply Hl.
    + vm_compute. reflexivity.
    + vm_compute. reflexivity.
    + vm_compute. reflexivity.
Defined.

Lemma C8_witness :
  exists e s',
    Sub.load (load_state sub_file_cut (host1 3 true)) = (Raise e, s')
    /\ packages (hst s') = ["DIS"].
Proof.
  eexists. eexists. split; [vm_compute; reflexivity |].
  apply (SubFacts.C8_failed_load_registers_nothing
           (load_state sub_file_cut (host1 3 true)) (Raise CodecError)).
  vm_compute. reflexivity.
Defined.

Lemma C9_witness :
  exists rows',
    Sub.ids16 (Sub.self (sub_written 1)) = Some rows'
    /\ rows' !! 0%nat
       = Some (shift_first4 1 [0; 2; 0; 9999; 1; 1; 1; 1; 1; 1; 1; 1; 1; 1; 1; 1; 1])
    /\ shift_first4 1 [0; 2; 0; 9999; 1; 1; 1; 1; 1; 1; 1; 1; 1; 1; 1; 1; 1]
       <> [0; 2; 0; 9999; 1; 1; 1; 1; 1; 1; 1; 1; 1; 1; 1; 1; 1]
    /\ Sub.self (sub_written 1) <> sub_object 1.
Proof.
  apply (SubFacts.C9_write_file_shifts_ids16 (sub_object 1) (sub_written 1)
           [[0; 2; 0; 9999; 1; 1; 1; 1; 1; 1; 1; 1; 1; 1; 1; 1; 1]]).
  - vm_compute. reflexivity.
  - reflexivity.
  - reflexivity.
  - reflexivity.
  - discriminate.
Defined.

Lemma C10_witness :
  exists s2,
    Upw.load (load_state (upw_file "2" "0") (host1 3 false)) = (Raise NameError, s2).
Proof.
  destruct (UpwFacts.C10_positive_npupw_never_loads (grid:=grid)
              (load_state (upw_file "2" "0") (host1 3 false))) as [Hpos _].
  eexists.
  eapply (Hpos {| Upw.i_iupwcb := 0; Upw.i_hdry := Fin true 1 30; Upw.i_npupw := 2;
                  Upw.i_iphdry := 0; Upw.i_noparcheck := false |}).
  - vm_compute. reflexivity.
  - reflexivity.
  - vm_compute. reflexivity.
  - vm_compute. discriminate.
Defined.

End Witnesses.

(** * Further properties *)

(** ** Further properties of the two loaders' first lines *)

Section HeaderFacts.

Lemma set_rest_rest (s : lstate) : set_rest (rest s) s = s.
Proof. now destruct s. Qed.

Lemma set_rest_twice r r' (s : lstate) : set_rest r (set_rest r' s) = set_rest r s.
Proof. reflexivity. Qed.

Lemma join_lines_length cs : (length cs <= String.length (join_lines cs))%nat.
Proof.
  induction cs as [| x cs IH]; [reflexivity |]. cbn [join_lines length].
  rewrite !sapp_length. cbn [String.length nl]. lia.
Qed.

(** The loop skips a block of comment lines, one turn for each. *)
Lemma header_loop_comments cs : forall fuel (s : lstate) r,
  Forall (fun x => is_comment x = true) cs ->
  rest s = join_lines cs +:+ r ->
  header_loop (length cs + fuel) s = header_loop fuel (set_rest r s).
Proof.
  induction cs as [| x cs IH]; intros fuel s r Hc Hr.
  - cbn [join_lines length Nat.add] in *. rewrite sapp_nil_l in Hr.
    rewrite <- Hr. now rewrite set_rest_rest.
  - inversion Hc as [| ? ? Hx Hcs]; subst.
    cbn [join_lines] in Hr. rewrite !sapp_assoc in Hr.
    cbn [length Nat.add].
    rewrite (header_loop_comment _ x (join_lines cs +:+ r) s Hx Hr).
    rewrite (IH fuel (set_rest (join_lines cs +:+ r) s) r Hcs eq_refl). reflexivity.
Qed.

Lemma header_line_after_comments cs (s : lstate) r :
  Forall (fun x => is_comment x = true) cs ->
  rest s = join_lines cs +:+ r ->
  header_line s = header_loop (S (String.length r)) (set_rest r s).
Proof.
  intros Hc Hr. unfold header_line.
  pose proof (join_lines_length cs) as Hl.
  assert (Hn : S (String.length (rest s))
               = (length cs + (S (String.length r) + (String.length (join_lines cs) - length cs)))%nat).
  { rewrite Hr, sapp_length. lia. }
  rewrite Hn, (header_loop_comments cs _ s r Hc Hr).
  apply (header_line_any_fuel (set_rest r s)).
Qed.

(** X1: both loaders skip every leading line that starts with [#],
    however many there are, and take the first other line as the header
    line; the file is then read from the line after it. *)
Theorem header_line_skips_comments (cs : list string) c h r (s : lstate) :
  Forall (fun x => is_comment x = true) cs ->
  c <> "#"%char ->
  all_chars not_newline (String c h) = true ->
  rest s = join_lines cs +:+ String c h +:+ nl +:+ r ->
  header_line s = (Ok (String c h +:+ nl), set_rest r s).
Proof.
  intros Hcs Hc Hh Hr.
  rewrite (header_line_after_comments cs s _ Hcs Hr).
  rewrite (header_loop_data _ c h r); [reflexivity | assumption | assumption | reflexivity].
Qed.

Lemma header_line_only_comments (cs : list string) (s : lstate) :
  Forall (fun x => is_comment x = true) cs ->
  rest s = join_lines cs ->
  header_line s = (Raise IndexError, set_rest "" s).
Proof.
  intros Hcs Hr.
  rewrite (header_line_after_comments cs s "" Hcs); [reflexivity |].
  now rewrite sapp_nil_r.
Qed.

End HeaderFacts.

(** *** What a call appends *)

Section Appends.
Context {S X : Type} (f : S -> list X).

Lemma appends_keeps {A} (c : M S A) : keeps f c -> appends f c [].
Proof. intros Hc s a s' E. rewrite (Hc _ _ _ E). now rewrite app_nil_r. Qed.

Lemma appends_bind {A B} (c : M S A) (k : A -> M S B) l1 l2 :
  appends f c l1 -> (forall a, appends f (k a) l2) -> appends f (bind c k) (l1 ++ l2).
Proof.
  intros Hc Hk s b s' E.
  apply bind_inv in E as [(e & _ & Hx) | (a & s1 & E1 & E2)]; [discriminate |].
  rewrite (Hk _ _ _ _ E2), (Hc _ _ _ E1). now rewrite List.app_assoc.
Qed.

Lemma appends_for_each {A} (l : list A) (body : A -> M S unit) (g : A -> list X) :
  (forall x, appends f (body x) (g x)) -> appends f (for_each l body) (flat_map g l).
Proof.
  intros Hb. induction l as [| x l IH]; cbn [for_each flat_map].
  - apply appends_keeps, keeps_ret.
  - apply appends_bind; auto.
Qed.

Lemma appends_collect {A B} (l : list A) (body : A -> M S B) (g : A -> list X) :
  (forall x, appends f (body x) (g x)) -> appends f (collect l body) (flat_map g l).
Proof.
  intros Hb. induction l as [| x l IH]; cbn [collect flat_map].
  - apply appends_keeps, keeps_ret.
  - apply appends_bind; [auto |]. intros b.
    rewrite <- (app_nil_r (flat_map g l)).
    apply appends_bind; [auto |]. intros bs. apply appends_keeps, keeps_ret.
Qed.

Lemma appends_eq {A} (c : M S A) l l' : appends f c l -> l = l' -> appends f c l'.
Proof. now intros Hc <-. Qed.

End Appends.

(** A property of how a call ends and of what it did to the part [f] of
    the state passes over a first step that keeps [f]. *)
Lemma bind_keeps_then {S X A B} (f : S -> X) (P : result B -> X -> X -> Prop)
    (c : M S A) (k : A -> M S B) :
  keeps f c ->
  (forall a s r s', k a s = (r, s') -> P r (f s) (f s')) ->
  (forall e x, P (Raise e) x x) ->
  forall s r s', bind c k s = (r, s') -> P r (f s) (f s').
Proof.
  intros Hc Hk Hr s r s' E.
  apply bind_inv in E as [(e & E & ->) | (a & s1 & E1 & E2)].
  - rewrite (Hc _ _ _ E). apply Hr.
  - rewrite <- (Hc _ _ _ E1). eapply Hk; eassumption.
Qed.

Lemma keeps_compose {S X Y A} (f : S -> X) (g : X -> Y) (c : M S A) :
  keeps f c -> keeps (fun s => g (f s)) c.
Proof. intros Hc s r s' E. now rewrite (Hc _ _ _ E). Qed.

Lemma range_nonpos n : (0 <? n) = false -> range n = [].
Proof. intros Hn%Z.ltb_ge. unfold range. now replace (Z.to_nat n) with 0%nat by lia. Qed.

Lemma entry_keys_app {grid} (a b : list (chunk grid)) :
  entry_keys (a ++ b) = entry_keys a ++ entry_keys b.
Proof. apply omap_app. Qed.

(** The name of an array is the first word of its label. *)
Lemma first_word_label what more :
  is_word what = true -> first_word (what +:+ String " "%char more) = what.
Proof.
  intros Hw. unfold first_word, strip_split.
  now rewrite tokens_word_sep by (assumption || reflexivity).
Qed.

(** *** Words that are numbers *)

Section NumberFacts.

Lemma int_raises w e : int w = Raise e -> e = ValueError.
Proof.
  unfold int.
  repeat match goal with
         | |- context [match ?x with _ => _ end] => destruct x
         end; congruence.
Qed.

Lemma float_raises w e : float w = Raise e -> e = ValueError.
Proof.
  unfold float.
  repeat match goal with
         | |- context [match ?x with _ => _ end] => destruct x
         | |- context [if ?x then _ else _] => destruct x
         end; congruence.
Qed.

Lemma word_int_raises (t : list string) i e :
  match index t i with Ok w => int w | Raise e => Raise e end = Raise e ->
  e = IndexError \/ e = ValueError.
Proof.
  unfold index. destruct (t !! i).
  - intros E%int_raises. now right.
  - intros E. inversion E. now left.
Qed.

Lemma word_float_raises (t : list string) i e :
  match index t i with Ok w => float w | Raise e => Raise e end = Raise e ->
  e = IndexError \/ e = ValueError.
Proof.
  unfold index. destruct (t !! i).
  - intros E%float_raises. now right.
  - intros E. inversion E. now left.
Qed.

Lemma word_int_ok (t : list string) i v :
  match index t i with Ok w => int w | Raise e => Raise e end = Ok v ->
  (i < length t)%nat.
Proof.
  unfold index. destruct (t !! i) eqn:E; [| discriminate].
  intros _. eapply lookup_lt_Some; eassumption.
Qed.

Lemma lift_ok {S A} (x : result A) v (s : S) : x = Ok v -> lift x s = (Ok v, s).
Proof. now intros ->. Qed.

Lemma norm_not_nil d :
  Decimal.norm d <> Decimal.Pos Decimal.Nil /\ Decimal.norm d <> Decimal.Neg Decimal.Nil.
Proof.
  destruct d as [u | u]; cbn [Decimal.norm].
  - unfold Decimal.unorm. split; destruct (Decimal.nzhead u); congruence.
  - split; destruct (Decimal.nzhead u); congruence.
Qed.

(** [int] reads back what ['{}'.format] printed. *)
Lemma int_str_int z : int (str_int z) = Ok z.
Proof.
  pose proof (str_int_chars z) as Hc.
  unfold int, str_int in *.
  assert (Hi : NilZero.int_of_string (NilZero.string_of_int (Z.to_int z))
               = Some (Z.to_int z)).
  { pose proof (DecimalZ.to_of (Z.to_int z)) as Hn. rewrite DecimalZ.of_to in Hn.
    destruct (norm_not_nil (Z.to_int z)) as [H1 H2]. rewrite <- Hn in H1, H2.
    now apply NilZero.isi. }
  destruct (NilZero.string_of_int (Z.to_int z)) as [| c t] eqn:E.
  - discriminate.
  - assert (c <> "+"%char) by (intros ->; discriminate Hc).
    rewrite Hi. rewrite DecimalZ.of_to.
    destruct c as [[] [] [] [] [] [] [] []]; try reflexivity; congruence.
Qed.

Lemma wrap64_in_int64 z : in_int64 (wrap64 z) = true.
Proof.
  unfold in_int64, wrap64.
  assert (Hp : 0 < 2 ^ 64) by reflexivity.
  pose proof (Z.mod_pos_bound (z + 2 ^ 63) (2 ^ 64) Hp) as Hb.
  change (2 ^ 64) with 18446744073709551616 in *.
  change (2 ^ 63) with 9223372036854775808 in *.
  apply andb_true_iff. split; [apply Z.leb_le | apply Z.ltb_lt]; lia.
Qed.

Lemma wrap64_succ_pred v : in_int64 v = true -> wrap64 (wrap64 (v + 1) - 1) = v.
Proof.
  intros Hv. replace (wrap64 (v + 1) - 1) with (wrap64 (v + 1) + -1) by lia.
  rewrite SubFacts.wrap64_plus. replace (v + 1 + -1) with v by lia.
  now apply SubFacts.wrap64_id.
Qed.

End NumberFacts.

(** *** The host model during a load *)

Lemma f_readline_keeps_hst : keeps hst f_readline.
Proof.
  intros s r s' E. unfold f_readline in E.
  destruct (readline (rest s)). now inversion E.
Qed.

Lemma load_array_keeps_hst `{Externals grid} dt label : keeps hst (load_array dt label).
Proof.
  intros s r s' E. unfold load_array in E.
  destruct (util_2d_load _ _ _ _ _ _) as [[g r']|]; now inversion E.
Qed.

#[export] Hint Resolve f_readline_keeps_hst load_array_keeps_hst : keeps.

Lemma header_loop_keeps_hst n : keeps hst (header_loop n).
Proof. induction n; cbn [header_loop]; keeps_auto. Qed.

Lemma header_line_keeps_hst : keeps hst header_line.
Proof. intros s r s' E. exact (header_loop_keeps_hst _ _ _ _ E). Qed.

Lemma read1d_keeps_hst n : keeps hst (read1d n).
Proof. unfold read1d. keeps_auto. Qed.

#[export] Hint Resolve header_line_keeps_hst read1d_keeps_hst : keeps.

(** ** Further properties of mfsub.py *)

Module SubMore.
Import Sub.

Section WithGrid.
Context `{Externals grid}.

(** *** Dataset 1 *)

(** X3: dataset 1 needs its eleven words.  On a header line with fewer,
    [load] raises [IndexError] (a word is missing) or [ValueError] (a word
    before it is not a number) while reading the line, with the host model
    and [ext_unit_dict] untouched. *)
Theorem load_dataset1_needs_eleven_words line (s : lstate) :
  (length (strip_split line) < 11)%nat ->
  exists e, load_dataset1 line s = (Raise e, s)
            /\ (e = IndexError \/ e = ValueError).
Proof.
  intros Hl. unfold load_dataset1, int_at, float_at.
  repeat (rewrite bind_lift;
          match goal with
          | |- context [match ?x with Ok _ => _ | Raise _ => _ end] =>
              destruct x eqn:?;
              [| eexists; split;
                 [reflexivity
                 | first [eapply word_int_raises; eassumption
                         | eapply word_float_raises; eassumption]]]
          end).
  match goal with
  | Hx : match index _ 10%nat with _ => _ end = Ok _ |- _ => apply word_int_ok in Hx; lia
  end.
Qed.

(** What a returning read of dataset 1 did: the eleven words were numbers,
    and the three unit numbers were remapped. *)
Lemma load_dataset1_inv line (s : lstate) d s' :
  load_dataset1 line s = (Ok d, s') ->
  exists v0 v9 v10,
    int_at (S:=lstate) (strip_split line) 0 s = (Ok v0, s)
    /\ int_at (S:=lstate) (strip_split line) 9 s = (Ok v9, s)
    /\ int_at (S:=lstate) (strip_split line) 10 s = (Ok v10, s)
    /\ d_isubcb d = (if 0 <? v0 then 53 else v0)
    /\ d_idsave d = (if 0 <? v9 then 2052 else v9)
    /\ (if 0 <? v10
        then d_idrest d = 2053
             /\ exists dict v,
                  eud s = Some dict /\ dict !! v10 = Some v
                  /\ s' = {| rest := rest s; hst := hst s;
                             eud := Some (<[2053 := v]> (delete v10 dict));
                             reads := reads s |}
        else d_idrest d = v10 /\ s' = s).
Proof.
  unfold load_dataset1, int_at, float_at. intros E.
  repeat (rewrite bind_lift in E;
          match type of E with
          | context [match ?x with Ok _ => _ | Raise _ => _ end] =>
              destruct x eqn:?; [| discriminate]
          end).
  eexists _, _, _.
  do 3 (split; [reflexivity |]).
  unfold bind, move_unit, ret in E.
  match type of E with context [if 0 <? ?c then _ else _] => destruct (0 <? c) eqn:Hc end.
  - destruct (eud s) as [dict|]; [| discriminate].
    match type of E with context [dict !! ?c] => destruct (dict !! c) as [v|] eqn:Hv end;
      [| discriminate].
    inversion E; subst. cbn. repeat split. eauto.
  - inversion E; subst. cbn. auto.
Qed.

(** X4: when dataset 1 is read, the three unit numbers are taken from
    the integers at words 0, 9 and 10 of the line: a positive [isubcb]
    becomes 53, a positive [idsave] becomes 2052 and a positive [idrest]
    becomes 2053, and a value that is not positive is kept as it was read.
    For a positive [idrest] the entry of [ext_unit_dict] under the unit of
    the file is moved to the key 2053 and the old key is gone; nothing else
    of the load state changes, and nothing at all when [idrest] is not
    positive. *)
Theorem load_dataset1_remaps_units line (s : lstate) d s' :
  load_dataset1 line s = (Ok d, s') ->
  exists isubcb idsave idrest,
    int_at (S:=lstate) (strip_split line) 0 s = (Ok isubcb, s)
    /\ int_at (S:=lstate) (strip_split line) 9 s = (Ok idsave, s)
    /\ int_at (S:=lstate) (strip_split line) 10 s = (Ok idrest, s)
    /\ d_isubcb d = (if 0 <? isubcb then 53 else isubcb)
    /\ d_idsave d = (if 0 <? idsave then 2052 else idsave)
    /\ d_idrest d = (if 0 <? idrest then 2053 else idrest)
    /\ (idrest <= 0 -> s' = s)
    /\ (0 < idrest ->
        exists dict v,
          eud s = Some dict /\ dict !! idrest = Some v
          /\ eud s' = Some (<[2053 := v]> (delete idrest dict))
          /\ (idrest <> 2053 ->
              forall dict', eud s' = Some dict' -> dict' !! idrest = None)
          /\ (forall dict', eud s' = Some dict' -> dict' !! 2053 = Some v)
          /\ rest s' = rest s /\ hst s' = hst s /\ reads s' = reads s).
Proof.
  intros E. apply load_dataset1_inv in E.
  destruct E as (v0 & v9 & v10 & E0 & E9 & E10 & H0 & H9 & E).
  exists v0, v9, v10. do 5 (split; [assumption |]).
  destruct (0 <? v10) eqn:H10.
  - apply Z.ltb_lt in H10. destruct E as (Hr & dict & v & Hd & Hv & ->).
    split; [assumption |]. split; [lia |]. intros _.
    exists dict, v. cbn [eud rest hst reads].
    repeat split; try assumption.
    + intros Hne dict' [= <-]. rewrite lookup_insert_ne by congruence.
      apply lookup_delete_eq.
    + intros dict' [= <-]. apply lookup_insert_eq.
  - apply Z.ltb_ge in H10. destruct E as [Hr ->].
    split; [assumption |]. split; [reflexivity | lia].
Qed.

(** X5: a file with a positive [idrest] needs its restart unit in
    [ext_unit_dict].  With [ext_unit_dict = None], the default of [load],
    reading dataset 1 raises [AttributeError]; with a dictionary that lacks
    the unit it raises [KeyError]; in both cases nothing was changed. *)
Theorem load_dataset1_needs_restart_unit line (s0 : lstate) d s0' :
  load_dataset1 line s0 = (Ok d, s0') -> d_idrest d = 2053 ->
  exists old,
    0 < old
    /\ int_at (S:=lstate) (strip_split line) 10 s0 = (Ok old, s0)
    /\ forall s : lstate,
         (eud s = None -> load_dataset1 line s = (Raise AttributeError, s))
         /\ (forall dict, eud s = Some dict -> dict !! old = None ->
                          load_dataset1 line s = (Raise KeyError, s)).
Proof.
  intros E Hd. pose proof E as E'. apply load_dataset1_inv in E'.
  destruct E' as (v0 & v9 & v10 & _ & _ & H10 & _ & _ & Hr).
  destruct (0 <? v10) eqn:Hb.
  2: { destruct Hr as [Hr _]. rewrite Hd in Hr. subst v10. discriminate Hb. }
  exists v10. split; [now apply Z.ltb_lt |]. split; [exact H10 |].
  intros s. revert E. unfold load_dataset1, int_at, float_at.
  apply lift_inv in H10 as [H10 _]. unfold int_at in H10.
  intros E.
  repeat (rewrite bind_lift in E; rewrite bind_lift;
          match type of E with
          | context [match ?x with Ok _ => _ | Raise _ => _ end] =>
              destruct x eqn:?; [| discriminate]
          end).
  match goal with
  | Hx : match index _ 10%nat with Ok _ => _ | Raise _ => _ end = Ok ?c |- _ =>
      assert (c = v10) by congruence; subst c
  end.
  rewrite Hb. unfold bind, move_unit.
  split.
  - intros ->. reflexivity.
  - intros dict -> ->. reflexivity.
Qed.

(** *** Lines of integers, written and read back *)

Lemma file_text_app (a b : list (chunk grid)) :
  file_text (a ++ b) = file_text a +:+ file_text b.
Proof.
  induction a as [| c a IH]; [reflexivity |]. cbn [app].
  change (file_text (c :: ?l)) with (chunk_text c +:+ file_text l).
  now rewrite IH, sapp_assoc.
Qed.

Lemma numbers_text_cons v vs :
  numbers_text (v :: vs) = str_int v +:+ String " "%char (numbers_text vs).
Proof.
  unfold numbers_text. cbn [map].
  change (file_text (?c :: ?l)) with (chunk_text c +:+ file_text l).
  cbn [chunk_text]. now rewrite sapp_assoc, SubFacts.space_app.
Qed.

Lemma numbers_text_one_line vs : all_chars not_newline (numbers_text vs) = true.
Proof.
  induction vs as [| v vs IH]; [reflexivity |].
  rewrite numbers_text_cons, all_chars_app. cbn [all_chars]. rewrite IH.
  rewrite (all_chars_impl is_int_char not_newline);
    [reflexivity | | apply str_int_chars].
  intros c Hc. apply not_space_not_newline, int_char_not_space, Hc.
Qed.

Lemma numbers_text_words vs tail :
  tokens_from "" (numbers_text vs +:+ tail) = map str_int vs ++ tokens_from "" tail.
Proof.
  induction vs as [| v vs IH]; [reflexivity |].
  rewrite numbers_text_cons, sapp_assoc, sapp_cons.
  rewrite tokens_word_sep; [| apply str_int_word | reflexivity].
  cbn [map app]. now rewrite IH.
Qed.

(** Reading the words that were printed from 64-bit integers. *)
Lemma read_printed_words (vs : list Z) (s : lstate) :
  Forall (fun v => in_int64 v = true) vs ->
  collect (map str_int vs)
    (fun w => v <- lift (int w) ;;
              if in_int64 v then ret v else raise OverflowError) s
  = (Ok vs, s).
Proof.
  induction 1 as [| v vs Hv _ IH]; [reflexivity |].
  cbn [map collect]. unfold bind at 1. rewrite bind_lift, int_str_int, Hv.
  cbn [ret]. unfold bind at 1. now rewrite IH.
Qed.

(** [read1d] on a line that starts with [n] printed integers. *)
Lemma read1d_printed (vs : list Z) tail r (s : lstate) :
  Forall (fun v => in_int64 v = true) vs ->
  all_chars not_newline tail = true ->
  rest s = numbers_text vs +:+ tail +:+ nl +:+ r ->
  read1d (length vs) s = (Ok vs, set_rest r s).
Proof.
  intros Hvs Htail Hr. unfold read1d.
  assert (Hl : f_readline s = (Ok ((numbers_text vs +:+ tail) +:+ nl), set_rest r s)).
  { apply f_readline_line.
    - now rewrite all_chars_app, numbers_text_one_line, Htail.
    - now rewrite Hr, !sapp_assoc. }
  rewrite (bind_ok _ _ _ _ _ Hl). unfold strip_split.
  rewrite sapp_assoc, numbers_text_words.
  rewrite bool_decide_eq_false_2 by (rewrite length_app, length_map; lia).
  rewrite take_app_length' by now rewrite length_map.
  now apply read_printed_words.
Qed.

Lemma write_layers_out (l : list Z) (w : wstate grid) :
  write_layers (Some l) w
  = (Ok tt, {| out := out w ++ map (fun v => Text (str_int (wrap64 (v + 1)) +:+ " ")) l
                            ++ [Text nl];
               self := self w |}).
Proof.
  unfold write_layers. cbn [attr]. rewrite bind_lift.
  unfold bind. rewrite SubFacts.for_each_f_write. unfold f_write, modify. cbn [out self].
  now rewrite <- List.app_assoc.
Qed.

(** X6: a line of layer indices that [write_file] wrote (datasets 2 and
    3) is read back by [load] to the vector the object held: the plus one
    of the writer and the minus one of the loader cancel, for every vector
    of 64-bit integers that is not empty. *)
Theorem layers_written_then_loaded (l : list Z) (w w' : wstate grid) r (s : lstate) :
  write_layers (Some l) w = (Ok tt, w') ->
  l <> [] -> Forall (fun v => in_int64 v = true) l ->
  rest s = file_text (drop (length (out w)) (out w')) +:+ r ->
  load_layers (Z.of_nat (length l)) s = (Ok (Some l), set_rest r s).
Proof.
  intros Ew Hne Hl Hr. rewrite write_layers_out in Ew. inversion Ew; subst w'. clear Ew.
  cbn [out] in Hr. rewrite drop_app_length, file_text_app in Hr.
  unfold load_layers.
  assert (Hn : (0 <? Z.of_nat (length l)) = true)
    by (apply Z.ltb_lt; destruct l; [congruence | cbn; lia]).
  rewrite Hn, Nat2Z.id.
  pose (vs := map (fun v => wrap64 (v + 1)) l).
  assert (Hread : read1d (length l) s = (Ok vs, set_rest r s)).
  { replace (length l) with (length vs) by apply length_map.
    apply (read1d_printed vs "").
    - subst vs. apply Forall_forall. intros x [y [-> _]]%list_elem_of_fmap.
      apply wrap64_in_int64.
    - reflexivity.
    - rewrite Hr. unfold numbers_text, vs. rewrite map_map.
      cbn [file_text foldr chunk_text].
      now rewrite sapp_nil_l, sapp_nil_r, !sapp_assoc. }
  rewrite (bind_ok _ _ _ _ _ Hread). unfold ret. do 3 f_equal.
  subst vs. rewrite map_map. rewrite <- (map_id l) at 2.
  apply map_ext_in. intros v Hv. apply wrap64_succ_pred.
  rewrite Forall_forall in Hl. apply Hl. now apply list_elem_of_In.
Qed.

Lemma write_dataset16_row_out k (w : wstate grid) rows t :
  ids16 (self w) = Some rows -> rows !! k = Some t ->
  write_dataset16_row k w
  = (Ok tt, {| out := out w ++ map (fun i => Text (str_int i +:+ " ")) (shift_first4 1 t)
                        ++ [Text ("  #dataset 16 isuboc " +:+ str_int (Z.of_nat k + 1)
                                  +:+ nl)];
               self := set_ids16 (<[k := shift_first4 1 t]> rows) (self w) |}).
Proof.
  intros Hrows Ht. unfold write_dataset16_row.
  unfold bind at 1. cbn [gets]. rewrite Hrows. rewrite bind_lift. cbn [attr].
  rewrite bind_lift. unfold index. rewrite Ht.
  unfold bind at 1. cbn [modify]. unfold bind at 1.
  rewrite SubFacts.for_each_f_write. unfold f_write, modify. cbn [out self].
  now rewrite <- List.app_assoc.
Qed.

Lemma shift_first4_in_int64 d t :
  Forall (fun v => in_int64 v = true) t ->
  Forall (fun v => in_int64 v = true) (shift_first4 d t).
Proof.
  intros Ht. unfold shift_first4. apply Forall_app. split.
  - apply Forall_forall. intros x [y [-> _]]%list_elem_of_fmap. apply wrap64_in_int64.
  - now apply Forall_drop.
Qed.

Lemma shift_first4_length d t : length (shift_first4 d t) = length t.
Proof.
  unfold shift_first4. rewrite length_app, length_map, length_take, length_drop. lia.
Qed.

(** Adding one to the first four entries and taking one off again gives
    the vector back, whatever its length. *)
Lemma shift_first4_back t :
  Forall (fun v => in_int64 v = true) t ->
  shift_first4 (-1) (shift_first4 1 t) = t.
Proof.
  intros Ht. unfold shift_first4.
  assert (Hlen : length (map (fun v => wrap64 (v + 1)) (take 4 t)) = (4 `min` length t)%nat)
    by now rewrite length_map, length_take.
  destruct (decide (4 <= length t)%nat) as [Hl | Hl].
  - rewrite take_app_length' by lia. rewrite drop_app_length' by lia.
    rewrite map_map. rewrite <- (take_drop 4 t) at 3. f_equal.
    rewrite <- (map_id (take 4 t)) at 2. apply map_ext_in. intros v Hv.
    replace (wrap64 (v + 1) + -1) with (wrap64 (v + 1) - 1) by lia.
    apply wrap64_succ_pred. rewrite Forall_forall in Ht. apply Ht.
    apply list_elem_of_In in Hv. now apply (subseteq_take 4 t).
  - rewrite (drop_ge t) by lia. rewrite app_nil_r.
    rewrite (take_ge (map _ _)) by (rewrite Hlen; lia).
    rewrite (drop_ge (map _ _)) by (rewrite Hlen; lia). rewrite app_nil_r.
    rewrite map_map, (take_ge t) by lia.
    rewrite <- (map_id t) at 2. apply map_ext_in. intros v Hv.
    replace (wrap64 (v + 1) + -1) with (wrap64 (v + 1) - 1) by lia.
    apply wrap64_succ_pred. rewrite Forall_forall in Ht. apply Ht.
    now apply list_elem_of_In.
Qed.

(** X7: a row of dataset 16 that [write_file] wrote is read back by
    [load] to the row the object held before the write: the loader takes off
    the one that the writer added to the first four entries, and skips the
    comment that ends the line.  The row needs its 17 entries. *)
Theorem ids16_row_written_then_loaded k rows (t : list Z) (w w' : wstate grid) r
    (s : lstate) :
  ids16 (self w) = Some rows -> rows !! k = Some t ->
  length t = 17%nat -> Forall (fun v => in_int64 v = true) t ->
  write_dataset16_row k w = (Ok tt, w') ->
  rest s = file_text (drop (length (out w)) (out w')) +:+ r ->
  load_ids16_row s = (Ok t, set_rest r s).
Proof.
  intros Hrows Ht Hlen Hin Ew Hr.
  rewrite (write_dataset16_row_out k w rows t Hrows Ht) in Ew.
  inversion Ew; subst w'. clear Ew.
  cbn [out] in Hr. rewrite drop_app_length, file_text_app in Hr.
  unfold load_ids16_row.
  assert (Hread : read1d 17 s = (Ok (shift_first4 1 t), set_rest r s)).
  { replace 17%nat with (length (shift_first4 1 t))
      by now rewrite shift_first4_length.
    apply (read1d_printed _ ("  #dataset 16 isuboc " +:+ str_int (Z.of_nat k + 1))).
    - now apply shift_first4_in_int64.
    - rewrite all_chars_app.
      rewrite (all_chars_impl is_int_char not_newline _
                 (fun c Hc => not_space_not_newline _ (int_char_not_space _ Hc))
                 (str_int_chars _)).
      reflexivity.
    - rewrite Hr. unfold numbers_text.
      cbn [file_text foldr chunk_text]. now rewrite sapp_nil_r, !sapp_assoc. }
  rewrite (bind_ok _ _ _ _ _ Hread). unfold ret.
  now rewrite shift_first4_back.
Qed.

(** *** The end of the file *)

(** X2: a file that holds only comment lines, or nothing at all, is not
    loaded: the loop over the header reads to the end of the file and
    [line[0]] raises [IndexError] on the empty line found there, with the
    host model untouched and no array asked for. *)
Theorem sub_load_only_comments_raises (cs : list string) (s : lstate) :
  Forall (fun l => is_comment l = true) cs ->
  rest s = join_lines cs ->
  load s = (Raise IndexError, set_rest "" s).
Proof.
  intros Hcs Hr. unfold load.
  apply bind_raise. now apply (header_line_only_comments cs).
Qed.

(** *** Dataset 15 *)

(** X8: the line of dataset 15 gives twelve integers; [load] hands the
    six unit numbers (the entries at the odd positions) to
    [add_pop_key_list] in their order and puts 2051 in their place, the
    entries at the even positions staying as read. *)
Theorem load_ids15_units (s : lstate) v s' :
  load_ids15 s = (Ok v, s') ->
  exists f0 u1 f2 u3 f4 u5 f6 u7 f8 u9 f10 u11 s1,
    read1d 12 s = (Ok [f0; u1; f2; u3; f4; u5; f6; u7; f8; u9; f10; u11], s1)
    /\ v = [f0; 2051; f2; 2051; f4; 2051; f6; 2051; f8; 2051; f10; 2051]
    /\ pop_key_list (hst s') = pop_key_list (hst s) ++ [u1; u3; u5; u7; u9; u11]
    /\ packages (hst s') = packages (hst s)
    /\ rest s' = rest s1 /\ reads s' = reads s.
Proof.
  unfold load_ids15. intros E.
  apply bind_inv in E as [(e & _ & Hx) | (raw & s1 & E1 & E)]; [discriminate |].
  pose proof (read1d_keeps_reads _ _ _ _ E1) as Hreads.
  pose proof (SubFacts.read1d_inv _ _ _ _ E1) as (Hs1 & _ & Hlen & _).
  assert (Hh : hst s1 = hst s) by now rewrite Hs1.
  do 13 (destruct raw as [| ? raw]; try discriminate Hlen). clear Hlen.
  do 12 eexists. exists s1. split; [exact E1 |].
  revert E. unfold bind, for_each, lift, index, on_host, add_pop_key_list, modify, ret,
    set_units, set_item. cbn.
  intros E. inversion E; subst v s'. cbn. rewrite Hh, Hreads.
  repeat split. now rewrite <- !List.app_assoc.
Qed.
(** *** [write_file] and the object, again *)

#[local] Hint Resolve SubFacts.f_write_keeps_self SubFacts.f_write_entry_keeps_self
  SubFacts.write_grid_keeps_self SubFacts.write_layers_keeps_self
  SubFacts.write_dataset1_keeps_self : keeps.

(** X9: the material-zone table that the constructor has by default,
    a flat list of three numbers, is a one-dimensional array, and
    [self.dp[k, 0]] raises on it: an object with delay systems and at least
    one material zone that holds such a table is never written to the end. *)
Theorem write_file_flat_dp_raises (w : wstate grid) l r w' :
  dp (self w) = Some (Dp1 l) -> 0 < ndb (self w) -> 0 < nmz (self w) ->
  write_file w = (r, w') ->
  exists e, r = Raise e.
Proof.
  intros Hdp Hndb Hnmz E. destruct r as [[] | e]; [exfalso | eauto].
  unfold write_file in E. unfold bind at 1 in E. cbn [gets] in E.
  apply Z.ltb_lt in Hndb. rewrite Hdp, Hndb in E.
  do 6 (apply bind_inv in E as [(e & _ & Hx) | (? & ? & _ & E)]; [discriminate |]).
  apply bind_inv in E as [(e & _ & Hx) | ([] & s1 & E9 & _)]; [discriminate |].
  unfold range in E9. destruct (Z.to_nat (nmz (self w))) as [| n] eqn:En; [lia |].
  cbn [seq for_each] in E9.
  apply bind_inv in E9 as [(e & _ & Hx) | ([] & s2 & E9 & _)]; [discriminate |].
  rewrite bind_lift in E9. cbn [dp_row] in E9. discriminate.
Qed.

(** X10: [write_file] on an object without output control
    ([isuboc <= 0]) leaves the object as it was, however the call ends. *)
Theorem write_file_keeps_object_without_output (w : wstate grid) r w' :
  isuboc (self w) <= 0 -> write_file w = (r, w') -> self w' = self w.
Proof.
  intros Hi E. unfold write_file in E. unfold bind at 1 in E. cbn [gets] in E.
  assert (Hb : (0 <? isuboc (self w)) = false) by (apply Z.ltb_ge; lia).
  rewrite Hb in E. remember (self w) as m eqn:Hm.
  match type of E with
  | ?c w = _ => assert (Hk : keeps self c) by keeps_auto
  end.
  rewrite (Hk _ _ _ E). now symmetry.
Qed.

Lemma set_ids16_same (m : ModflowSub grid) rows :
  ids16 m = Some rows -> set_ids16 rows m = m.
Proof. destruct m. cbn. now intros ->. Qed.

(** The loop over the rows of dataset 16, on rows [ks] that are all
    different: each of them is shifted once, the others stay. *)
Lemma write_rows_inv (ks : list nat) : forall (w w' : wstate grid) rows,
  NoDup ks -> ids16 (self w) = Some rows ->
  for_each ks write_dataset16_row w = (Ok tt, w') ->
  exists rows',
    self w' = set_ids16 rows' (self w)
    /\ length rows' = length rows
    /\ Forall (fun k => k < length rows)%nat ks
    /\ forall k, rows' !! k
                 = if bool_decide (k ∈ ks) then shift_first4 1 <$> rows !! k
                   else rows !! k.
Proof.
  induction ks as [| k ks IH]; intros w w' rows Hnd Hrows E; cbn [for_each] in E.
  - inversion E; subst w'. exists rows.
    split; [now rewrite set_ids16_same |]. split; [reflexivity |].
    split; [constructor |]. intros k. rewrite bool_decide_eq_false_2; [reflexivity |].
    apply not_elem_of_nil.
  - apply NoDup_cons in Hnd as [Hk Hnd].
    apply bind_inv in E as [(e & _ & Hx) | ([] & w1 & E1 & E2)]; [discriminate |].
    apply SubFacts.write_dataset16_row_inv in E1. rewrite Hrows in E1.
    destruct (rows !! k) as [t|] eqn:Et; [| destruct E1 as [Hx _]; discriminate].
    destruct E1 as [_ E1].
    assert (Hlt : (k < length rows)%nat) by (eapply lookup_lt_Some; eassumption).
    destruct (IH w1 w' (<[k := shift_first4 1 t]> rows) Hnd) as (rows' & Hs & Hl & Hf & Hr);
      [now rewrite E1 | assumption |].
    exists rows'. rewrite length_insert in Hl, Hf.
    split; [rewrite Hs, E1; reflexivity |]. split; [assumption |].
    split; [now constructor |].
    intros j. rewrite Hr. destruct (decide (j = k)) as [-> | Hj].
    + rewrite (bool_decide_eq_false_2 _ Hk).
      rewrite (bool_decide_eq_true_2 (k ∈ k :: ks)) by apply list_elem_of_here.
      rewrite list_lookup_insert_eq by assumption. now rewrite Et.
    + rewrite list_lookup_insert_ne by congruence.
      destruct (decide (j ∈ ks)) as [Hin | Hin].
      * rewrite (bool_decide_eq_true_2 _ Hin).
        rewrite bool_decide_eq_true_2; [reflexivity | now apply list_elem_of_further].
      * rewrite (bool_decide_eq_false_2 _ Hin).
        rewrite bool_decide_eq_false_2; [reflexivity |].
        intros [-> | Hx]%elem_of_cons; [congruence | contradiction].
Qed.

(** X11: what [write_file] leaves of the object when it returns with
    output control on: [ids16] is the only attribute that changed; the
    object holds at least [isuboc] rows, each of the first [isuboc] rows has
    its first four entries plus one, and the rows after them are as they
    were. *)
Theorem write_file_shifts_rows_below_isuboc (w w' : wstate grid) rows :
  write_file w = (Ok tt, w') -> 0 < isuboc (self w) ->
  ids16 (self w) = Some rows ->
  exists rows',
    self w' = set_ids16 rows' (self w)
    /\ length rows' = length rows
    /\ (Z.to_nat (isuboc (self w)) <= length rows)%nat
    /\ forall k, rows' !! k
                 = if bool_decide (k < Z.to_nat (isuboc (self w)))%nat
                   then shift_first4 1 <$> rows !! k else rows !! k.
Proof.
  intros E Hi Hrows. unfold write_file in E.
  unfold bind at 1 in E. cbn [gets] in E.
  assert (Hb : (0 <? isuboc (self w)) = true) by (apply Z.ltb_lt; assumption).
  rewrite Hb in E. remember (self w) as m eqn:Hm.
  assert (Hw : self w = m) by now symmetry.
  clear Hm. revert E Hw. generalize w at 1 2. intros s E Hs.
  repeat (eapply (bind_ok_keeps self) in E; [| solve [keeps_auto]];
          destruct E as (? & ? & ? & _ & E)).
  match type of E with _ ?s1 = _ =>
    assert (Hs1 : self s1 = m) by (cbn [self] in *; congruence); revert E;
    generalize dependent s1
  end.
  intros s1 _ Hs1 E.
  destruct (write_rows_inv (range (isuboc m)) s1 w' rows) as (rows' & Hr1 & Hr2 & Hr3 & Hr4);
    [apply NoDup_seq | now rewrite Hs1 | assumption |].
  exists rows'. rewrite Hs1 in Hr1. split; [assumption |]. split; [assumption |].
  unfold range in *. split.
  - destruct (Z.to_nat (isuboc m)) as [| n] eqn:En; [lia |].
    rewrite Forall_forall in Hr3.
    assert (Hn : n ∈ seq 0 (S n)) by (apply elem_of_seq; lia).
    specialize (Hr3 n Hn). lia.
  - intros k. rewrite Hr4. destruct (decide (k < Z.to_nat (isuboc m))%nat) as [Hk | Hk].
    + rewrite (bool_decide_eq_true_2 _ Hk).
      rewrite bool_decide_eq_true_2; [reflexivity | apply elem_of_seq; lia].
    + rewrite (bool_decide_eq_false_2 _ Hk).
      rewrite bool_decide_eq_false_2; [reflexivity |]. intros Hx%elem_of_seq. lia.
Qed.

(** *** The constructor and the output block *)

(** [set_units] needs twelve entries, and then puts 2051 at the six odd
    positions below 12 and leaves every other entry. *)
Lemma set_units_inv (g l : list Z) :
  set_units g = Ok l ->
  (12 <= length g)%nat
  /\ forall i, l !! i = if Nat.odd i && (i <? 12)%nat then Some 2051 else g !! i.
Proof.
  intros E. assert (Hlen : (12 <= length g)%nat).
  { revert E. unfold set_units, set_item. cbn [foldl].
    repeat (case_bool_decide; [| intros; discriminate]).
    rewrite ?length_insert in *. lia. }
  split; [assumption |].
  do 12 (destruct g as [| ? g]; [cbn in Hlen; lia |]).
  cbn in E. inversion E; subst l. clear.
  intros i. do 12 (destruct i as [| i]; [reflexivity |]).
  replace (S (S (S (S (S (S (S (S (S (S (S (S i))))))))))) <? 12)%nat with false
    by (symmetry; apply Nat.ltb_ge; lia).
  now rewrite andb_false_r.
Qed.

Lemma set_units_short (g : list Z) :
  (length g < 12)%nat -> set_units g = Raise IndexError.
Proof.
  intros Hl. do 12 (destruct g as [| ? g]; [reflexivity |]). cbn in Hl. lia.
Qed.

(** The [ids15] that the output block of the constructor computes. *)
Lemma init_output_ids15 (a : args grid) np i o15 o16 :
  init_output a np = Ok (i, o15, o16) -> 0 < a_isuboc a ->
  let given := match a_ids15 a with None => replicate 12 0 | Some l => l end in
  exists l, o15 = Some l /\ (12 <= length given)%nat
    /\ forall i, l !! i = if Nat.odd i && (i <? 12)%nat then Some 2051
                          else given !! i.
Proof.
  intros Eo Hi given. unfold init_output in Eo. fold given in Eo.
  apply Z.ltb_lt in Hi. rewrite Hi in Eo.
  destruct (set_units given) as [l|] eqn:El; [| discriminate].
  apply set_units_inv in El as [Hlen Hl].
  exists l. split; [| split; assumption].
  destruct (a_ids16 a) as [[row | rows] |]; [discriminate | now inversion Eo |].
  destruct (in_int64 _); [now inversion Eo | discriminate].
Qed.

Lemma init_output_ids16 (a : args grid) np i o15 o16 :
  init_output a np = Ok (i, o15, o16) -> 0 < a_isuboc a ->
  exists rows, o16 = Some rows.
Proof.
  intros Eo Hi. unfold init_output in Eo. apply Z.ltb_lt in Hi. rewrite Hi in Eo.
  destruct (set_units _) as [l|]; [| discriminate].
  destruct (a_ids16 a) as [[row | rows] |]; [discriminate | |].
  - inversion Eo. eauto.
  - destruct (in_int64 _); [| discriminate]. inversion Eo. eauto.
Qed.

(** X12: on an object that the constructor returned, the output block
    is there exactly when [isuboc > 0].  Then the object has an [ids16],
    and [ids15] is the vector that was given (twelve zeros if none was),
    with 2051 at the six odd positions below 12, whatever unit numbers the
    caller gave; without output control the object has neither [ids15] nor
    [ids16]. *)
Theorem init_ids15_units (a : args grid) (h : host) m h' :
  init a h = (Ok m, h') ->
  let given := match a_ids15 a with None => replicate 12 0 | Some l => l end in
  (0 < a_isuboc a ->
   (exists l, ids15 m = Some l /\ (12 <= length given)%nat
      /\ forall i, l !! i = if Nat.odd i && (i <? 12)%nat then Some 2051
                            else given !! i)
   /\ exists rows, ids16 m = Some rows)
  /\ (a_isuboc a <= 0 -> ids15 m = None /\ ids16 m = None).
Proof.
  intros E given. apply SubFacts.init_inv in E.
  destruct E as (nd & dl & i & o15 & o16 & _ & _ & Eo & _ & <- & <- & _). split.
  - intros Hi. split.
    + exact (init_output_ids15 _ _ _ _ _ Eo Hi).
    + exact (init_output_ids16 _ _ _ _ _ Eo Hi).
  - intros Hi. unfold init_output in Eo.
    assert (Hb : (0 <? a_isuboc a) = false) by (apply Z.ltb_ge; lia).
    rewrite Hb in Eo. now inversion Eo.
Qed.

(** X13: an [ids16] of one dimension (one row given as a flat list)
    is not accepted: with [isuboc > 0] the constructor never returns and
    leaves the host model as it was, no package registered; when the arrays
    have the declared shapes and [ids15] its twelve entries, what it raises
    is the [NameError] of [numpy.reshape], the module knowing numpy as [np]
    only. *)
Theorem init_flat_ids16_raises (a : args grid) (h : host) row r h' :
  0 < a_isuboc a -> a_ids16 a = Some (T1 row) ->
  init a h = (r, h') ->
  (exists e, r = Raise e) /\ h' = h
  /\ (is_ok (init_nodelay a (nrow h, ncol h)) = true ->
      is_ok (init_delay a (nrow h, ncol h)) = true ->
      (12 <= length (match a_ids15 a with None => replicate 12 0%Z | Some l => l end))%nat ->
      r = Raise NameError).
Proof.
  intros Hi H16 E. apply Z.ltb_lt in Hi.
  assert (Ho : forall x, init_output a (nper h) <> Ok x).
  { intros x. unfold init_output. rewrite Hi, H16.
    destruct (set_units _); discriminate. }
  pose proof (SubFacts.init_inv _ _ _ _ E) as Hinv.
  destruct r as [m | e].
  - destruct Hinv as (nd & dl & i & o15 & o16 & _ & _ & Eo & _). now apply Ho in Eo.
  - split; [eauto |]. split; [assumption |]. intros Hn Hd H15.
    revert E. unfold init, bind, gets, lift, add_package, modify, ret.
    destruct (init_nodelay a _) as [[[[[? ?] ?] ?] ?]|]; [| discriminate Hn].
    destruct (init_delay a _) as [[[[[[[? ?] ?] ?] ?] ?] ?]|]; [| discriminate Hd].
    unfold init_output. rewrite Hi, H16.
    destruct (SubFacts.set_units_ok _ H15) as [l' ->].
    intros E. now inversion E.
Qed.

(** *** The arrays of the file, in their order *)

Lemma f_write_keeps_keys t :
  keeps (fun w : wstate grid => entry_keys (out w)) (f_write t).
Proof.
  intros s r s' E. inversion E. cbn [out]. rewrite entry_keys_app. apply app_nil_r.
Qed.

Lemma set_self_keeps_keys (g : wstate grid -> ModflowSub grid) :
  keeps (fun w : wstate grid => entry_keys (out w))
        (modify (fun w => {| out := out w; self := g w |})).
Proof. intros s r s' E. now inversion E. Qed.

#[local] Hint Resolve f_write_keeps_keys set_self_keeps_keys : keeps.

Lemma write_grid_appends e fld (o : option (list grid)) k :
  appends (fun w : wstate grid => entry_keys (out w)) (write_grid e fld o k) [(fld, k)].
Proof.
  intros s a s' E. unfold write_grid in E. rewrite bind_lift in E.
  destruct (grid_at e o k); [| discriminate]. inversion E. cbn [out].
  now rewrite entry_keys_app.
Qed.

Lemma guarded_loop_appends {X} (f : wstate grid -> list X) n
    (body : nat -> M (wstate grid) unit) (g : nat -> list X) :
  (forall k, appends f (body k) (g k)) ->
  appends f (if 0 <? n then for_each (range n) body else ret tt) (flat_map g (range n)).
Proof.
  intros Hb. destruct (0 <? n) eqn:Hn.
  - now apply appends_for_each.
  - rewrite (range_nonpos _ Hn). apply appends_keeps, keeps_ret.
Qed.

(** X14: the arrays of a file that [write_file] wrote to the end are,
    in this order, [rnb] of every delay system, then [hc], [sfe], [sfv] and
    [com] of every no-delay system, then [dstart], [dhc], [dcom], [dz] and
    [nz] of every delay system: [6 ndb + 4 nndb] arrays; neither the
    material zones nor the output block adds one. *)
Theorem sub_write_file_arrays (w w' : wstate grid) :
  write_file w = (Ok tt, w') ->
  entry_keys (out w')
  = entry_keys (out w) ++ sub_arrays (nndb (self w)) (ndb (self w)).
Proof.
  intros E. unfold write_file in E. unfold bind at 1 in E. cbn [gets] in E.
  remember (self w) as m eqn:Hm. clear Hm.
  revert E.
  match goal with
  | |- ?c w = _ -> _ =>
      assert (Hc : appends (fun w : wstate grid => entry_keys (out w)) c
                     (sub_arrays (nndb m) (ndb m)));
        [| intros E; exact (Hc _ _ _ E)]
  end.
  unfold sub_arrays.
  eapply appends_eq.
  - apply appends_bind; [apply appends_keeps; keeps_auto | intros _].
    apply appends_bind;
      [apply appends_keeps; unfold write_dataset1; keeps_auto | intros _].
    apply appends_bind;
      [apply appends_keeps; unfold write_layers; keeps_auto | intros _].
    apply appends_bind;
      [apply appends_keeps; unfold write_layers; keeps_auto | intros _].
    apply appends_bind;
      [apply guarded_loop_appends; intros k; apply write_grid_appends | intros _].
    apply appends_bind;
      [apply guarded_loop_appends; intros k;
       repeat (apply appends_bind; [apply write_grid_appends | intros _]);
       apply write_grid_appends
      | intros _].
    apply appends_bind; [apply appends_keeps; keeps_auto | intros _].
    apply appends_bind;
      [apply guarded_loop_appends; intros k;
       repeat (apply appends_bind; [apply write_grid_appends | intros _]);
       apply write_grid_appends
      | intros _].
    apply appends_keeps. unfold write_dataset16_row. keeps_auto.
  - cbn [app]. now rewrite !app_nil_r.
Qed.

(** *** The arrays that [load] asks for, in their order *)

Lemma load_array_appends dt label :
  appends (fun s : lstate => map first_word (reads s)) (load_array dt label)
          [first_word label].
Proof.
  intros s a s' E. unfold load_array in E.
  destruct (util_2d_load _ _ _ _ _ _) as [[g r]|]; [| discriminate].
  inversion E. cbn [reads]. now rewrite map_app.
Qed.

Lemma load_layer_array_appends dt what a k :
  is_word what = true ->
  appends (fun s : lstate => map first_word (reads s)) (load_layer_array dt what a k)
          [what].
Proof.
  intros Hw s g s' E. unfold load_layer_array in E. rewrite bind_lift in E.
  unfold layer_label in E. destruct (attr TypeError a) as [l|]; [| discriminate].
  destruct (index l k) as [v|]; [| discriminate].
  apply load_array_appends in E. rewrite E. do 2 f_equal.
  change (what +:+ " layer " +:+ str_int (wrap64 (v + 1)))
    with (what +:+ String " "%char ("layer " +:+ str_int (wrap64 (v + 1)))).
  now apply first_word_label.
Qed.

Lemma guarded_collect_appends {X A B} (f : lstate -> list X) n
    (body : nat -> M lstate A) (k : list A -> M lstate B) (x : B) (g : nat -> list X) :
  (forall i, appends f (body i) (g i)) -> (forall l, keeps f (k l)) ->
  appends f (if 0 <? n then bind (collect (range n) body) k else ret x)
          (flat_map g (range n)).
Proof.
  intros Hb Hk. destruct (0 <? n) eqn:Hn.
  - rewrite <- (app_nil_r (flat_map g (range n))).
    apply appends_bind; [now apply appends_collect |].
    intros l. now apply appends_keeps.
  - rewrite (range_nonpos _ Hn). apply appends_keeps, keeps_ret.
Qed.

Lemma map_fst_flat_map {A B C} (g : A -> list (B * C)) l :
  map fst (flat_map g l) = flat_map (fun k => map fst (g k)) l.
Proof.
  induction l as [| x l IH]; [reflexivity |]. cbn [flat_map].
  now rewrite map_app, IH.
Qed.

#[local] Hint Resolve SubFacts.load_dataset1_keeps_reads : keeps.

#[local] Hint Resolve SubFacts.load_layers_keeps_reads SubFacts.load_dp_keeps_reads
  SubFacts.load_ids15_keeps_reads SubFacts.load_ids16_row_keeps_reads : keeps.

(** X15: a [load] that returns has asked the array codec for the
    arrays in the order in which [write_file] writes them: the names of the
    arrays it asked for (the first word of each label) are [rnb] for every
    delay system, then [hc], [sfe], [sfv], [com] for every no-delay system,
    then [dstart], [dhc], [dcom], [dz], [nz] for every delay system, with
    the counts the returned object holds. *)
Theorem sub_load_asks_arrays_in_order (s : lstate) m s' :
  load s = (Ok m, s') ->
  map first_word (reads s')
  = map first_word (reads s) ++ map fst (sub_arrays (nndb m) (ndb m)).
Proof.
  intros E.
  destruct (SubFacts.load_stores_dataset1 _ _ _ E) as (line & s1 & d & s2 & E1 & E2 & Hd).
  destruct Hd as (_ & _ & Hnndb & Hndb & _).
  rewrite <- (header_line_keeps_reads _ _ _ E1).
  rewrite <- (SubFacts.load_dataset1_keeps_reads _ _ _ _ E2).
  unfold load in E. rewrite (bind_ok _ _ _ _ _ E1), (bind_ok _ _ _ _ _ E2) in E.
  cbv zeta in E. rewrite Hnndb, Hndb. revert E.
  match goal with
  | |- ?c s2 = _ -> _ =>
      assert (Hc : appends (fun s : lstate => map first_word (reads s)) c
                     (map fst (sub_arrays (d_nndb d) (d_ndb d))));
        [| intros E; exact (Hc _ _ _ E)]
  end.
  unfold sub_arrays. rewrite !map_app, !map_fst_flat_map. cbn [map fst].
  pose (f := fun s : lstate => map first_word (reads s)).
  assert (Hk : forall A (c : M lstate A), keeps reads c -> appends f c []).
  { intros A c Hc. apply appends_keeps. now apply (keeps_compose reads). }
  eapply appends_eq.
  - apply appends_bind; [apply Hk; keeps_auto | intros ln].
    apply appends_bind; [apply Hk; keeps_auto | intros ldn].
    apply appends_bind;
      [apply (guarded_collect_appends f) with (g := fun _ => ["rnb"]);
       [intros i; apply load_array_appends | intros l; apply (keeps_compose reads), keeps_ret]
      | intros rnb].
    apply appends_bind;
      [apply (guarded_collect_appends f)
         with (g := fun _ => ["hc"] ++ ["sfe"] ++ ["sfv"] ++ ["com"] ++ []);
       [intros i;
        repeat (apply appends_bind;
                [apply load_layer_array_appends; reflexivity | intros ?]);
        apply Hk, keeps_ret
       | intros l; apply (keeps_compose reads); keeps_auto]
      | intros [[[hc sfe] sfv] com]].
    apply appends_bind; [apply Hk; keeps_auto | intros dp].
    apply appends_bind;
      [apply (guarded_collect_appends f)
         with (g := fun _ => ["dstart"] ++ ["dhc"] ++ ["dcom"] ++ ["dz"] ++ ["nz"] ++ []);
       [intros i;
        repeat (apply appends_bind;
                [apply load_layer_array_appends; reflexivity | intros ?]);
        apply Hk, keeps_ret
       | intros l; apply (keeps_compose reads); keeps_auto]
      | intros [[[[dstart dhc] dcom] dz] nz]].
    apply appends_bind; [apply Hk; keeps_auto | intros [ids15 ids16]].
    apply Hk. keeps_auto.
  - cbn [app]. now rewrite !app_nil_r.
Qed.

(** *** [load] and the host model *)

Lemma move_unit_keeps_hst v : keeps hst (move_unit v).
Proof.
  intros s r s' E. unfold move_unit in E.
  destruct (eud s) as [d|]; [| now inversion E].
  destruct (d !! v); now inversion E.
Qed.

#[local] Hint Resolve move_unit_keeps_hst : keeps.

Lemma load_dataset1_keeps_hst line : keeps hst (load_dataset1 line).
Proof. unfold load_dataset1. keeps_auto. Qed.

Lemma load_dataset1_keeps_rest line : keeps rest (load_dataset1 line).
Proof.
  intros s r s' E. destruct r as [d | e].
  - apply load_dataset1_inv in E as (v0 & v9 & v10 & _ & _ & _ & _ & _ & E).
    destruct (0 <? v10).
    + now destruct E as (_ & dict & v & _ & _ & ->).
    + now destruct E as [_ ->].
  - revert E. unfold load_dataset1, int_at, float_at.
    repeat (rewrite bind_lift;
            match goal with
            | |- context [match ?x with Ok _ => _ | Raise _ => _ end] =>
                destruct x; [| intros E; now inversion E]
            end).
    unfold bind, move_unit, ret.
    match goal with |- context [if ?b then _ else _] => destruct b end;
      [| discriminate].
    destruct (eud s) as [d|]; [| intros E; now inversion E].
    match goal with |- context [d !! ?c] => destruct (d !! c) end;
      [discriminate | intros E; now inversion E].
Qed.

(** X16: with a verbose host model, a file that asks for output
    control ([isuboc > 0]) but has no interbed system is not loaded: the
    message for dataset 15 names the layer number [kk], which only the
    loops over the interbed systems set, and [load] raises [NameError] right
    after dataset 1, the rest of the file unread. *)
Theorem load_verbose_output_without_interbeds (s : lstate) line s1 d s2 :
  header_line s = (Ok line, s1) ->
  load_dataset1 line s1 = (Ok d, s2) ->
  verbose (hst s) = true ->
  0 < d_isuboc d -> d_nndb d <= 0 -> d_ndb d <= 0 ->
  load s = (Raise NameError, s2)
  /\ rest s2 = rest s1 /\ reads s2 = reads s /\ hst s2 = hst s.
Proof.
  intros E1 E2 Hv Hi Hn Hd.
  pose proof (header_line_keeps_hst _ _ _ E1) as Hh1.
  pose proof (load_dataset1_keeps_hst _ _ _ _ E2) as Hh2.
  split; [| split; [| split]].
  - unfold load. rewrite (bind_ok _ _ _ _ _ E1), (bind_ok _ _ _ _ _ E2).
    cbv zeta. unfold load_layers, load_dp.
    assert (Hn' : (0 <? d_nndb d) = false) by (apply Z.ltb_ge; lia).
    assert (Hd' : (0 <? d_ndb d) = false) by (apply Z.ltb_ge; lia).
    apply Z.ltb_lt in Hi. rewrite Hn', Hd', Hi.
    unfold bind at 1 2 3 4 5 6 7. cbn [ret].
    unfold bind at 1 2. cbn [gets]. rewrite Hh2, Hh1, Hv. reflexivity.
  - exact (load_dataset1_keeps_rest _ _ _ _ E2).
  - rewrite (SubFacts.load_dataset1_keeps_reads _ _ _ _ E2).
    exact (header_line_keeps_reads _ _ _ E1).
  - congruence.
Qed.

(** The four lists that the constructor hands to [Package.__init__]. *)
Lemma init_units (a : args grid) (h : host) m h' :
  init a h = (Ok m, h') ->
  let more := (if 0 <? a_isuboc a then 1 else 0) + (if 0 <? a_idsave a then 1 else 0) in
  unit_number m = [a_unit_number a] ++ (if 0 <? a_isuboc a then [2051] else [])
                  ++ (if 0 <? a_idsave a then [2052] else [])
  /\ extension m = [a_extension a] ++ (if 0 <? a_isuboc a then ["bud"] else [])
                   ++ (if 0 <? a_idsave a then ["rst"] else [])
  /\ name m = ["SUB"] ++ replicate (Z.to_nat more) "DATA(BINARY)"
  /\ extra m = [""] ++ replicate (Z.to_nat more) "REPLACE".
Proof.
  unfold init, bind, gets, lift, add_package, modify, ret.
  destruct (init_nodelay a _) as [[[[[? ?] ?] ?] ?]|]; [| discriminate].
  destruct (init_delay a _) as [[[[[[[? ?] ?] ?] ?] ?] ?]|]; [| discriminate].
  destruct (init_output a _) as [[[? ?] ?]|]; [| discriminate].
  intros E. inversion E; subst. cbn. repeat split.
Qed.

(** A [load] that returns ended in the constructor, called with the
    values of dataset 1 and, under output control, with the [ids16] it
    read. *)
Lemma load_calls_init (s : lstate) m s' :
  load s = (Ok m, s') ->
  exists line s1 d s2 (a : args grid) h,
    header_line s = (Ok line, s1)
    /\ load_dataset1 line s1 = (Ok d, s2)
    /\ init a h = (Ok m, hst s')
    /\ a_isuboc a = d_isuboc d /\ a_idsave a = d_idsave d
    /\ a_unit_number a = 32 /\ a_extension a = "sub"
    /\ ((0 <? d_isuboc d) = true -> a_ids16 a <> None).
Proof.
  intros E. unfold load in E.
  apply bind_inv in E as [(e & _ & Hx) | (line & s1 & E1 & E)]; [discriminate |].
  apply bind_inv in E as [(e & _ & Hx) | (d & s2 & E2 & E)]; [discriminate |].
  cbv zeta in E.
  do 6 (apply bind_inv in E as [(e & _ & Hx) | (? & ? & _ & E)]; [discriminate |];
        repeat match goal with x : (_ * _)%type |- _ => destruct x end).
  apply bind_inv in E as [(e & _ & Hx) | ([o15 o16] & s3 & Eo & E)]; [discriminate |].
  unfold on_host in E. destruct (init _ _) as [r0 h0] eqn:Ei.
  inversion E; subst r0 s'. clear E. cbn [hst].
  do 6 eexists. split; [exact E1 |]. split; [exact E2 |]. split; [exact Ei |].
  cbn [a_isuboc a_idsave a_unit_number a_extension a_ids16].
  repeat split. intros Hb. rewrite Hb in Eo.
  do 4 (apply bind_inv in Eo as [(e & _ & Hx) | (? & ? & _ & Eo)]; [discriminate |]).
  inversion Eo; subst. discriminate.
Qed.

(** X17: on an object that [load] returned, the units that the
    package declares are the unit 32 of the file itself, 2051 exactly when
    there is output control and 2052 exactly when heads are saved for a
    restart; and they are the units the object refers to: a positive
    [idsave] is 2052, and under output control every unit number of
    dataset 15 is 2051.  The names, extensions and extras handed to the
    host model are as many as the units. *)
Theorem load_units_are_declared (s : lstate) m s' :
  load s = (Ok m, s') ->
  unit_number m = [32] ++ (if 0 <? isuboc m then [2051] else [])
                  ++ (if 0 <? idsave m then [2052] else [])
  /\ (0 < idsave m -> idsave m = 2052)
  /\ (0 < isuboc m ->
      exists l, ids15 m = Some l
        /\ forall i, (i < 12)%nat -> Nat.odd i = true -> l !! i = Some 2051)
  /\ length (name m) = length (unit_number m)
  /\ length (extension m) = length (unit_number m)
  /\ length (extra m) = length (unit_number m).
Proof.
  intros E.
  destruct (load_calls_init _ _ _ E)
    as (line & s1 & d & s2 & a & h & _ & E2 & Ei & Hio & Hsv & Hu & _ & H16).
  pose proof (init_units _ _ _ _ Ei) as (U1 & U2 & U3 & U4). cbv zeta in U3, U4.
  pose proof (SubFacts.init_scalars _ _ _ _ Ei)
    as (_ & _ & _ & _ & _ & _ & _ & _ & Hs & _ & Hi).
  assert (Hi' : isuboc m = a_isuboc a) by (apply Hi; rewrite Hio; exact H16).
  rewrite Hs, Hi'. split; [now rewrite U1, Hu |].
  split.
  { intros Hp. rewrite Hsv in *.
    apply load_dataset1_inv in E2 as (v0 & v9 & v10 & _ & _ & _ & _ & H9 & _).
    rewrite H9 in *. destruct (0 <? v9) eqn:Hb; [reflexivity |].
    apply Z.ltb_ge in Hb. lia. }
  split.
  { intros Hp. apply SubFacts.init_inv in Ei.
    destruct Ei as (nd & dl & i0 & o15 & o16 & _ & _ & Eo & _ & <- & _).
    destruct (init_output_ids15 _ _ _ _ _ Eo Hp) as (l & -> & _ & Hl').
    exists l. split; [reflexivity |]. intros i Hlt Hodd. rewrite Hl', Hodd.
    apply Nat.ltb_lt in Hlt. now rewrite Hlt. }
  rewrite U1, U2, U3, U4.
  destruct (0 <? a_isuboc a), (0 <? a_idsave a); repeat split.
Qed.
End WithGrid.
End SubMore.

(** ** mfupw.py, further *)

Module UpwMore.
Import Upw.

Section WithGrid.
Context `{Externals grid}.

#[local] Hint Resolve UpwFacts.int_line_keeps_reads UpwFacts.float_line_keeps_reads : keeps.

(** *** [write_file] *)

(** What the loop over the layers writes for layer [k] when it returns. *)
Lemma write_layer_arrays h d (m : ModflowUpw grid) tr k (o o' : list (chunk grid)) :
  dis h = Some d ->
  write_layer h m tr k o = (Ok tt, o') ->
  entry_keys o'
  = entry_keys o
    ++ map (fun f => (f, k))
         (upw_layer_arrays (flag (fun c => c <? 1) (chani m) k) tr (convertible m k)
                           (flag (fun c => 0 <? c) (laycbd d) k)).
Proof.
  intros Hd. unfold write_layer, convertible, flag, laycbd_at, write_grid, index.
  rewrite Hd.
  unfold bind, lift, modify, ret, raise.
  destruct (hk m !! k); [| discriminate].
  destruct (chani m !! k) as [c|]; [| discriminate].
  destruct (hani m !! k), (vka m !! k), (ss m !! k), (sy m !! k),
    (laytyp m !! k) as [lt|], (laycbd d !! k) as [cb|], (vkcb m !! k),
    (laywet m !! k) as [lw|], (c <? 1), tr;
    try discriminate;
    try (destruct (lt =? 0)); try discriminate;
    try (destruct (0 <? cb)); try discriminate;
    try (destruct (lw =? 0)); try discriminate;
    cbn [negb]; intros E; inversion E; subst o';
    rewrite ?entry_keys_app; cbn; rewrite <- ?List.app_assoc; reflexivity.
Qed.

Lemma write_layers_arrays h d (m : ModflowUpw grid) tr (ks : list nat) :
  dis h = Some d ->
  forall o o' : list (chunk grid),
    for_each ks (write_layer h m tr) o = (Ok tt, o') ->
    entry_keys o'
    = entry_keys o
      ++ flat_map (fun k => map (fun f => (f, k))
                    (upw_layer_arrays (flag (fun c => c <? 1) (chani m) k) tr
                       (convertible m k) (flag (fun c => 0 <? c) (laycbd d) k))) ks.
Proof.
  intros Hd. induction ks as [| k ks IH]; intros o o' E; cbn [for_each flat_map] in *.
  - inversion E. now rewrite app_nil_r.
  - apply bind_inv in E as [(e & _ & Hx) | ([] & o1 & E1 & E2)]; [discriminate |].
    rewrite (IH _ _ E2), (write_layer_arrays _ _ _ _ _ _ _ Hd E1).
    now rewrite <- List.app_assoc.
Qed.


(** X18: the arrays of a UPW file that [write_file] wrote to the end
    are, layer after layer, [hk], then [hani] if [chani] of the layer is
    below one, [vka], then in a transient simulation [ss] and for a
    convertible layer [sy], then [vkcb] if the layer has a confining bed
    below it; nothing of [laywet] is among them. *)
Theorem upw_write_file_arrays (h : host) (m : ModflowUpw grid) out :
  run_write h m = (Ok tt, out) ->
  exists d,
    dis h = Some d
    /\ entry_keys out
       = flat_map (fun k => map (fun f => (f, k))
                    (upw_layer_arrays (flag (fun c => c <? 1) (chani m) k)
                       (negb (forallb (fun b => b) (steady d)))
                       (convertible m k) (flag (fun c => 0 <? c) (laycbd d) k)))
           (seq 0 (nlay h)).
Proof.
  unfold run_write, write_file, transient_of. intros E.
  destruct (0 <? np_sum (laywet m)); [discriminate |].
  destruct (dis h) as [d|] eqn:Hd; [| discriminate].
  exists d. split; [reflexivity |].
  unfold bind at 1 2 3 4 5 6 7 8 9 in E. cbn [f_write modify ret lift] in E.
  apply (write_layers_arrays _ _ _ _ _ Hd) in E. exact E.
Qed.

Lemma for_each_ok_elem {S A} (l : list A) (body : A -> M S unit) x :
  x ∈ l -> forall s s', for_each l body s = (Ok tt, s') ->
  exists s1 s2, body x s1 = (Ok tt, s2).
Proof.
  induction l as [| y l IH]; intros Hx s s' E; [now apply not_elem_of_nil in Hx |].
  cbn [for_each] in E.
  apply bind_inv in E as [(e & _ & Hy) | ([] & s1 & E1 & E2)]; [discriminate |].
  apply elem_of_cons in Hx as [-> | Hx]; eauto.
Qed.

(** X19: a wetting flag on a convertible layer cannot be written,
    whatever its sign.  If [laywet] sums to a positive value the file is
    refused before the arrays; if not (a negative flag, or flags that cancel
    out), the loop over the layers reaches [self.laywet[k].get_file_entry()],
    which an integer does not have.  Either way [write_file] raises. *)
Theorem upw_write_file_wetting_flag_raises (h : host) (m : ModflowUpw grid) k lw r out :
  (k < nlay h)%nat -> convertible m k = true ->
  laywet m !! k = Some lw -> lw <> 0 ->
  run_write h m = (r, out) ->
  exists e, r = Raise e.
Proof.
  intros Hk Hc Hlw Hnz E. destruct r as [[] | e]; [exfalso | eauto].
  unfold run_write, write_file in E.
  do 8 (apply bind_inv in E as [(e & _ & Hx) | (? & ? & _ & E)]; [discriminate |]).
  apply bind_inv in E as [(e & _ & Hx) | (tr & o & _ & E)]; [discriminate |].
  apply (for_each_ok_elem _ _ k) in E as (o1 & o2 & E);
    [| apply elem_of_seq; lia].
  unfold write_layer in E.
  do 7 (apply bind_inv in E as [(e & _ & Hx) | (? & ? & _ & E)]; [discriminate |]).
  rewrite bind_lift in E. unfold index in E. rewrite Hlw in E.
  apply Z.eqb_neq in Hnz. rewrite Hnz in E. cbn [negb] in E.
  rewrite bind_lift in E. unfold convertible in Hc.
  destruct (laytyp m !! k) as [lt|]; [| discriminate].
  rewrite Hc in E. discriminate.
Qed.

(** X20: without a DIS package in the host model [write_file] does
    not reach the arrays: it raises [AttributeError] where it asks DIS for
    the steady flags, having written the seven pieces of text that open the
    file (if [laywet] passes the check) and no array. *)
Theorem upw_write_file_without_dis (h : host) (m : ModflowUpw grid) :
  dis h = None -> np_sum (laywet m) <= 0 ->
  exists out, run_write h m = (Raise AttributeError, out)
    /\ length out = 7%nat /\ entry_keys out = [].
Proof.
  intros Hd Hw. assert (Hb : (0 <? np_sum (laywet m)) = false) by (apply Z.ltb_ge; lia).
  unfold run_write, write_file, transient_of. rewrite Hb, Hd.
  eexists. split; [reflexivity |]. split; reflexivity.
Qed.

(** *** [load]: item 1 *)

(** X21: a UPW file that holds only comment lines, or nothing at
    all, is not loaded: [line[0]] raises [IndexError] on the empty line read
    at the end of the file, the host model untouched and no array asked
    for. *)
Theorem upw_load_only_comments_raises (cs : list string) (s : lstate) :
  Forall (fun l => is_comment l = true) cs ->
  rest s = join_lines cs ->
  load s = (Raise IndexError, set_rest "" s).
Proof.
  intros Hcs Hr. unfold load. apply bind_raise.
  unfold load_item1. apply bind_raise. now apply (header_line_only_comments cs).
Qed.

(** X22: item 1 needs its four words.  On a line with fewer, reading
    it raises [IndexError] (a word is missing) or [ValueError] (a word
    before it is not a number), and nothing was handed to the host model. *)
Theorem upw_load_item1_needs_four_words (s : lstate) line s1 :
  header_line s = (Ok line, s1) ->
  (length (strip_split line) < 4)%nat ->
  exists e, load_item1 s = (Raise e, s1)
            /\ (e = IndexError \/ e = ValueError).
Proof.
  intros E Hl. unfold load_item1. rewrite (bind_ok _ _ _ _ _ E).
  unfold int_at, float_at.
  repeat (rewrite bind_lift;
          match goal with
          | |- context [match ?x with Ok _ => _ | Raise _ => _ end] =>
              destruct x eqn:?;
              [| eexists; split;
                 [reflexivity
                 | first [eapply word_int_raises; eassumption
                         | eapply word_float_raises; eassumption]]]
          end).
  match goal with
  | Hx : match index _ 3%nat with _ => _ end = Ok _ |- _ => apply word_int_ok in Hx; lia
  end.
Qed.

(** X23: when item 1 is read, a unit number [iupwcb] other than zero
    (negative ones too) is handed to [add_pop_key_list] and replaced by 53;
    a zero is kept and nothing is handed over.  The package list and the
    array codec are not touched. *)
Theorem upw_load_item1_remaps_iupwcb (s : lstate) i s' :
  load_item1 s = (Ok i, s') ->
  exists line s1 raw,
    header_line s = (Ok line, s1)
    /\ int_at (S:=lstate) (strip_split line) 0 s1 = (Ok raw, s1)
    /\ i_iupwcb i = (if raw =? 0 then 0 else 53)
    /\ pop_key_list (hst s')
       = pop_key_list (hst s1) ++ (if raw =? 0 then [] else [raw])
    /\ packages (hst s') = packages (hst s1)
    /\ rest s' = rest s1 /\ reads s' = reads s1.
Proof.
  unfold load_item1. intros E.
  apply bind_inv in E as [(e & _ & Hx) | (line & s1 & E1 & E)]; [discriminate |].
  exists line, s1. unfold int_at, float_at in *.
  repeat (rewrite bind_lift in E;
          match type of E with
          | context [match ?x with Ok _ => _ | Raise _ => _ end] =>
              destruct x eqn:?; [| discriminate]
          end).
  eexists. split; [exact E1 |]. split; [reflexivity |].
  match type of E with context [negb (?c =? 0)] => destruct (c =? 0) eqn:Hc end;
    cbn [negb] in E.
  - apply Z.eqb_eq in Hc. subst. inversion E; subst. cbn.
    rewrite app_nil_r. repeat split.
  - inversion E; subst. cbn. repeat split.
Qed.

(** *** [load]: the flags, the arrays and the object *)

Lemma int_line_keeps_hst n : keeps hst (int_line n).
Proof. unfold int_line. keeps_auto. Qed.

Lemma float_line_keeps_hst n : keeps hst (float_line n).
Proof. unfold float_line. keeps_auto. Qed.

#[local] Hint Resolve int_line_keeps_hst float_line_keeps_hst : keeps.

Lemma load_flags_keeps_hst n : keeps hst (load_flags n).
Proof. unfold load_flags. keeps_auto. Qed.

Lemma load_one_keeps_hst pt names what k : keeps hst (load_one pt names what k).
Proof. unfold load_one. keeps_auto. Qed.

#[local] Hint Resolve load_flags_keeps_hst load_one_keeps_hst : keeps.

Lemma load_layer_keeps_hst pt tr c lt k : keeps hst (load_layer pt tr c lt k).
Proof. unfold load_layer, host_laycbd. keeps_auto. Qed.

(** Item 1 changes nothing of the host model but the list of unit
    numbers. *)
Lemma load_item1_host (s : lstate) r s' :
  load_item1 s = (r, s') ->
  nlay (hst s') = nlay (hst s) /\ nrow (hst s') = nrow (hst s)
  /\ ncol (hst s') = ncol (hst s) /\ dis (hst s') = dis (hst s)
  /\ packages (hst s') = packages (hst s).
Proof.
  unfold load_item1. intros E.
  apply bind_inv in E as [(e & E & _) | (line & s1 & E1 & E)].
  - now rewrite (header_line_keeps_hst _ _ _ E).
  - rewrite <- (header_line_keeps_hst _ _ _ E1). revert E.
    unfold int_at, float_at.
    repeat (rewrite bind_lift;
            match goal with
            | |- context [match ?x with Ok _ => _ | Raise _ => _ end] =>
                destruct x; [| intros E; now inversion E]
            end).
    match goal with |- context [negb ?b] => destruct b end; cbn [negb];
      intros E; inversion E; subst; cbn; auto.
Qed.

(** The constructor returns exactly when the eleven arrays have the
    declared shapes; it then registers the package and stores the arrays. *)
Lemma upw_init_inv (a : args grid) (h : host) r h' :
  init a h = (r, h') ->
  match r with
  | Raise _ => h' = h
  | Ok m =>
      let n := Z.of_nat (nlay h) in
      util_1d n (a_laytyp a) = Ok (laytyp m)
      /\ util_1d n (a_layavg a) = Ok (layavg m)
      /\ util_1d n (chani_arg (a_chani a)) = Ok (chani m)
      /\ util_1d n (a_layvka a) = Ok (layvka m)
      /\ util_1d n (a_laywet a) = Ok (laywet m)
      /\ iupwcb m = a_iupwcb a /\ hdry m = a_hdry a /\ iphdry m = a_iphdry a
      /\ npupw m = 0
      /\ packages h' = packages h ++ ["UPW"]
      /\ pop_key_list h' = pop_key_list h
  end.
Proof.
  unfold init, bind, gets, lift, add_package, modify, ret.
  repeat match goal with
         | |- context [match ?x with Ok _ => _ | Raise _ => _ end] =>
             destruct x; [| intros E; now inversion E]
         end.
  intros E. inversion E; subst. cbn. repeat split.
Qed.

(** [load] in its three parts. *)
Lemma load_inv (s : lstate) m s' :
  load s = (Ok m, s') ->
  exists i s1 fl s2,
    load_item1 s = (Ok i, s1)
    /\ load_flags (nlay (hst s)) s1 = (Ok fl, s2)
    /\ load_arrays (nlay (hst s)) i fl s2 = (Ok m, s').
Proof.
  unfold load. intros E.
  apply bind_inv in E as [(e & _ & Hx) | (i & s1 & E1 & E)]; [discriminate |].
  unfold bind at 1 in E. cbn [gets] in E.
  apply bind_inv in E as [(e & _ & Hx) | (fl & s2 & E2 & E)]; [discriminate |].
  destruct (load_item1_host _ _ _ E1) as (Hn & _).
  rewrite Hn in E2, E. eauto 10.
Qed.

(** The rest of [load] when it returns: the wetting check passed, no
    parameter was declared, DIS gave the steady flags, the loop over the
    layers returned with the host model as it was, and the constructor
    returned. *)
Lemma load_arrays_inv n i fl (s : lstate) m s' :
  load_arrays n i fl s = (Ok m, s') ->
  np_sum (f_laywet fl) <= 0 /\ i_npupw i <= 0
  /\ exists d, dis (hst s) = Some d
  /\ exists l s1,
       collect (seq 0 n)
         (load_layer [] (negb (forallb (fun b => b) (steady d))) (f_chani fl)
                     (f_laytyp fl)) s = (Ok l, s1)
       /\ hst s1 = hst s
       /\ on_host (init {|
            a_laytyp := A1List (f_laytyp fl); a_layavg := A1List (f_layavg fl);
            a_chani := AFList (f_chani fl); a_layvka := A1List (f_layvka fl);
            a_laywet := A1List (f_laywet fl); a_iupwcb := i_iupwcb i;
            a_hdry := i_hdry i; a_iphdry := i_iphdry i;
            a_hk := A3List (map (fun q => q.1.1.1.1.1) l);
            a_hani := A3List (map (fun q => q.1.1.1.1.2) l);
            a_vka := A3List (map (fun q => q.1.1.1.2) l);
            a_ss := A3List (map (fun q => q.1.1.2) l);
            a_sy := A3List (map (fun q => q.1.2) l);
            a_vkcb := A3List (map (fun q => q.2) l);
            a_noparcheck := i_noparcheck i |}) s1 = (Ok m, s').
Proof.
  unfold load_arrays. intros E.
  destruct (0 <? np_sum (f_laywet fl)) eqn:Hw; [discriminate |].
  destruct (0 <? i_npupw i) eqn:Hp; [discriminate |].
  apply Z.ltb_ge in Hw, Hp. split; [assumption |]. split; [assumption |].
  unfold bind at 1 2 in E. cbn [ret] in E.
  unfold host_transient, transient_of in E. unfold bind at 1 2 in E. cbn [gets lift] in E.
  destruct (dis (hst s)) as [d|]; [| discriminate]. exists d. split; [reflexivity |].
  apply bind_inv in E as [(e & _ & Hx) | (l & s1 & E1 & E)]; [discriminate |].
  exists l, s1. split; [assumption |]. split; [| assumption].
  revert E1. generalize (seq 0 n) as ks. intros ks E1.
  assert (Hk : keeps hst (collect ks
            (load_layer [] (negb (forallb (fun b => b) (steady d))) (f_chani fl)
                        (f_laytyp fl))))
    by (apply keeps_collect; intros k; apply load_layer_keeps_hst).
  exact (Hk _ _ _ E1).
Qed.

Lemma util_1d_list n l l' : util_1d n (A1List l) = Ok l' -> l' = l /\ length l = Z.to_nat n.
Proof.
  cbn [util_1d]. case_bool_decide as Hl; [| discriminate].
  intros E. inversion E; subst. split; [reflexivity | assumption].
Qed.

(** X24: what the object that [load] returns holds.  The four integer
    flag vectors are those of the file and have one entry per layer; [chani]
    is the line of the file cast to integers, so a horizontal anisotropy
    that is not a whole number is not kept; [npupw] is zero whatever the
    file said; [iupwcb], [hdry] and [iphdry] are those of item 1. *)
Theorem upw_load_stores_flags (s : lstate) m s' :
  load s = (Ok m, s') ->
  exists i s1 fl s2,
    load_item1 s = (Ok i, s1)
    /\ load_flags (nlay (hst s)) s1 = (Ok fl, s2)
    /\ laytyp m = f_laytyp fl /\ layavg m = f_layavg fl
    /\ chani m = map float_to_int (f_chani fl)
    /\ layvka m = f_layvka fl /\ laywet m = f_laywet fl
    /\ length (laytyp m) = nlay (hst s) /\ length (chani m) = nlay (hst s)
    /\ length (laywet m) = nlay (hst s)
    /\ length (layavg m) = nlay (hst s) /\ length (layvka m) = nlay (hst s)
    /\ npupw m = 0
    /\ iupwcb m = i_iupwcb i /\ hdry m = i_hdry i /\ iphdry m = i_iphdry i.
Proof.
  intros E. destruct (load_inv _ _ _ E) as (i & s1 & fl & s2 & E1 & E2 & E3).
  exists i, s1, fl, s2. split; [assumption |]. split; [assumption |].
  destruct (load_item1_host _ _ _ E1) as (Hn & _).
  pose proof (load_flags_keeps_hst _ _ _ _ E2) as Hh.
  apply load_arrays_inv in E3 as (_ & _ & _ & _ & l & s3 & _ & Hh3 & E3).
  unfold on_host in E3. rewrite Hh3 in E3. destruct (init _ _) as [r0 h0] eqn:Ei.
  inversion E3; subst r0. clear E3. apply upw_init_inv in Ei.
  cbn [a_laytyp a_layavg a_chani a_layvka a_laywet a_iupwcb a_hdry a_iphdry chani_arg] in Ei.
  destruct Ei as (T1 & T2 & T3 & T4 & T5 & -> & -> & -> & -> & _).
  apply util_1d_list in T1 as [-> L1]. apply util_1d_list in T2 as [-> L2].
  apply util_1d_list in T3 as [-> L3]. apply util_1d_list in T4 as [-> L4].
  apply util_1d_list in T5 as [-> L5].
  rewrite Hh, Hn, Nat2Z.id in L1, L2, L3, L4, L5.
  repeat split; assumption.
Qed.

Lemma load_one_reads names what k (s : lstate) (g : grid) s' :
  load_one [] names what k s = (Ok g, s') ->
  reads s' = reads s ++ [what] /\ hst s' = hst s.
Proof.
  unfold load_one.
  assert (Hn : forallb (fun nm : string => negb (bool_decide (nm ∈ @nil string))) names
               = true).
  { induction names as [| nm names IH]; [reflexivity |]. cbn [forallb].
    rewrite IH, bool_decide_eq_false_2; [reflexivity | apply not_elem_of_nil]. }
  rewrite Hn. intros E. split; [| exact (load_array_keeps_hst _ _ _ _ _ E)].
  unfold load_array in E. destruct (util_2d_load _ _ _ _ _ _) as [[g' r]|]; [| discriminate].
  now inversion E.
Qed.

(** What the loop over the layers asks from the array codec for layer [k]
    when it returns. *)
Lemma load_layer_reads d tr (chani : list pyfloat) (laytyp : list Z) k (s : lstate) q s' :
  dis (hst s) = Some d ->
  load_layer [] tr chani laytyp k s = (Ok q, s') ->
  reads s'
  = reads s ++ upw_layer_arrays (flag lt_one chani k) tr
                 (flag (fun t => negb (t =? 0)) laytyp k)
                 (flag (fun c => 0 <? c) (laycbd d) k)
  /\ hst s' = hst s.
Proof.
  intros Hd E. unfold load_layer in E. unfold flag.
  apply bind_inv in E as [(e & _ & Hx) | (g1 & s1 & E1 & E)]; [discriminate |].
  apply load_one_reads in E1 as [R1 H1].
  rewrite bind_lift in E. unfold index in E.
  destruct (chani !! k) as [c|]; [| discriminate].
  apply bind_inv in E as [(e & _ & Hx) | (g2 & s2 & E2 & E)]; [discriminate |].
  assert (R2 : reads s2 = reads s1 ++ (if lt_one c then ["hani"] else [])
               /\ hst s2 = hst s1).
  { destruct (lt_one c).
    - apply bind_inv in E2 as [(e & _ & Hx) | (g & s0 & E0 & E2)]; [discriminate |].
      apply load_one_reads in E0. now inversion E2; subst.
    - inversion E2; subst. now rewrite app_nil_r. }
  destruct R2 as [R2 H2]. clear E2.
  apply bind_inv in E as [(e & _ & Hx) | (g3 & s3 & E3 & E)]; [discriminate |].
  apply load_one_reads in E3 as [R3 H3].
  apply bind_inv in E as [(e & _ & Hx) | (g4 & s4 & E4 & E)]; [discriminate |].
  assert (R4 : reads s4
               = reads s3 ++ (if tr
                              then ["ss"] ++ (if match laytyp !! k with
                                                 | Some t => negb (t =? 0)
                                                 | None => false
                                                 end then ["sy"] else [])
                              else [])
               /\ hst s4 = hst s3).
  { destruct tr.
    - apply bind_inv in E4 as [(e & _ & Hx) | (g & s0 & E0 & E4)]; [discriminate |].
      apply load_one_reads in E0 as [R0 H0].
      rewrite bind_lift in E4. unfold index in E4.
      destruct (laytyp !! k) as [t|]; [| discriminate].
      destruct (negb (t =? 0)).
      + apply bind_inv in E4 as [(e & _ & Hx) | (g' & s0' & E0' & E4)]; [discriminate |].
        apply load_one_reads in E0' as [R0' H0']. inversion E4; subst.
        rewrite R0', R0, H0', H0. now rewrite <- List.app_assoc.
      + inversion E4; subst. now rewrite R0, H0.
    - inversion E4; subst. now rewrite app_nil_r. }
  destruct R4 as [R4 H4]. clear E4.
  apply bind_inv in E as [(e & _ & Hx) | (cb & s5 & E5 & E)]; [discriminate |].
  unfold host_laycbd, laycbd_at in E5. unfold bind at 1 in E5. cbn [gets lift] in E5.
  rewrite H4, H3, H2, H1, Hd in E5. unfold index in E5.
  destruct (laycbd d !! k) as [cb'|]; [| discriminate]. inversion E5; subst cb' s5.
  apply bind_inv in E as [(e & _ & Hx) | (g6 & s6 & E6 & E)]; [discriminate |].
  assert (R6 : reads s6 = reads s4 ++ (if 0 <? cb then ["vkcb"] else [])
               /\ hst s6 = hst s4).
  { destruct (0 <? cb).
    - apply bind_inv in E6 as [(e & _ & Hx) | (g & s0 & E0 & E6)]; [discriminate |].
      apply load_one_reads in E0. now inversion E6; subst.
    - inversion E6; subst. now rewrite app_nil_r. }
  destruct R6 as [R6 H6]. inversion E; subst s'.
  split; [| congruence].
  rewrite R6, R4, R3, R2, R1. unfold upw_layer_arrays.
  now rewrite <- !List.app_assoc.
Qed.

Lemma load_layers_reads d tr (chani : list pyfloat) (laytyp : list Z) (ks : list nat) :
  forall (s : lstate) l s',
    dis (hst s) = Some d ->
    collect ks (load_layer [] tr chani laytyp) s = (Ok l, s') ->
    reads s'
    = reads s ++ flat_map (fun k => upw_layer_arrays (flag lt_one chani k) tr
                                      (flag (fun t => negb (t =? 0)) laytyp k)
                                      (flag (fun c => 0 <? c) (laycbd d) k)) ks.
Proof.
  induction ks as [| k ks IH]; intros s l s' Hd E; cbn [collect flat_map] in *.
  - inversion E. now rewrite app_nil_r.
  - apply bind_inv in E as [(e & _ & Hx) | (q & s1 & E1 & E)]; [discriminate |].
    apply bind_inv in E as [(e & _ & Hx) | (qs & s2 & E2 & E)]; [discriminate |].
    destruct (load_layer_reads _ _ _ _ _ _ _ _ Hd E1) as [Rk Hk].
    inversion E; subst s'.
    rewrite (IH _ _ _ (eq_trans (f_equal dis Hk) Hd) E2), Rk.
    now rewrite <- List.app_assoc.
Qed.

(** X25: a [load] that returns has asked the array codec for the
    arrays of the layers in the order in which [write_file] writes them:
    layer after layer [hk], [hani] if the [chani] read from the file is
    below one, [vka], in a transient simulation [ss] and for a convertible
    layer [sy], and [vkcb] if the layer has a confining bed; every label is
    the bare name of the array. *)
Theorem upw_load_asks_arrays_in_order (s : lstate) m s' :
  load s = (Ok m, s') ->
  exists i s1 fl s2 d,
    load_item1 s = (Ok i, s1)
    /\ load_flags (nlay (hst s)) s1 = (Ok fl, s2)
    /\ dis (hst s) = Some d
    /\ reads s'
       = reads s
         ++ flat_map (fun k => upw_layer_arrays (flag lt_one (f_chani fl) k)
                                 (negb (forallb (fun b => b) (steady d)))
                                 (flag (fun t => negb (t =? 0)) (f_laytyp fl) k)
                                 (flag (fun c => 0 <? c) (laycbd d) k))
             (seq 0 (nlay (hst s))).
Proof.
  intros E. destruct (load_inv _ _ _ E) as (i & s1 & fl & s2 & E1 & E2 & E3).
  destruct (load_item1_host _ _ _ E1) as (_ & _ & _ & Hd1 & _).
  pose proof (load_flags_keeps_hst _ _ _ _ E2) as Hh2.
  apply load_arrays_inv in E3 as (_ & _ & d & Hd & l & s3 & E3 & _ & E4).
  exists i, s1, fl, s2, d. split; [assumption |]. split; [assumption |].
  split; [now rewrite <- Hd1, <- Hh2 |].
  rewrite (on_host_keeps_reads _ _ _ _ E4).
  rewrite (load_layers_reads _ _ _ _ _ _ _ _ Hd E3).
  rewrite (UpwFacts.load_flags_keeps_reads _ _ _ _ E2).
  now rewrite (UpwFacts.load_item1_keeps_reads _ _ _ E1).
Qed.

(** X26: [load] registers the package exactly when it returns.  A
    load that fails, at whatever point, leaves the package list of the host
    model as it was; one that returns has added [UPW] to it, in the
    constructor it calls last. *)
Theorem upw_load_registers_on_return (s : lstate) r s' :
  load s = (r, s') ->
  match r with
  | Raise _ => packages (hst s') = packages (hst s)
  | Ok _ => packages (hst s') = packages (hst s) ++ ["UPW"]
  end.
Proof.
  change (packages (hst s')) with (pkgs s'). change (packages (hst s)) with (pkgs s).
  revert s r s'.
  pose (P := fun (r : result (ModflowUpw grid)) (x x' : list string) =>
               match r with Raise _ => x' = x | Ok _ => x' = x ++ ["UPW"] end).
  change (forall s r s', load s = (r, s') -> P r (pkgs s) (pkgs s')).
  unfold load, load_arrays.
  repeat (apply (bind_keeps_then pkgs P);
          [solve [unfold load_item1, load_flags, int_line, float_line, host_transient,
                    load_layer, load_one, host_laycbd; keeps_auto]
          | intros ? | intros; reflexivity]).
  intros s r s' E. unfold on_host in E. destruct (init _ _) as [r0 h0] eqn:Ei.
  inversion E; subst r0 s'. clear E. apply upw_init_inv in Ei.
  unfold P, pkgs. cbn [hst].
  destruct r as [m | e].
  - destruct Ei as (_ & _ & _ & _ & _ & _ & _ & _ & _ & Hp & _). exact Hp.
  - now rewrite Ei.
Qed.

(** X27: without a DIS package in the host model [load] does not
    reach the arrays either: once item 1 and the five flag lines are read
    and passed, it raises [AttributeError] where it asks DIS for the steady
    flags, with no array asked from the array codec and no package
    registered. *)
Theorem upw_load_without_dis (s : lstate) i s1 fl s2 :
  load_item1 s = (Ok i, s1) ->
  load_flags (nlay (hst s1)) s1 = (Ok fl, s2) ->
  np_sum (f_laywet fl) <= 0 -> i_npupw i <= 0 ->
  dis (hst s) = None ->
  load s = (Raise AttributeError, s2)
  /\ reads s2 = reads s /\ packages (hst s2) = packages (hst s).
Proof.
  intros E1 E2 Hw Hp Hd.
  destruct (load_item1_host _ _ _ E1) as (_ & _ & _ & Hd1 & Hp1).
  pose proof (load_flags_keeps_hst _ _ _ _ E2) as Hh2.
  split; [| split].
  - rewrite (UpwFacts.load_after_flags _ _ _ _ _ E1 E2). unfold load_arrays.
    assert (Hw' : (0 <? np_sum (f_laywet fl)) = false) by (apply Z.ltb_ge; lia).
    assert (Hp' : (0 <? i_npupw i) = false) by (apply Z.ltb_ge; lia).
    rewrite Hw', Hp'. unfold bind at 1 2. cbn [ret].
    unfold host_transient, transient_of. unfold bind at 1 2. cbn [gets lift].
    now rewrite Hh2, Hd1, Hd.
  - rewrite (UpwFacts.load_flags_keeps_reads _ _ _ _ E2).
    exact (UpwFacts.load_item1_keeps_reads _ _ _ E1).
  - now rewrite Hh2.
Qed.
End WithGrid.
End UpwMore.

(** ** The further theorems at work on the sample inputs *)

Module MoreWitnesses.
Import ConstCodec Samples.

Lemma header_line_skips_comments_witness :
  header_line (load_state (join_lines ["# SUB"; "#"; "0 1"; "2"]) (host1 3 true))
  = (Ok ("0 1" +:+ nl),
     set_rest ("2" +:+ nl)
       (load_state (join_lines ["# SUB"; "#"; "0 1"; "2"]) (host1 3 true))).
Proof.
  apply (header_line_skips_comments ["# SUB"; "#"] "0"%char " 1" ("2" +:+ nl)).
  - repeat constructor.
  - discriminate.
  - reflexivity.
  - reflexivity.
Defined.

Lemma sub_load_only_comments_raises_witness :
  Sub.load (load_state (join_lines ["# SUB"; "# no data"]) (host1 3 true))
  = (Raise IndexError,
     set_rest "" (load_state (join_lines ["# SUB"; "# no data"]) (host1 3 true))).
Proof.
  apply (SubMore.sub_load_only_comments_raises ["# SUB"; "# no data"]).
  - repeat constructor.
  - reflexivity.
Defined.

Lemma load_dataset1_needs_eleven_words_witness :
  exists e,
    Sub.load_dataset1 ("0 0 1 1 1 200.0 0.2 5 0 0" +:+ nl) (load_state "" (host1 3 true))
    = (Raise e, load_state "" (host1 3 true))
    /\ (e = IndexError \/ e = ValueError).
Proof.
  apply (SubMore.load_dataset1_needs_eleven_words ("0 0 1 1 1 200.0 0.2 5 0 0" +:+ nl)).
  vm_compute. lia.
Defined.

Lemma load_dataset1_remaps_units_witness :
  exists d s',
    Sub.load_dataset1 sub_header_units (restart_state "") = (Ok d, s')
    /\ Sub.d_isubcb d = 53 /\ Sub.d_idsave d = 2052 /\ Sub.d_idrest d = 2053
    /\ exists isubcb idsave idrest,
         int_at (S:=lstate) (strip_split sub_header_units) 0 (restart_state "")
         = (Ok isubcb, restart_state "")
         /\ int_at (S:=lstate) (strip_split sub_header_units) 9 (restart_state "")
            = (Ok idsave, restart_state "")
         /\ int_at (S:=lstate) (strip_split sub_header_units) 10 (restart_state "")
            = (Ok idrest, restart_state "")
         /\ Sub.d_isubcb d = (if 0 <? isubcb then 53 else isubcb)
         /\ Sub.d_idsave d = (if 0 <? idsave then 2052 else idsave)
         /\ Sub.d_idrest d = (if 0 <? idrest then 2053 else idrest)
         /\ (idrest <= 0 -> s' = restart_state "")
         /\ (0 < idrest ->
             exists dict v,
               eud (restart_state "") = Some dict /\ dict !! idrest = Some v
               /\ eud s' = Some (<[2053 := v]> (delete idrest dict))
               /\ (idrest <> 2053 ->
                   forall dict', eud s' = Some dict' -> dict' !! idrest = None)
               /\ (forall dict', eud s' = Some dict' -> dict' !! 2053 = Some v)
               /\ rest s' = rest (restart_state "")
               /\ hst s' = hst (restart_state "")
               /\ reads s' = reads (restart_state "")).
Proof.
  eexists. eexists. split; [vm_compute; reflexivity |].
  split; [reflexivity |]. split; [reflexivity |]. split; [reflexivity |].
  apply (SubMore.load_dataset1_remaps_units sub_header_units (restart_state "")).
  vm_compute. reflexivity.
Defined.

Lemma load_dataset1_needs_restart_unit_witness :
  exists d s',
    Sub.load_dataset1 sub_header_units (restart_state "") = (Ok d, s')
    /\ exists old,
         0 < old
         /\ int_at (S:=lstate) (strip_split sub_header_units) 10 (restart_state "")
            = (Ok old, restart_state "")
         /\ forall s : lstate,
              (eud s = None -> Sub.load_dataset1 sub_header_units s
                               = (Raise AttributeError, s))
              /\ (forall dict, eud s = Some dict -> dict !! old = None ->
                               Sub.load_dataset1 sub_header_units s
                               = (Raise KeyError, s)).
Proof.
  eexists. eexists. split; [vm_compute; reflexivity |].
  eapply (SubMore.load_dataset1_needs_restart_unit sub_header_units (restart_state "")).
  - vm_compute. reflexivity.
  - reflexivity.
Defined.

Lemma layers_written_then_loaded_witness :
  Sub.load_layers 2 (load_state ("1 3 " +:+ nl +:+ "rest") (host1 3 true))
  = (Ok (Some [0; 2]),
     set_rest "rest" (load_state ("1 3 " +:+ nl +:+ "rest") (host1 3 true))).
Proof.
  apply (SubMore.layers_written_then_loaded [0; 2]
           {| Sub.out := []; Sub.self := sub_object 0 |}
           (Sub.write_layers (Some [0; 2]) {| Sub.out := []; Sub.self := sub_object 0 |}).2
           "rest").
  - vm_compute. reflexivity.
  - discriminate.
  - repeat constructor.
  - vm_compute. reflexivity.
Defined.

Lemma ids16_row_written_then_loaded_witness :
  Sub.load_ids16_row
    (load_state ("1 3 1 10000 1 1 1 1 1 1 1 1 1 1 1 1 1   #dataset 16 isuboc 1" +:+ nl)
       (host1 3 true))
  = (Ok [0; 2; 0; 9999; 1; 1; 1; 1; 1; 1; 1; 1; 1; 1; 1; 1; 1],
     set_rest ""
       (load_state ("1 3 1 10000 1 1 1 1 1 1 1 1 1 1 1 1 1   #dataset 16 isuboc 1" +:+ nl)
          (host1 3 true))).
Proof.
  apply (SubMore.ids16_row_written_then_loaded 0
           [[0; 2; 0; 9999; 1; 1; 1; 1; 1; 1; 1; 1; 1; 1; 1; 1; 1]]
           [0; 2; 0; 9999; 1; 1; 1; 1; 1; 1; 1; 1; 1; 1; 1; 1; 1]
           {| Sub.out := []; Sub.self := sub_object 1 |}
           (Sub.write_dataset16_row 0 {| Sub.out := []; Sub.self := sub_object 1 |}).2
           "").
  - reflexivity.
  - reflexivity.
  - reflexivity.
  - repeat constructor.
  - vm_compute. reflexivity.
  - vm_compute. reflexivity.
Defined.

Lemma load_ids15_units_witness :
  exists v s',
    Sub.load_ids15 (load_state ("0 7 0 8 0 9 0 10 0 11 0 12" +:+ nl) (host1 3 true))
    = (Ok v, s')
    /\ v = [0; 2051; 0; 2051; 0; 2051; 0; 2051; 0; 2051; 0; 2051]
    /\ pop_key_list (hst s') = [7; 8; 9; 10; 11; 12]
    /\ exists f0 u1 f2 u3 f4 u5 f6 u7 f8 u9 f10 u11 s1,
         read1d 12 (load_state ("0 7 0 8 0 9 0 10 0 11 0 12" +:+ nl) (host1 3 true))
         = (Ok [f0; u1; f2; u3; f4; u5; f6; u7; f8; u9; f10; u11], s1)
         /\ v = [f0; 2051; f2; 2051; f4; 2051; f6; 2051; f8; 2051; f10; 2051]
         /\ pop_key_list (hst s')
            = pop_key_list (host1 3 true) ++ [u1; u3; u5; u7; u9; u11]
         /\ packages (hst s') = packages (host1 3 true)
         /\ rest s' = rest s1 /\ reads s' = [].
Proof.
  eexists. eexists. split; [vm_compute; reflexivity |].
  split; [reflexivity |]. split; [reflexivity |].
  apply (SubMore.load_ids15_units
           (load_state ("0 7 0 8 0 9 0 10 0 11 0 12" +:+ nl) (host1 3 true))).
  vm_compute. reflexivity.
Defined.

Lemma write_file_flat_dp_raises_witness :
  exists e,
    (Sub.write_file {| Sub.out := []; Sub.self := sub_default_object |}).1 = Raise e.
Proof.
  apply (SubMore.write_file_flat_dp_raises
           {| Sub.out := []; Sub.self := sub_default_object |}
           [Fin false 1 (-6); Fin false 6 (-6); Fin false 6 (-4)]
           (Sub.write_file {| Sub.out := []; Sub.self := sub_default_object |}).1
           (Sub.write_file {| Sub.out := []; Sub.self := sub_default_object |}).2).
  - vm_compute. reflexivity.
  - vm_compute. reflexivity.
  - vm_compute. reflexivity.
  - vm_compute. reflexivity.
Defined.

Lemma write_file_keeps_object_without_output_witness :
  Sub.self (sub_written 0) = sub_object 0.
Proof.
  apply (SubMore.write_file_keeps_object_without_output
           {| Sub.out := []; Sub.self := sub_object 0 |} (Ok tt) (sub_written 0)).
  - vm_compute. discriminate.
  - vm_compute. reflexivity.
Defined.

Lemma write_file_shifts_rows_below_isuboc_witness :
  exists rows',
    Sub.self (sub_written 1) = Sub.set_ids16 rows' (sub_object 1)
    /\ length rows' = 1%nat
    /\ (Z.to_nat (Sub.isuboc (sub_object 1)) <= 1)%nat
    /\ forall k,
         rows' !! k
         = if bool_decide (k < Z.to_nat (Sub.isuboc (sub_object 1)))%nat
           then shift_first4 1
                  <$> [[0; 2; 0; 9999; 1; 1; 1; 1; 1; 1; 1; 1; 1; 1; 1; 1; 1]] !! k
           else [[0; 2; 0; 9999; 1; 1; 1; 1; 1; 1; 1; 1; 1; 1; 1; 1; 1]] !! k.
Proof.
  apply (SubMore.write_file_shifts_rows_below_isuboc
           {| Sub.out := []; Sub.self := sub_object 1 |} (sub_written 1)
           [[0; 2; 0; 9999; 1; 1; 1; 1; 1; 1; 1; 1; 1; 1; 1; 1; 1]]).
  - vm_compute. reflexivity.
  - reflexivity.
  - reflexivity.
Defined.

Lemma init_ids15_units_witness :
  (0 < Sub.a_isuboc (sub_args 1 1) ->
   (exists l, Sub.ids15 (sub_object 1) = Some l
      /\ (12 <= length (replicate 12 0))%nat
      /\ forall i, l !! i = if Nat.odd i && (i <? 12)%nat then Some 2051
                            else replicate 12 0 !! i)
   /\ exists rows, Sub.ids16 (sub_object 1) = Some rows)
  /\ (Sub.a_isuboc (sub_args 1 1) <= 0 ->
      Sub.ids15 (sub_object 1) = None /\ Sub.ids16 (sub_object 1) = None).
Proof.
  apply (SubMore.init_ids15_units (sub_args 1 1) (host1 3 true) (sub_object 1)
           (Sub.init (sub_args 1 1) (host1 3 true)).2).
  vm_compute. reflexivity.
Defined.

Lemma init_flat_ids16_raises_witness :
  Sub.init sub_args_flat_ids16 (host1 3 true) = (Raise NameError, host1 3 true).
Proof.
  destruct (SubMore.init_flat_ids16_raises sub_args_flat_ids16 (host1 3 true)
              [0; 2; 0; 9999; 1; 1; 1; 1; 1; 1; 1; 1; 1; 1; 1; 1; 1]
              (Sub.init sub_args_flat_ids16 (host1 3 true)).1
              (Sub.init sub_args_flat_ids16 (host1 3 true)).2)
    as (_ & Hh & Hr).
  - reflexivity.
  - reflexivity.
  - vm_compute. reflexivity.
  - rewrite (surjective_pairing (Sub.init sub_args_flat_ids16 (host1 3 true))).
    rewrite Hh, Hr; [reflexivity | reflexivity | reflexivity | vm_compute; lia].
Defined.

Lemma sub_write_file_arrays_witness :
  entry_keys (Sub.out (sub_written 1))
  = [("rnb", 0%nat); ("hc", 0%nat); ("sfe", 0%nat); ("sfv", 0%nat); ("com", 0%nat);
     ("dstart", 0%nat); ("dhc", 0%nat); ("dcom", 0%nat); ("dz", 0%nat); ("nz", 0%nat)].
Proof.
  apply (SubMore.sub_write_file_arrays
           {| Sub.out := []; Sub.self := sub_object 1 |} (sub_written 1)).
  vm_compute. reflexivity.
Defined.

Lemma sub_load_asks_arrays_in_order_witness :
  exists m s',
    Sub.load (load_state sub_file (host1 3 true)) = (Ok m, s')
    /\ map first_word (reads s')
       = ["rnb"; "hc"; "sfe"; "sfv"; "com"; "dstart"; "dhc"; "dcom"; "dz"; "nz"]
    /\ map first_word (reads s')
       = map first_word (reads (load_state sub_file (host1 3 true)))
         ++ map fst (sub_arrays (Sub.nndb m) (Sub.ndb m)).
Proof.
  eexists. eexists. split; [vm_compute; reflexivity |].
  split; [vm_compute; reflexivity |].
  apply (SubMore.sub_load_asks_arrays_in_order (load_state sub_file (host1 3 true))).
  vm_compute. reflexivity.
Defined.

Lemma load_verbose_output_without_interbeds_witness :
  exists s2,
    Sub.load (load_state sub_file_output_only host_verbose) = (Raise NameError, s2)
    /\ reads s2 = [] /\ hst s2 = host_verbose.
Proof.
  eexists.
  destruct (SubMore.load_verbose_output_without_interbeds (grid:=grid)
              (load_state sub_file_output_only host_verbose)
              ("0 1 0 0 1 20 0.0 0.2 5 0 0" +:+ nl)
              (header_line (load_state sub_file_output_only host_verbose)).2
              {| Sub.d_isubcb := 0; Sub.d_isuboc := 1; Sub.d_nndb := 0; Sub.d_ndb := 0;
                 Sub.d_nmz := 1; Sub.d_nn := 20; Sub.d_ac1 := Fin false 0 0;
                 Sub.d_ac2 := Fin false 2 (-1); Sub.d_itmin := 5; Sub.d_idsave := 0;
                 Sub.d_idrest := 0 |}
              (header_line (load_state sub_file_output_only host_verbose)).2)
    as (Hl & _ & Hr & Hh).
  - vm_compute. reflexivity.
  - vm_compute. reflexivity.
  - reflexivity.
  - reflexivity.
  - vm_compute. discriminate.
  - vm_compute. discriminate.
  - split; [exact Hl |]. split; [exact Hr | exact Hh].
Defined.

Lemma load_units_are_declared_witness :
  exists m s',
    Sub.load (load_state sub_file (host1 3 true)) = (Ok m, s')
    /\ Sub.unit_number m = [32; 2051]
    /\ Sub.unit_number m
       = [32] ++ (if 0 <? Sub.isuboc m then [2051] else [])
         ++ (if 0 <? Sub.idsave m then [2052] else [])
    /\ (0 < Sub.idsave m -> Sub.idsave m = 2052)
    /\ (0 < Sub.isuboc m ->
        exists l, Sub.ids15 m = Some l
          /\ forall i, (i < 12)%nat -> Nat.odd i = true -> l !! i = Some 2051)
    /\ length (Sub.name m) = length (Sub.unit_number m)
    /\ length (Sub.extension m) = length (Sub.unit_number m)
    /\ length (Sub.extra m) = length (Sub.unit_number m).
Proof.
  eexists. eexists. split; [vm_compute; reflexivity |].
  split; [reflexivity |].
  eapply (SubMore.load_units_are_declared (load_state sub_file (host1 3 true))).
  vm_compute. reflexivity.
Defined.

Lemma upw_write_file_arrays_witness :
  exists d,
    dis (host1 3 false) = Some d
    /\ entry_keys (Upw.run_write (host1 3 false) (upw_object 0)).2
       = flat_map (fun k => map (fun f => (f, k))
                    (upw_layer_arrays (flag (fun c => c <? 1) (Upw.chani (upw_object 0)) k)
                       (negb (forallb (fun b => b) (steady d)))
                       (Upw.convertible (upw_object 0) k)
                       (flag (fun c => 0 <? c) (laycbd d) k)))
           (seq 0 (nlay (host1 3 false))).
Proof.
  apply (UpwMore.upw_write_file_arrays (host1 3 false) (upw_object 0)).
  vm_compute. reflexivity.
Defined.

Lemma upw_write_file_wetting_flag_raises_witness :
  exists e, (Upw.run_write (host1 3 false) (upw_object (-1))).1 = Raise e.
Proof.
  apply (UpwMore.upw_write_file_wetting_flag_raises (host1 3 false) (upw_object (-1))
           0%nat (-1)
           (Upw.run_write (host1 3 false) (upw_object (-1))).1
           (Upw.run_write (host1 3 false) (upw_object (-1))).2).
  - vm_compute. lia.
  - reflexivity.
  - reflexivity.
  - discriminate.
  - vm_compute. reflexivity.
Defined.

Lemma upw_write_file_without_dis_witness :
  exists out, Upw.run_write host_no_dis (upw_object 0) = (Raise AttributeError, out)
    /\ length out = 7%nat /\ entry_keys out = [].
Proof.
  apply (UpwMore.upw_write_file_without_dis host_no_dis (upw_object 0)).
  - reflexivity.
  - vm_compute. discriminate.
Defined.

Lemma upw_load_only_comments_raises_witness :
  Upw.load (load_state (join_lines ["# UPW"]) (host1 3 false))
  = (Raise IndexError, set_rest "" (load_state (join_lines ["# UPW"]) (host1 3 false))).
Proof.
  apply (UpwMore.upw_load_only_comments_raises ["# UPW"]).
  - repeat constructor.
  - reflexivity.
Defined.

Lemma upw_load_item1_needs_four_words_witness :
  exists e,
    Upw.load_item1 (load_state (join_lines ["# UPW"; "  0  -1E+30  0"]) (host1 3 false))
    = (Raise e, load_state "" (host1 3 false))
    /\ (e = IndexError \/ e = ValueError).
Proof.
  apply (UpwMore.upw_load_item1_needs_four_words
           (load_state (join_lines ["# UPW"; "  0  -1E+30  0"]) (host1 3 false))
           ("  0  -1E+30  0" +:+ nl)).
  - vm_compute. reflexivity.
  - vm_compute. lia.
Defined.

Lemma upw_load_item1_remaps_iupwcb_witness :
  exists i s',
    Upw.load_item1 (load_state (join_lines ["# UPW"; " -5  -1E+30  0  0"]) (host1 3 false))
    = (Ok i, s')
    /\ Upw.i_iupwcb i = 53 /\ pop_key_list (hst s') = [-5]
    /\ exists line s1 raw,
         header_line (load_state (join_lines ["# UPW"; " -5  -1E+30  0  0"])
                        (host1 3 false)) = (Ok line, s1)
         /\ int_at (S:=lstate) (strip_split line) 0 s1 = (Ok raw, s1)
         /\ Upw.i_iupwcb i = (if raw =? 0 then 0 else 53)
         /\ pop_key_list (hst s')
            = pop_key_list (hst s1) ++ (if raw =? 0 then [] else [raw])
         /\ packages (hst s') = packages (hst s1)
         /\ rest s' = rest s1 /\ reads s' = reads s1.
Proof.
  eexists. eexists. split; [vm_compute; reflexivity |].
  split; [reflexivity |]. split; [reflexivity |].
  apply (UpwMore.upw_load_item1_remaps_iupwcb
           (load_state (join_lines ["# UPW"; " -5  -1E+30  0  0"]) (host1 3 false))).
  vm_compute. reflexivity.
Defined.

Lemma upw_load_stores_flags_witness :
  exists m s',
    Upw.load (load_state (upw_file "0" "0") (host1 3 false)) = (Ok m, s')
    /\ Upw.chani m = [1] /\ Upw.npupw m = 0
    /\ exists i s1 fl s2,
         Upw.load_item1 (load_state (upw_file "0" "0") (host1 3 false)) = (Ok i, s1)
         /\ Upw.load_flags (nlay (host1 3 false)) s1 = (Ok fl, s2)
         /\ Upw.laytyp m = Upw.f_laytyp fl /\ Upw.layavg m = Upw.f_layavg fl
         /\ Upw.chani m = map float_to_int (Upw.f_chani fl)
         /\ Upw.layvka m = Upw.f_layvka fl /\ Upw.laywet m = Upw.f_laywet fl
         /\ length (Upw.laytyp m) = nlay (host1 3 false)
         /\ length (Upw.chani m) = nlay (host1 3 false)
         /\ length (Upw.laywet m) = nlay (host1 3 false)
         /\ length (Upw.layavg m) = nlay (host1 3 false)
         /\ length (Upw.layvka m) = nlay (host1 3 false)
         /\ Upw.npupw m = 0
         /\ Upw.iupwcb m = Upw.i_iupwcb i /\ Upw.hdry m = Upw.i_hdry i
         /\ Upw.iphdry m = Upw.i_iphdry i.
Proof.
  eexists. eexists. split; [vm_compute; reflexivity |].
  split; [reflexivity |]. split; [reflexivity |].
  eapply (UpwMore.upw_load_stores_flags (load_state (upw_file "0" "0") (host1 3 false))).
  vm_compute. reflexivity.
Defined.

Lemma upw_load_asks_arrays_in_order_witness :
  exists m s',
    Upw.load (load_state (upw_file "0" "0") (host1 3 false)) = (Ok m, s')
    /\ reads s' = ["hk"; "vka"; "ss"; "sy"]
    /\ exists i s1 fl s2 d,
         Upw.load_item1 (load_state (upw_file "0" "0") (host1 3 false)) = (Ok i, s1)
         /\ Upw.load_flags (nlay (host1 3 false)) s1 = (Ok fl, s2)
         /\ dis (host1 3 false) = Some d
         /\ reads s'
            = [] ++ flat_map
                      (fun k => upw_layer_arrays (flag Upw.lt_one (Upw.f_chani fl) k)
                                  (negb (forallb (fun b => b) (steady d)))
                                  (flag (fun t => negb (t =? 0)) (Upw.f_laytyp fl) k)
                                  (flag (fun c => 0 <? c) (laycbd d) k))
                      (seq 0 (nlay (host1 3 false))).
Proof.
  eexists. eexists. split; [vm_compute; reflexivity |].
  split; [reflexivity |].
  eapply (UpwMore.upw_load_asks_arrays_in_order
            (load_state (upw_file "0" "0") (host1 3 false))).
  vm_compute. reflexivity.
Defined.

Lemma upw_load_registers_on_return_witness :
  exists m s',
    Upw.load (load_state (upw_file "0" "0") (host1 3 false)) = (Ok m, s')
    /\ packages (hst s') = ["DIS"; "UPW"].
Proof.
  eexists. eexists. split; [vm_compute; reflexivity |].
  refine (UpwMore.upw_load_registers_on_return
            (load_state (upw_file "0" "0") (host1 3 false)) (Ok _) _ _).
  vm_compute. reflexivity.
Defined.

Lemma upw_load_without_dis_witness :
  exists s2,
    Upw.load (load_state (upw_file "0" "0") host_no_dis) = (Raise AttributeError, s2)
    /\ reads s2 = [] /\ packages (hst s2) = [].
Proof.
  eexists.
  eapply (UpwMore.upw_load_without_dis (grid:=grid)
            (load_state (upw_file "0" "0") host_no_dis)
            {| Upw.i_iupwcb := 0; Upw.i_hdry := Fin true 1 30; Upw.i_npupw := 0;
               Upw.i_iphdry := 0; Upw.i_noparcheck := false |}).
  - vm_compute. reflexivity.
  - vm_compute. reflexivity.
  - vm_compute. discriminate.
  - vm_compute. discriminate.
  - reflexivity.
Defined.

End MoreWitnesses.
